(** * Customer dashboard: the customer view pipeline

    A shallow embedding of the logic of [CustomerTable.tsx] (record store,
    query engine, preference store, widget order, selection) and of the
    aggregation code of the chart component ([stats], [tagData],
    [activityData]), followed by the properties proved about it.

    Conventions.
    - A JavaScript string is a sequence of code units; [string] stands for it.
    - A [Date] is its time value: milliseconds since the epoch, or NaN.
      [option Z] stands for it, [None] being NaN (an invalid date).
    - What the browser, [Intl] and [faker] supply is collected in the classes
      [StringHost], [DateHost] and [Faker]; definitions and theorems are
      generic in them, and [refStrings], [fixedZone] and [refFaker] are
      executable instances used for concrete evaluations. *)

From Stdlib Require Import ZArith QArith List String Ascii Bool Lia Sorted Permutation.
From stdpp Require Import gmap strings.
Import ListNotations.
Open Scope string_scope.
Open Scope list_scope.
Open Scope Z_scope.

(** ** JavaScript strings *)

Module JS.

(** Truthiness of a string: every string but the empty one. *)
Definition truthy (s : string) : bool :=
  match s with EmptyString => false | String _ _ => true end.

(** [hay.includes(needle)]: [needle] occurs in [hay] as a substring. *)
Fixpoint includes (hay needle : string) : bool :=
  String.prefix needle hay
  || match hay with
     | EmptyString => false
     | String _ rest => includes rest needle
     end.

(** [arr.includes(x)] on an array of strings. *)
Definition arrayIncludes (arr : list string) (x : string) : bool :=
  existsb (String.eqb x) arr.

(** [s.split(sep)] for a non-empty separator. [splitAux] carries the
    piece being read, reversed. *)
Fixpoint revString (acc s : string) : string :=
  match s with
  | EmptyString => acc
  | String c rest => revString (String c acc) rest
  end.

Fixpoint splitAux (sep : string) (skip : nat) (cur s : string) : list string :=
  match s with
  | EmptyString => [revString EmptyString cur]
  | String c rest =>
      match skip with
      | S k => splitAux sep k cur rest
      | O =>
          if String.prefix sep s
          then revString EmptyString cur
               :: splitAux sep (Nat.pred (String.length sep)) EmptyString rest
          else splitAux sep O (String c cur) rest
      end
  end.

Definition split (s sep : string) : list string := splitAux sep O EmptyString s.

(** [arr.join(sep)]. *)
Fixpoint join (sep : string) (arr : list string) : string :=
  match arr with
  | [] => EmptyString
  | [x] => x
  | x :: rest => x +:+ sep +:+ join sep rest
  end.

Definition isDigit (c : ascii) : bool :=
  let n := N_of_ascii c in ((48 <=? n) && (n <=? 57))%N.

Definition digitVal (c : ascii) : Z := Z.of_N (N_of_ascii c) - 48.

(** Value of a run of decimal digits, most significant first. *)
Fixpoint digitsValue (acc : Z) (s : string) : Z :=
  match s with
  | EmptyString => acc
  | String c rest => digitsValue (10 * acc + digitVal c) rest
  end.

Fixpoint allDigits (s : string) : bool :=
  match s with
  | EmptyString => true
  | String c rest => isDigit c && allDigits rest
  end.

(** The longest prefix of decimal digits. *)
Fixpoint digitPrefix (s : string) : string :=
  match s with
  | EmptyString => EmptyString
  | String c rest => if isDigit c then String c (digitPrefix rest) else EmptyString
  end.

(** The host's string functions whose result depends on Unicode tables. *)
Class StringHost := {
  toLowerCase : string -> string;
  trim : string -> string
}.

End JS.

(** ** Dates *)

Module JSDate.

Definition msPerDay : Z := 86400000.

(** [Day(t)] and [TimeWithinDay(t)] of ECMAScript. *)
Definition Day (t : Z) : Z := t / msPerDay.
Definition TimeWithinDay (t : Z) : Z := t mod msPerDay.

(** Day number of a proleptic Gregorian date, month in 1..12. *)
Definition daysFromCivil (y m d : Z) : Z :=
  let y' := if m <=? 2 then y - 1 else y in
  let era := y' / 400 in
  let yoe := y' - era * 400 in
  let mp := (m + 9) mod 12 in
  let doy := (153 * mp + 2) / 5 + d - 1 in
  let doe := yoe * 365 + yoe / 4 - yoe / 100 + doy in
  era * 146097 + doe - 719468.

(** Year, month (1..12) and day of the month of a day number. *)
Definition civilFromDays (z : Z) : Z * Z * Z :=
  let z' := z + 719468 in
  let era := z' / 146097 in
  let doe := z' - era * 146097 in
  let yoe := (doe - doe / 1460 + doe / 36524 - doe / 146096) / 365 in
  let doy := doe - (365 * yoe + yoe / 4 - yoe / 100) in
  let mp := (5 * doy + 2) / 153 in
  let d := doy - (153 * mp + 2) / 5 + 1 in
  let m := if mp <? 10 then mp + 3 else mp - 9 in
  let y := yoe + era * 400 in
  ((if m <=? 2 then y + 1 else y), m, d).

Definition YearFromTime (t : Z) : Z := fst (fst (civilFromDays (Day t))).
(** [MonthFromTime] is zero-based, as [getMonth] is. *)
Definition MonthFromTime (t : Z) : Z := snd (fst (civilFromDays (Day t))) - 1.
Definition DateFromTime (t : Z) : Z := snd (civilFromDays (Day t)).

Definition isLeap (y : Z) : bool :=
  ((y mod 4 =? 0) && negb (y mod 100 =? 0)) || (y mod 400 =? 0).

Definition daysInMonth (y m : Z) : Z :=
  if m =? 2 then (if isLeap y then 29 else 28)
  else if (m =? 4) || (m =? 6) || (m =? 9) || (m =? 11) then 30 else 31.

(** The date-only form [YYYY-MM-DD] of the ECMAScript date-time string
    format: UTC midnight of the day it names.  Strings of another shape, or
    naming a day that does not exist, are left to the host's fallback. *)
Definition isoDateOnly (s : string) : option Z :=
  match s with
  | String y1 (String y2 (String y3 (String y4 (String "-"
      (String m1 (String m2 (String "-" (String d1 (String d2 EmptyString))))))))) =>
      if forallb JS.isDigit [y1; y2; y3; y4; m1; m2; d1; d2] then
        let y := JS.digitsValue 0 (String y1 (String y2 (String y3 (String y4 EmptyString)))) in
        let m := JS.digitsValue 0 (String m1 (String m2 EmptyString)) in
        let d := JS.digitsValue 0 (String d1 (String d2 EmptyString)) in
        if (1 <=? m) && (m <=? 12) && (1 <=? d) && (d <=? daysInMonth y m)
        then Some (daysFromCivil y m d * msPerDay)
        else None
      else None
  | _ => None
  end.

(** What the host decides about dates: the fallback of [Date.parse] for
    strings outside the standard format, the local time zone, and the two
    [Intl] formats the program asks for. *)
Class DateHost := {
  legacyParse : string -> option Z;
  LocalTime : Z -> Z;
  UTC : Z -> Z;
  (** [toLocaleDateString('en-US', {month:'short', day:'numeric', year:'numeric'})] *)
  formatShortDate : Z -> string;
  (** [toLocaleString('default', {month:'short', year:'2-digit'})] *)
  formatMonthYear : Z -> string
}.

Section WithHost.
Context {DH : DateHost}.

(** [new Date(s)]: the time value, [None] for an invalid date. *)
Definition parse (s : string) : option Z :=
  match isoDateOnly s with
  | Some t => Some t
  | None => legacyParse s
  end.

(** [a >= b] and [a <= b] on dates: false as soon as one is invalid. *)
Definition ge (a b : option Z) : bool :=
  match a, b with
  | Some x, Some y => y <=? x
  | _, _ => false
  end.

Definition le (a b : option Z) : bool :=
  match a, b with
  | Some x, Some y => x <=? y
  | _, _ => false
  end.

(** [d.setHours(23, 59, 59, 999)]: the last millisecond of the local day. *)
Definition setHoursEndOfDay (d : option Z) : option Z :=
  match d with
  | Some t => Some (UTC (Day (LocalTime t) * msPerDay + (msPerDay - 1)))
  | None => None
  end.

(** [d.getDate()], [d.getMonth()]: local day of the month and month. *)
Definition getDate (t : Z) : Z := DateFromTime (LocalTime t).
Definition getMonth (d : option Z) : option Z :=
  match d with
  | Some t => Some (MonthFromTime (LocalTime t))
  | None => None
  end.

(** [d.setDate(n)]: day [n] of the local month of [d], same time of day. *)
Definition setDate (t : Z) (n : Z) : Z :=
  let lt := LocalTime t in
  let '(y, m, _) := civilFromDays (Day lt) in
  UTC ((daysFromCivil y m 1 + (n - 1)) * msPerDay + TimeWithinDay lt).

End WithHost.

End JSDate.

(** ** Reference hosts

    Executable instances of the host classes: ASCII case folding and
    trimming, and a zone at a fixed offset from UTC with the [en-US]
    formats: dates print as [Mar 15, 2024] and month labels as [Mar 24].
    Strings outside the standard format are read the way the fallback
    parser of V8 reads a string that names a day. *)

Module RefHost.

Definition lowerAscii (c : ascii) : ascii :=
  let n := N_of_ascii c in
  if ((65 <=? n) && (n <=? 90))%N then ascii_of_N (n + 32) else c.

Fixpoint lowerString (s : string) : string :=
  match s with
  | EmptyString => EmptyString
  | String c rest => String (lowerAscii c) (lowerString rest)
  end.

Definition isSpace (c : ascii) : bool :=
  let n := N_of_ascii c in ((n =? 32) || ((9 <=? n) && (n <=? 13)))%N.

Fixpoint trimStart (s : string) : string :=
  match s with
  | EmptyString => EmptyString
  | String c rest => if isSpace c then trimStart rest else s
  end.

Definition trimBoth (s : string) : string :=
  JS.revString EmptyString (trimStart (JS.revString EmptyString (trimStart s))).

Definition refStrings : JS.StringHost :=
  {| JS.toLowerCase := lowerString; JS.trim := trimBoth |}.

Definition monthNames : list string :=
  ["Jan"; "Feb"; "Mar"; "Apr"; "May"; "Jun";
   "Jul"; "Aug"; "Sep"; "Oct"; "Nov"; "Dec"].

Fixpoint indexOf (x : string) (l : list string) (i : Z) : option Z :=
  match l with
  | [] => None
  | y :: rest => if String.eqb x y then Some i else indexOf x rest (i + 1)
  end.

Fixpoint digitChars (fuel : nat) (n : Z) (acc : string) : string :=
  match fuel with
  | O => acc
  | S f =>
      let acc' := String (ascii_of_N (Z.to_N (48 + n mod 10))) acc in
      if n <? 10 then acc' else digitChars f (n / 10) acc'
  end.

(** Decimal numeral of a non-negative integer below 10^40. *)
Definition decimal (n : Z) : string := digitChars 40 n EmptyString.

Definition twoDigits (n : Z) : string :=
  if n <? 10 then "0" +:+ decimal n else decimal n.

(** *** Reading a date the way V8's fallback parser does

    The string is cut into numbers, words and punctuation.  A word whose
    first three letters are those of a month names the month; any other
    word is skipped before the first number and makes the string invalid
    after it.  Up to three numbers are kept, and read as day, month and
    year once the end is reached.  Time of day and zone are left out: a
    number followed by a colon makes the string invalid here, and so does
    a zone name after a number. *)

Inductive Token :=
  | TNumber (n : Z) (len : nat)
  | TWord (prefix : string) (len : nat)
  | TSymbol (c : ascii)
  | TUnknown.

(** What the scanner is in the middle of. *)
Inductive Pending :=
  | PNone
  | PNumber (n : Z) (significant len : nat)
  | PWord (prefix : string) (len : nat)
  | PParen (balance : nat).

Definition flush (p : Pending) : list Token :=
  match p with
  | PNone => []
  | PNumber n _ len => [TNumber n len]
  | PWord prefix len => [TWord prefix len]
  | PParen _ => [TUnknown]
  end.

(** [ReadUnsignedNumeral]: leading zeros are skipped and nine significant
    digits are kept. *)
Definition addDigit (p : Pending) (d : Z) : Pending :=
  match p with
  | PNumber n significant len =>
      if (d =? 0) && Nat.eqb significant 0 then PNumber n significant (S len)
      else if (significant <? 9)%nat then PNumber (n * 10 + d) (S significant) (S len)
      else PNumber n (S significant) (S len)
  | _ => if d =? 0 then PNumber 0 0 1 else PNumber d 1 1
  end.

(** A word is a run of characters from [A] upwards; its first three
    characters are kept, folded with [c | 0x20]. *)
Definition isWordChar (c : ascii) : bool := (65 <=? N_of_ascii c)%N.

Definition foldChar (c : ascii) : ascii := ascii_of_N (N.lor (N_of_ascii c) 32).

Definition addChar (p : Pending) (c : ascii) : Pending :=
  match p with
  | PWord prefix len =>
      PWord (if (len <? 3)%nat then prefix +:+ String (foldChar c) "" else prefix) (S len)
  | _ => PWord (String (foldChar c) "") 1
  end.

Definition isNumberPending (p : Pending) : bool :=
  match p with PNumber _ _ _ => true | _ => false end.

Definition isWordPending (p : Pending) : bool :=
  match p with PWord _ _ => true | _ => false end.

Fixpoint scan (p : Pending) (s : string) : list Token :=
  match s with
  | EmptyString => flush p
  | String c rest =>
      match p with
      | PParen balance =>
          if Ascii.eqb c ")" then
            match balance with
            | S (S b) => scan (PParen (S b)) rest
            | _ => TUnknown :: scan PNone rest
            end
          else if Ascii.eqb c "(" then scan (PParen (S balance)) rest
          else scan p rest
      | _ =>
          if JS.isDigit c then
            (if isNumberPending p then [] else flush p)
            ++ scan (addDigit p (JS.digitVal c)) rest
          else if isWordChar c then
            (if isWordPending p then [] else flush p) ++ scan (addChar p c) rest
          else if Ascii.eqb c "(" then flush p ++ scan (PParen 1) rest
          else flush p ++ TSymbol c :: scan PNone rest
      end
  end.

Definition monthPrefixes : list string :=
  ["jan"; "feb"; "mar"; "apr"; "may"; "jun";
   "jul"; "aug"; "sep"; "oct"; "nov"; "dec"].

Definition isDay (n : Z) : bool := (1 <=? n) && (n <=? 31).
Definition isMonth (n : Z) : bool := (1 <=? n) && (n <=? 12).

(** The loop over the tokens.  [comp] holds the numbers read so far and
    [named] the month named by a word.  [mode] is 1 right after a number,
    where a colon starts a time of day and a dot or a dash is skipped, 2
    where only a dash is skipped, and 0 elsewhere. *)
Fixpoint compose (ts : list Token) (comp : list Z) (named : option Z) (mode : nat)
  : option (list Z * option Z) :=
  let hasReadNumber := negb (Nat.eqb (length comp) 0) in
  match ts with
  | [] => Some (comp, named)
  | TNumber n _ :: rest =>
      if Nat.eqb (length comp) 3 then None else compose rest (comp ++ [n]) named 1
  | TWord prefix _ :: rest =>
      match indexOf prefix monthPrefixes 1 with
      | Some m => compose rest comp (Some m) 2
      | None =>
          if hasReadNumber then None
          else match rest with
               | TNumber _ _ :: _ => None
               | _ => compose rest comp named 0
               end
      end
  | TSymbol c :: rest =>
      if Ascii.eqb c ":" then
        (if Nat.eqb mode 1 then None else compose rest comp named 0)
      else if Ascii.eqb c "." then
        compose rest comp named (if Nat.eqb mode 1 then 2 else 0)
      else if Ascii.eqb c "-" then
        (if Nat.eqb mode 0 && hasReadNumber then None else compose rest comp named 0)
      else if Ascii.eqb c "+" || Ascii.eqb c ")" then
        (if hasReadNumber then None else compose rest comp named 0)
      else compose rest comp named 0
  | TUnknown :: rest => compose rest comp named 0
  end.

(** [DayComposer::Write]: missing numbers are 1; a first number that
    cannot be a day is the year; years below 50 are in 2000 and years
    below 100 in 1900.  The result is year, month and day. *)
Definition writeDay (comp : list Z) (named : option Z) : option (Z * Z * Z) :=
  match comp with
  | [] => None
  | c0 :: more =>
      let c1 := nth 0 more 1 in
      let c2 := nth 1 more 1 in
      let '(year, month, day) :=
        match named with
        | None => if isDay c0 then (c2, c0, c1) else (c0, c1, c2)
        | Some m => if isDay c0 then (c1, m, c0) else (c0, m, c1)
        end in
      let year := if (0 <=? year) && (year <=? 49) then year + 2000
                  else if (50 <=? year) && (year <=? 99) then year + 1900
                  else year in
      if isMonth month && isDay day then Some (year, month, day) else None
  end.

(** [MakeDay]: a day of the month past the end of the month runs into
    the next one. *)
Definition makeDay (year month day : Z) : Z :=
  (JSDate.daysFromCivil year month 1 + (day - 1)) * JSDate.msPerDay.

(** The forms [YYYY], [YYYY-MM] and [YYYY-MM-DD] with a month in 01..12
    and a day in 01..31, read as UTC. *)
Definition lenientIso (s : string) : option Z :=
  let number a b := JS.digitsValue 0 (String a (String b EmptyString)) in
  let year y1 y2 y3 y4 :=
    JS.digitsValue 0 (String y1 (String y2 (String y3 (String y4 EmptyString)))) in
  match s with
  | String y1 (String y2 (String y3 (String y4 EmptyString))) =>
      if forallb JS.isDigit [y1; y2; y3; y4]
      then Some (makeDay (year y1 y2 y3 y4) 1 1) else None
  | String y1 (String y2 (String y3 (String y4 (String "-"
      (String m1 (String m2 EmptyString)))))) =>
      if forallb JS.isDigit [y1; y2; y3; y4; m1; m2] && isMonth (number m1 m2)
      then Some (makeDay (year y1 y2 y3 y4) (number m1 m2) 1) else None
  | String y1 (String y2 (String y3 (String y4 (String "-"
      (String m1 (String m2 (String "-" (String d1 (String d2 EmptyString))))))))) =>
      if forallb JS.isDigit [y1; y2; y3; y4; m1; m2; d1; d2]
         && isMonth (number m1 m2) && isDay (number d1 d2)
      then Some (makeDay (year y1 y2 y3 y4) (number m1 m2) (number d1 d2)) else None
  | _ => None
  end.

(** A string that names a day, read as midnight of that day: in UTC for
    the three standard forms, in local time otherwise. *)
Definition parseDay (utc : Z -> Z) (s : string) : option Z :=
  match lenientIso s with
  | Some t => Some t
  | None =>
      match compose (scan PNone s) [] None 0 with
      | Some (comp, named) =>
          match writeDay comp named with
          | Some (year, month, day) => Some (utc (makeDay year month day))
          | None => None
          end
      | None => None
      end
  end.

Definition printShortDate (t : Z) : string :=
  let '(y, m, d) := JSDate.civilFromDays (JSDate.Day t) in
  nth (Z.to_nat (m - 1)) monthNames "" +:+ " " +:+ decimal d +:+ ", " +:+ decimal y.

(** Month and two-digit year as [en-US] prints them: [Mar 24]. *)
Definition printMonthYear (t : Z) : string :=
  let '(y, m, _) := JSDate.civilFromDays (JSDate.Day t) in
  nth (Z.to_nat (m - 1)) monthNames "" +:+ " " +:+ twoDigits (y mod 100).

(** A zone [offsetMinutes] ahead of UTC all year round. *)
Definition fixedZone (offsetMinutes : Z) : JSDate.DateHost :=
  let shift := offsetMinutes * 60000 in
  {| JSDate.legacyParse := parseDay (fun t => t - shift);
     JSDate.LocalTime := fun t => t + shift;
     JSDate.UTC := fun t => t - shift;
     JSDate.formatShortDate := fun t => printShortDate (t + shift);
     JSDate.formatMonthYear := fun t => printMonthYear (t + shift) |}.

End RefHost.

(** ** Records *)

Record Customer := mkCustomer {
  id : string;
  name : string;
  avatar : string;
  email : string;
  phone : string;
  tags : list string;
  lastContacted : string
}.

Record DateRange := mkDateRange {
  start : string;
  end_ : string
}.

(** ** Query engine: [filteredData] *)

Module Query.
Section WithHosts.
Context {SH : JS.StringHost} {DH : JSDate.DateHost}.

(** The callback of the text-search [filter]. *)
Definition searchCallback (searchQuery : string) (item : Customer) : bool :=
  JS.includes (JS.toLowerCase (name item)) (JS.toLowerCase searchQuery)
  || JS.includes (JS.toLowerCase (email item)) (JS.toLowerCase searchQuery).

(** The callback of the role/tag [filter]. *)
Definition tagCallback (activeRoleFilter : string) (item : Customer) : bool :=
  JS.arrayIncludes (tags item) activeRoleFilter.

(** The callback of the date-range [filter]. *)
Definition dateCallback (dateRange : DateRange) (item : Customer) : bool :=
  let itemDate := JSDate.parse (lastContacted item) in
  let start := if JS.truthy (start dateRange)
               then JSDate.parse (start dateRange)
               else JSDate.parse "1970-01-01" in
  let end0 := if JS.truthy (end_ dateRange)
              then JSDate.parse (end_ dateRange)
              else JSDate.parse "2100-01-01" in
  let end1 := JSDate.setHoursEndOfDay end0 in
  JSDate.ge itemDate start && JSDate.le itemDate end1.

Definition filteredData (data : list Customer) (searchQuery activeRoleFilter : string)
    (dateRange : DateRange) : list Customer :=
  let result := data in
  let result :=
    if JS.truthy searchQuery
    then List.filter (searchCallback searchQuery) result
    else result in
  let result :=
    if negb (String.eqb activeRoleFilter "All")
    then List.filter (tagCallback activeRoleFilter) result
    else result in
  let result :=
    if JS.truthy (start dateRange) || JS.truthy (end_ dateRange)
    then List.filter (dateCallback dateRange) result
    else result in
  result.

(** The three steps as the specification words them, per record. *)
Definition passesSearch (searchQuery : string) (r : Customer) : bool :=
  String.eqb searchQuery ""
  || JS.includes (JS.toLowerCase (name r)) (JS.toLowerCase searchQuery)
  || JS.includes (JS.toLowerCase (email r)) (JS.toLowerCase searchQuery).

Definition passesTag (activeTag : string) (r : Customer) : bool :=
  String.eqb activeTag "All" || existsb (fun t => String.eqb t activeTag) (tags r).

Definition dateFilterActive (dr : DateRange) : bool :=
  negb (String.eqb (start dr) "") || negb (String.eqb (end_ dr) "").

(** The date-range step of the code, skipped when no bound is set. *)
Definition passesDate (dr : DateRange) (r : Customer) : bool :=
  negb (dateFilterActive dr) || dateCallback dr r.

(** The bounds the code compares against.  An empty [start] stands for
    the epoch and an empty [end] for the first instant of 2100 (UTC). *)
Definition lowerBound (dr : DateRange) : option Z :=
  if String.eqb (start dr) "" then Some 0 else JSDate.parse (start dr).

Definition endInstant (dr : DateRange) : option Z :=
  if String.eqb (end_ dr) "" then Some 4102444800000 else JSDate.parse (end_ dr).

(** Last millisecond of the local calendar day with day number [day]. *)
Definition lastInstantOfLocalDay (day : Z) : Z :=
  JSDate.UTC (day * JSDate.msPerDay + (JSDate.msPerDay - 1)).

(** The date-range step in closed form, on time values: the date of the
    record is valid and lies between the lower bound and the last
    millisecond of the local day that holds the end instant. *)
Definition withinDateBounds (dr : DateRange) (r : Customer) : bool :=
  match JSDate.parse (lastContacted r), lowerBound dr, endInstant dr with
  | Some t, Some lo, Some e =>
      (lo <=? t) && (t <=? lastInstantOfLocalDay (JSDate.Day (JSDate.LocalTime e)))
  | _, _, _ => false
  end.

(** The date-range step as the specification words it: an empty bound is
    no bound at all, and [end] reaches the last instant of the calendar
    day it names. *)
Definition withinSpecifiedRange (dr : DateRange) (r : Customer) : bool :=
  match JSDate.parse (lastContacted r) with
  | None => false
  | Some t =>
      (String.eqb (start dr) ""
       || match JSDate.parse (start dr) with Some s => s <=? t | None => false end)
      && (String.eqb (end_ dr) ""
          || match JSDate.parse (end_ dr) with
             | Some e => t <=? lastInstantOfLocalDay (JSDate.Day e)
             | None => false
             end)
  end.

End WithHosts.
End Query.

(** ** Plain objects used as counters

    [counts] in [tagData] and [activityData] is an object literal [{}]
    filled by assignment.  Its own properties are kept in creation order;
    [entries] lists them the way [Object.entries] does, array-index keys
    first.  A key that is not an own property is still found when
    [Object.prototype] has a member of that name. *)

Module JSObject.

(** The values met in a counter: a number, NaN, a string that is not a
    numeral, or an object (here always a member of [Object.prototype]). *)
Inductive value :=
  | VNum (n : Z)
  | VNaN
  | VText
  | VObj.

Definition t := list (string * value).

(** Names of the members of [Object.prototype]. *)
Definition prototypeNames : list string :=
  ["constructor"; "__defineGetter__"; "__defineSetter__"; "hasOwnProperty";
   "__lookupGetter__"; "__lookupSetter__"; "isPrototypeOf";
   "propertyIsEnumerable"; "toString"; "valueOf"; "__proto__";
   "toLocaleString"].

Definition inherited (k : string) : bool := existsb (String.eqb k) prototypeNames.

Fixpoint getOwn (o : t) (k : string) : option value :=
  match o with
  | [] => None
  | (k', v) :: rest => if String.eqb k k' then Some v else getOwn rest k
  end.

(** [o[k]]; [None] is [undefined]. *)
Definition get (o : t) (k : string) : option value :=
  match getOwn o k with
  | Some v => Some v
  | None => if inherited k then Some VObj else None
  end.

Fixpoint setOwn (o : t) (k : string) (v : value) : t :=
  match o with
  | [] => [(k, v)]
  | (k', v') :: rest =>
      if String.eqb k k' then (k', v) :: rest else (k', v') :: setOwn rest k v
  end.

(** [o[k] = v] for the values a counter stores, which are primitives.
    Assigning one to [__proto__] goes to the setter of [Object.prototype],
    which ignores it. *)
Definition set (o : t) (k : string) (v : value) : t :=
  if String.eqb k "__proto__" then o else setOwn o k v.

Definition truthy (v : option value) : bool :=
  match v with
  | Some (VNum n) => negb (n =? 0)
  | Some VNaN => false
  | Some VText => true
  | Some VObj => true
  | None => false
  end.

(** [v + 1] for a truthy or zero left operand: numbers add, strings and
    objects concatenate into a string that is not a numeral. *)
Definition plusOne (v : value) : value :=
  match v with
  | VNum n => VNum (n + 1)
  | VNaN => VNaN
  | VText => VText
  | VObj => VText
  end.

(** [v++] stores [ToNumber(v) + 1]. *)
Definition increment (v : option value) : value :=
  match v with
  | Some (VNum n) => VNum (n + 1)
  | _ => VNaN
  end.

(** [ToNumber(v)], [None] for NaN. *)
Definition toNumber (v : value) : option Z :=
  match v with
  | VNum n => Some n
  | _ => None
  end.

(** A canonical array index: a decimal numeral without leading zero, at
    most 2^32 - 2. *)
Definition arrayIndex (k : string) : option Z :=
  match k with
  | EmptyString => None
  | String c rest =>
      if JS.allDigits k && (negb (Ascii.eqb c "0") || String.eqb rest "")
      then let n := JS.digitsValue 0 k in
           if n <=? 4294967294 then Some n else None
      else None
  end.

Definition isIndex (k : string) : bool :=
  match arrayIndex k with Some _ => true | None => false end.

Definition indexOfKey (k : string) : Z :=
  match arrayIndex k with Some n => n | None => 0 end.

Fixpoint insertByIndex {V} (e : string * V) (l : list (string * V)) : list (string * V) :=
  match l with
  | [] => [e]
  | e' :: rest =>
      if indexOfKey (fst e) <=? indexOfKey (fst e')
      then e :: l
      else e' :: insertByIndex e rest
  end.

(** Property order: array indices ascending, then the other keys in
    creation order. *)
Definition propertyOrder {V} (l : list (string * V)) : list (string * V) :=
  fold_right insertByIndex [] (List.filter (fun e => isIndex (fst e)) l)
  ++ List.filter (fun e => negb (isIndex (fst e))) l.

(** [Object.entries(o)]. *)
Definition entries (o : t) : list (string * value) := propertyOrder o.

End JSObject.

(** ** [Array.prototype.sort]

    The sort is stable.  A comparator result of NaN ([None]) counts as 0.
    [insertSorted] puts [x] before the first element it does not have to
    follow, which keeps equal elements in their original order. *)

Module JSArray.
Section Sort.
Context {A : Type}.
Variable compareFn : A -> A -> option Z.

Definition mustFollow (x y : A) : bool :=
  match compareFn x y with
  | Some d => 0 <? d
  | None => false
  end.

Fixpoint insertSorted (x : A) (l : list A) : list A :=
  match l with
  | [] => [x]
  | y :: rest => if mustFollow x y then y :: insertSorted x rest else x :: l
  end.

Definition sort (l : list A) : list A := fold_right insertSorted [] l.

(** The comparator is the difference of the integer key [key] on the
    elements of [l]. *)
Definition keyed (key : A -> Z) (l : list A) : Prop :=
  forall x y, In x l -> In y l -> compareFn x y = Some (key x - key y).

End Sort.

(** [a - b] on numbers that may be NaN. *)
Definition minus (a b : option Z) : option Z :=
  match a, b with
  | Some x, Some y => Some (x - y)
  | _, _ => None
  end.

(** [arr.slice(0, n)]. *)
Definition sliceFromStart {A} (n : nat) (l : list A) : list A := firstn n l.

Section Splice.
Context {A : Type}.

(** [arr.splice(start, deleteCount, ...items)], the array afterwards. *)
Definition splice (arr : list A) (start deleteCount : Z) (items : list A) : list A :=
  let len := Z.of_nat (length arr) in
  let actualStart := if start <? 0 then Z.max (len + start) 0 else Z.min start len in
  let actualDeleteCount := Z.min (Z.max deleteCount 0) (len - actualStart) in
  firstn (Z.to_nat actualStart) arr
  ++ items
  ++ skipn (Z.to_nat (actualStart + actualDeleteCount)) arr.

(** [arr[i]], with [undefined] outside the array. *)
Definition at_ (undefined : A) (arr : list A) (i : Z) : A :=
  if i <? 0 then undefined else nth (Z.to_nat i) arr undefined.

End Splice.
End JSArray.

(** ** Aggregation engine: [stats], [tagData], [activityData] *)

Module Charts.

Record Stats := mkStats {
  total : Z;
  leads : Z;
  partners : Z;
  recentContacts : Z
}.

Record TagEntry := mkTagEntry {
  tagName : string;
  tagValue : JSObject.value
}.

Record ActivityEntry := mkActivityEntry {
  label : string;
  count : JSObject.value;
  sortValue : option Z
}.

Definition count_ {A} (f : A -> bool) (l : list A) : Z :=
  Z.of_nat (length (List.filter f l)).

(** [counts[tag] = (counts[tag] || 0) + 1] *)
Definition bumpTag (counts : JSObject.t) (tag : string) : JSObject.t :=
  let old := JSObject.get counts tag in
  let operand := if JSObject.truthy old
                 then match old with Some v => v | None => JSObject.VNum 0 end
                 else JSObject.VNum 0 in
  JSObject.set counts tag (JSObject.plusOne operand).

Definition tagCounts (data : list Customer) : JSObject.t :=
  fold_left (fun counts c => fold_left bumpTag (tags c) counts) data [].

(** [(a, b) => b.value - a.value] *)
Definition byValueDescending (a b : TagEntry) : option Z :=
  JSArray.minus (JSObject.toNumber (tagValue b)) (JSObject.toNumber (tagValue a)).

Definition tagData (data : list Customer) : list TagEntry :=
  JSArray.sliceFromStart 5
    (JSArray.sort byValueDescending
       (map (fun e => mkTagEntry (fst e) (snd e)) (JSObject.entries (tagCounts data)))).


(** *** The tabulations in closed form

    [firstSeen keys] lists the distinct keys in the order in which they
    first occur, [occurrences k keys] counts how often [k] occurs, and
    [tally keys] is the counter object expected after counting [keys]. *)

Definition firstSeen (keys : list string) : list string :=
  fold_left (fun seen k => if existsb (String.eqb k) seen then seen else seen ++ [k])
            keys [].

Definition occurrences (k : string) (keys : list string) : Z :=
  Z.of_nat (count_occ string_dec keys k).

Definition tally (keys : list string) : JSObject.t :=
  map (fun k => (k, JSObject.VNum (occurrences k keys))) (firstSeen keys).

Definition allTags (data : list Customer) : list string := flat_map tags data.

(** Number of records whose tags hold [tag]. *)
Definition recordsWithTag (tag : string) (data : list Customer) : Z :=
  count_ (fun c => JS.arrayIncludes (tags c) tag) data.

Definition tagCount (e : TagEntry) : Z :=
  match tagValue e with JSObject.VNum n => n | _ => 0 end.

Definition toTagEntry (e : string * JSObject.value) : TagEntry :=
  mkTagEntry (fst e) (snd e).

(** Every distinct tag with its number of occurrences, in property order,
    before sorting. *)
Definition tagTable (data : list Customer) : list TagEntry :=
  map toTagEntry (JSObject.propertyOrder (tally (allTags data))).

(** The tag distribution as the specification words it: per distinct tag
    the number of records holding it, in first-encountered order, sorted
    stably by descending count, cut to five. *)
Definition specifiedTagData (data : list Customer) : list TagEntry :=
  firstn 5
    (JSArray.sort byValueDescending
       (map (fun k => mkTagEntry k (JSObject.VNum (recordsWithTag k data)))
            (firstSeen (allTags data)))).

(** [parseInt(s)] for a string that starts with a digit. *)
Definition parseIntDigits (s : string) : Z := JS.digitsValue 0 (JS.digitPrefix s).

Section WithHost.
Context {DH : JSDate.DateHost}.

(** [now] and [now'] are the two clock reads, [new Date()] twice. *)
Definition thirtyDaysAgo (now now' : Z) : Z :=
  JSDate.setDate now' (JSDate.getDate now - 30).

Definition recentCallback (now now' : Z) (c : Customer) : bool :=
  let date := JSDate.parse (lastContacted c) in
  JSDate.ge date (Some (thirtyDaysAgo now now')).

Definition stats (now now' : Z) (data : list Customer) : Stats :=
  {| total := Z.of_nat (length data);
     leads := count_ (fun c => JS.arrayIncludes (tags c) "Lead") data;
     partners := count_ (fun c => JS.arrayIncludes (tags c) "Partner") data;
     recentContacts := count_ (recentCallback now now') data |}.

(** The body of the [forEach] of [activityData]. *)
Definition bumpMonth (counts : JSObject.t) (c : Customer) : JSObject.t :=
  match JSDate.parse (lastContacted c) with
  | None => counts
  | Some t =>
      let key := JSDate.formatMonthYear t in
      let counts1 := if negb (JSObject.truthy (JSObject.get counts key))
                     then JSObject.set counts key (JSObject.VNum 0)
                     else counts in
      JSObject.set counts1 key (JSObject.increment (JSObject.get counts1 key))
  end.

Definition activityCounts (data : list Customer) : JSObject.t :=
  fold_left bumpMonth data [].

(** The key rebuilt from a label: [fullYear * 100 + monthIdx]. *)
Definition rebuildSortValue (name : string) : option Z :=
  let parts := JS.split name " '" in
  let month := nth 0 parts "" in
  let year := match parts with _ :: y :: _ => y | _ => "undefined" end in
  let monthIdx := JSDate.getMonth (JSDate.parse (month +:+ " 1, 2000")) in
  let fullYear := parseIntDigits ("20" +:+ year) in
  match monthIdx with
  | Some m => Some (fullYear * 100 + m)
  | None => None
  end.

(** [(a, b) => a.sortValue - b.sortValue] *)
Definition bySortValue (a b : ActivityEntry) : option Z :=
  JSArray.minus (sortValue a) (sortValue b).

Definition activityData (data : list Customer) : list ActivityEntry :=
  let chartData :=
    map (fun e => mkActivityEntry (fst e) (snd e) (rebuildSortValue (fst e)))
        (JSObject.entries (activityCounts data)) in
  JSArray.sort bySortValue chartData.


(** *** The activity tabulation in closed form *)

(** The month labels of the records whose date parses, in record order. *)
Definition monthLabels (data : list Customer) : list string :=
  flat_map (fun c => match JSDate.parse (lastContacted c) with
                     | Some t => [JSDate.formatMonthYear t]
                     | None => []
                     end) data.

Definition parseable (c : Customer) : bool :=
  match JSDate.parse (lastContacted c) with Some _ => true | None => false end.

(** Number of records whose date parses and carries the label [l]. *)
Definition recordsInBucket (l : string) (data : list Customer) : Z :=
  count_ (fun c => match JSDate.parse (lastContacted c) with
                   | Some t => String.eqb (JSDate.formatMonthYear t) l
                   | None => false
                   end) data.

Definition toActivityEntry (e : string * JSObject.value) : ActivityEntry :=
  mkActivityEntry (fst e) (snd e) (rebuildSortValue (fst e)).

(** Every bucket with its count and rebuilt key, in property order,
    before sorting. *)
Definition activityTable (data : list Customer) : list ActivityEntry :=
  map toActivityEntry (JSObject.propertyOrder (tally (monthLabels data))).

Definition sortKey (e : ActivityEntry) : Z :=
  match sortValue e with Some v => v | None => 0 end.

(** The key of a bucket as the specification words it: year times 100
    plus the month index, of the local month of a record in the bucket. *)
Definition monthKey (t : Z) : Z :=
  JSDate.YearFromTime (JSDate.LocalTime t) * 100
  + JSDate.MonthFromTime (JSDate.LocalTime t).

Definition monthKeyOf (c : Customer) : option Z :=
  match JSDate.parse (lastContacted c) with
  | Some t => Some (monthKey t)
  | None => None
  end.

Definition hasSortValue (e : ActivityEntry) : Prop := sortValue e <> None.

End WithHost.
End Charts.

(** ** Effects of the host: generated values and the clock

    Each call to [faker] or [new Date()] is one draw; the state is the
    number of draws made so far, and the hosts map it to what the draw
    returns. *)

Module Host.

Class Faker := {
  uuid : nat -> string;
  firstName : nat -> string;
  lastName : nat -> string;
  avatarUrl : nat -> string;
  internetEmail : nat -> string;
  phoneNumber : nat -> string;
  (** index drawn by [arrayElements] with [min: 1, max: 1] *)
  pick : nat -> nat
}.

Class Clock := { timeAt : nat -> Z }.

Definition M (A : Type) : Type := nat -> A * nat.

Definition ret {A} (a : A) : M A := fun n => (a, n).

Definition bind {A B} (m : M A) (k : A -> M B) : M B :=
  fun n => let '(a, n') := m n in k a n'.

Definition draw {A} (f : nat -> A) : M A := fun n => (f n, S n).

Fixpoint mapM {A B} (f : A -> M B) (l : list A) : M (list B) :=
  match l with
  | [] => ret []
  | x :: rest =>
      bind (f x) (fun y => bind (mapM f rest) (fun ys => ret (y :: ys)))
  end.

Definition refFaker : Faker :=
  {| uuid := fun n => "id-" +:+ RefHost.decimal (Z.of_nat n);
     firstName := fun _ => "Jane";
     lastName := fun _ => "Doe";
     avatarUrl := fun n => "https://avatars.example/" +:+ RefHost.decimal (Z.of_nat n);
     internetEmail := fun n => "user" +:+ RefHost.decimal (Z.of_nat n) +:+ "@example.com";
     phoneNumber := fun _ => "(555) 010-0000";
     pick := fun n => n |}.

Definition fixedClock (now : Z) : Clock := {| timeAt := fun _ => now |}.

End Host.

Declare Scope host_scope.
Delimit Scope host_scope with host.
Notation "'do' x <- m ; k" := (Host.bind m (fun x => k))
  (at level 10, x name, m at level 100, k at level 200) : host_scope.

Inductive Toast :=
  | ToastSuccess (message : string)
  | ToastError (message : string)
  | ToastInfo (message : string).

(** ** Record store: CSV import, [handleFileChange] *)

Module CsvImport.

(** A row that Papa Parse builds under [header: true]: header to cell. *)
Definition Row := list (string * string).

Fixpoint field (row : Row) (k : string) : option string :=
  match row with
  | [] => None
  | (k', v) :: rest => if String.eqb k k' then Some v else field rest k
  end.

(** [a || b || ...] over cells: the first truthy one. *)
Fixpoint firstTruthy (cells : list (option string)) : option string :=
  match cells with
  | [] => None
  | Some s :: rest => if JS.truthy s then Some s else firstTruthy rest
  | None :: rest => firstTruthy rest
  end.

Section WithHosts.
Context {SH : JS.StringHost} {DH : JSDate.DateHost} {FK : Host.Faker} {CK : Host.Clock}.
Local Open Scope host_scope.

Definition orGenerate (cells : list (option string)) (gen : Host.M string) : Host.M string :=
  match firstTruthy cells with
  | Some s => Host.ret s
  | None => gen
  end.

Definition fullName : Host.M string :=
  do f <- Host.draw Host.firstName ;
  do l <- Host.draw Host.lastName ;
  Host.ret (f +:+ " " +:+ l).

(** [new Date().toLocaleDateString('en-US', ...)] *)
Definition today : Host.M string :=
  do t <- Host.draw Host.timeAt ;
  Host.ret (JSDate.formatShortDate t).

(** [faker.helpers.arrayElements(['Lead', 'New'], { min: 1, max: 1 })] *)
Definition fallbackTags : Host.M (list string) :=
  do i <- Host.draw Host.pick ;
  Host.ret [nth (i mod 2)%nat ["Lead"; "New"] "Lead"].

(** The callback of [results.data.map]. *)
Definition newCustomer (row : Row) : Host.M Customer :=
  do id <- Host.draw Host.uuid ;
  do name <- orGenerate [field row "name"; field row "Name"; field row "Full Name"] fullName ;
  do avatar <- orGenerate [field row "avatar"] (Host.draw Host.avatarUrl) ;
  do email <- orGenerate [field row "email"; field row "Email"] (Host.draw Host.internetEmail) ;
  do phone <- orGenerate [field row "phone"; field row "Phone"] (Host.draw Host.phoneNumber) ;
  do tags <- match firstTruthy [field row "tags"] with
          | Some s => Host.ret (map JS.trim (JS.split s ","))
          | None => fallbackTags
          end ;
  do lastContacted <- today ;
  Host.ret (mkCustomer id name avatar email phone tags lastContacted).

(** The [complete] callback: the record store afterwards and the toast.
    The callback of [map] cannot throw on rows of string cells, so the
    [catch] branch is never taken. *)
Definition complete (rows : list Row) (prev : list Customer)
  : Host.M (list Customer * Toast) :=
  do newCustomers <- Host.mapM newCustomer rows ;
  if (0 <? Z.of_nat (length newCustomers))
  then Host.ret (newCustomers ++ prev,
                 ToastSuccess ("Successfully imported "
                               +:+ RefHost.decimal (Z.of_nat (length newCustomers))
                               +:+ " customers"))
  else Host.ret (prev, ToastError "No valid customer data found in file").




(** The two toasts of the [complete] callback. *)
Definition importedToast (n : nat) : Toast :=
  ToastSuccess ("Successfully imported " +:+ RefHost.decimal (Z.of_nat n) +:+ " customers").

Definition nothingImportedToast : Toast :=
  ToastError "No valid customer data found in file".

(** What Papa Parse hands back for the chosen file: the rows, to the
    [complete] callback, or a failure, to the [error] callback. *)
Inductive ParseOutcome :=
  | Parsed (rows : list Row)
  | Failed.

(** [handleFileChange]: nothing happens without a file. *)
Definition handleFileChange (file : option ParseOutcome) (prev : list Customer)
  : Host.M (list Customer * option Toast) :=
  match file with
  | None => Host.ret (prev, None)
  | Some (Parsed rows) =>
      do outcome <- complete rows prev ;
      Host.ret (fst outcome, Some (snd outcome))
  | Some Failed => Host.ret (prev, Some (ToastError "Failed to parse CSV file"))
  end.

End WithHosts.
End CsvImport.

(** ** Record store: the edit form, [handleModalSubmit] *)

Module Form.

Record CustomerFormData := mkFormData {
  firstName : string;
  lastName : string;
  email : string;
  phone : string;
  role : string
}.

(** [initialData] handed to the modal when a record is edited. *)
Definition initialData (editingCustomer : Customer) : CustomerFormData :=
  let 'mkCustomer _ name _ email phone tags _ := editingCustomer in
  let parts := JS.split name " " in
  mkFormData (nth 0 parts "")
             (JS.join " " (tl parts))
             email
             phone
             (match tags with
              | t :: _ => if JS.truthy t then t else "Lead"
              | [] => "Lead"
              end).

Section WithHosts.
Context {DH : JSDate.DateHost} {FK : Host.Faker} {CK : Host.Clock}.
Local Open Scope host_scope.

(** The callback of [prev.map] in the editing branch. *)
Definition applyEdit (editingCustomer : Customer) (formData : CustomerFormData)
    (c : Customer) : Customer :=
  if String.eqb (id c) (id editingCustomer)
  then mkCustomer (id c)
                  (firstName formData +:+ " " +:+ lastName formData)
                  (avatar c)
                  (email formData)
                  (phone formData)
                  [role formData]
                  (lastContacted c)
  else c.

(** The record store afterwards and the toast. *)
Definition handleModalSubmit (editingCustomer : option Customer)
    (formData : CustomerFormData) (prev : list Customer)
  : Host.M (list Customer * Toast) :=
  match editingCustomer with
  | Some editing =>
      Host.ret (map (applyEdit editing formData) prev,
                ToastSuccess "Customer updated successfully")
  | None =>
      do id <- Host.draw Host.uuid ;
      do avatar <- Host.draw Host.avatarUrl ;
      do lastContacted <- CsvImport.today ;
      let newCustomer :=
        mkCustomer id (firstName formData +:+ " " +:+ lastName formData) avatar
                   (email formData) (phone formData) [role formData] lastContacted in
      Host.ret (newCustomer :: prev, ToastSuccess "Customer added successfully")
  end.

End WithHosts.
End Form.

(** ** Selection: [handleToggleAll] and [isAllSelected] *)

Module Selection.

Definition handleToggleAll (selectedIds : gset string) (filteredData : list Customer)
  : gset string :=
  if (Nat.eqb (size selectedIds) (length filteredData))
     && (0 <? length filteredData)%nat
  then ∅
  else list_to_set (map id filteredData).

Definition isAllSelected (selectedIds : gset string) (filteredData : list Customer) : bool :=
  (0 <? length filteredData)%nat && Nat.eqb (size selectedIds) (length filteredData).

End Selection.

(** ** Widget order: [handleReorderWidgets] *)

Module Widgets.
Section Reorder.
Context {A : Type}.
Variable undefined : A.

(** [update(prevOrder, {$splice: [[dragIndex, 1],
    [hoverIndex, 0, prevOrder[dragIndex]]]})]: both splices run in turn on
    a copy of [prevOrder]. *)
Definition handleReorderWidgets (prevOrder : list A) (dragIndex hoverIndex : Z) : list A :=
  let dragged := JSArray.at_ undefined prevOrder dragIndex in
  JSArray.splice (JSArray.splice prevOrder dragIndex 1 []) hoverIndex 0 [dragged].

End Reorder.

(** The list without its element at [i], and with [x] put at [i]. *)
Definition removeAt {A} (i : nat) (l : list A) : list A := firstn i l ++ skipn (S i) l.
Definition insertAt {A} (i : nat) (x : A) (l : list A) : list A :=
  firstn i l ++ x :: skipn i l.

Definition DEFAULT_WIDGET_ORDER : list string := ["stats"; "line"; "bar"; "pie"].

End Widgets.

(** ** Preference store: the loading effect *)

Module Prefs.

(** What [JSON.parse] returns.  Numbers are the integers. *)
#[warnings="-register-all"]
Inductive json :=
  | JNull
  | JBool (b : bool)
  | JNum (n : Z)
  | JStr (s : string)
  | JArr (items : list json)
  | JObj (members : list (string * json)).

Fixpoint lookup (members : list (string * json)) (k : string) : option json :=
  match members with
  | [] => None
  | (k', v) :: rest => if String.eqb k k' then Some v else lookup rest k
  end.

(** Outcome of an expression that may throw. *)
Inductive result (A : Type) :=
  | Ok (a : A)
  | Throw.
Arguments Ok {A} a.
Arguments Throw {A}.

(** [parsed.k] for the preference names: a [TypeError] on [null],
    [undefined] ([None]) on a primitive or an array. *)
Definition getProp (parsed : json) (k : string) : result (option json) :=
  match parsed with
  | JNull => Throw
  | JObj members => Ok (lookup members k)
  | _ => Ok None
  end.

Definition truthy (v : option json) : bool :=
  match v with
  | None => false
  | Some JNull => false
  | Some (JBool b) => b
  | Some (JNum n) => negb (n =? 0)
  | Some (JStr s) => JS.truthy s
  | Some (JArr _) => true
  | Some (JObj _) => true
  end.

(** [SameValueZero] on freshly parsed values: primitives by value, and an
    array or object only equals itself. *)
Definition sameValueZero (a b : json) : bool :=
  match a, b with
  | JNull, JNull => true
  | JBool x, JBool y => Bool.eqb x y
  | JNum x, JNum y => x =? y
  | JStr x, JStr y => String.eqb x y
  | _, _ => false
  end.

Fixpoint addAll (seen : list json) (items : list json) : list json :=
  match items with
  | [] => seen
  | x :: rest =>
      if existsb (sameValueZero x) seen then addAll seen rest
      else addAll (seen ++ [x]) rest
  end.

Fixpoint chars (s : string) : list json :=
  match s with
  | EmptyString => []
  | String c rest => JStr (String c EmptyString) :: chars rest
  end.

(** [new Set(v)], the elements in insertion order: a [TypeError] when [v]
    is not iterable. *)
Definition newSet (v : json) : result (list json) :=
  match v with
  | JArr items => Ok (addAll [] items)
  | JStr s => Ok (addAll [] (chars s))
  | _ => Throw
  end.

Definition isArray (v : json) : bool :=
  match v with JArr _ => true | _ => false end.

Record State := mkState {
  rowsPerPage : json;
  activeRoleFilter : json;
  hiddenColumns : list json;
  dateRange : json;
  visibleCharts : json;
  chartTheme : json;
  customColor : json;
  widgetOrder : json;
  widgetSizes : json;
  prefsLoaded : bool
}.

(** The initial values handed to [useState]. *)
Definition defaults : State :=
  {| rowsPerPage := JNum 10;
     activeRoleFilter := JStr "All";
     hiddenColumns := [JStr "avatar"];
     dateRange := JObj [("start", JStr ""); ("end", JStr "")];
     visibleCharts := JObj [("stats", JBool true); ("bar", JBool true);
                            ("pie", JBool true); ("line", JBool true)];
     chartTheme := JStr "indigo";
     customColor := JStr "#4f46e5";
     widgetOrder := JArr [JStr "stats"; JStr "line"; JStr "bar"; JStr "pie"];
     widgetSizes := JObj [("stats", JStr "full"); ("line", JStr "full");
                          ("bar", JStr "half"); ("pie", JStr "half")];
     prefsLoaded := false |}.

Definition setRowsPerPage v st :=
  mkState v (activeRoleFilter st) (hiddenColumns st) (dateRange st) (visibleCharts st)
          (chartTheme st) (customColor st) (widgetOrder st) (widgetSizes st) (prefsLoaded st).
Definition setActiveRoleFilter v st :=
  mkState (rowsPerPage st) v (hiddenColumns st) (dateRange st) (visibleCharts st)
          (chartTheme st) (customColor st) (widgetOrder st) (widgetSizes st) (prefsLoaded st).
Definition setHiddenColumns v st :=
  mkState (rowsPerPage st) (activeRoleFilter st) v (dateRange st) (visibleCharts st)
          (chartTheme st) (customColor st) (widgetOrder st) (widgetSizes st) (prefsLoaded st).
Definition setDateRange v st :=
  mkState (rowsPerPage st) (activeRoleFilter st) (hiddenColumns st) v (visibleCharts st)
          (chartTheme st) (customColor st) (widgetOrder st) (widgetSizes st) (prefsLoaded st).
Definition setVisibleCharts v st :=
  mkState (rowsPerPage st) (activeRoleFilter st) (hiddenColumns st) (dateRange st) v
          (chartTheme st) (customColor st) (widgetOrder st) (widgetSizes st) (prefsLoaded st).
Definition setChartTheme v st :=
  mkState (rowsPerPage st) (activeRoleFilter st) (hiddenColumns st) (dateRange st)
          (visibleCharts st) v (customColor st) (widgetOrder st) (widgetSizes st) (prefsLoaded st).
Definition setCustomColor v st :=
  mkState (rowsPerPage st) (activeRoleFilter st) (hiddenColumns st) (dateRange st)
          (visibleCharts st) (chartTheme st) v (widgetOrder st) (widgetSizes st) (prefsLoaded st).
Definition setWidgetOrder v st :=
  mkState (rowsPerPage st) (activeRoleFilter st) (hiddenColumns st) (dateRange st)
          (visibleCharts st) (chartTheme st) (customColor st) v (widgetSizes st) (prefsLoaded st).
Definition setWidgetSizes v st :=
  mkState (rowsPerPage st) (activeRoleFilter st) (hiddenColumns st) (dateRange st)
          (visibleCharts st) (chartTheme st) (customColor st) (widgetOrder st) v (prefsLoaded st).
Definition setPrefsLoaded b st :=
  mkState (rowsPerPage st) (activeRoleFilter st) (hiddenColumns st) (dateRange st)
          (visibleCharts st) (chartTheme st) (customColor st) (widgetOrder st)
          (widgetSizes st) b.

(** A statement of the [try] block: the state afterwards, or a throw. *)
Definition statement := State -> result State.

(** [if (parsed.k) set(parsed.k);] *)
Definition ifPresent (parsed : json) (k : string) (set : json -> State -> State) : statement :=
  fun st =>
    match getProp parsed k with
    | Throw => Throw
    | Ok v => if truthy v
              then match v with Some j => Ok (set j st) | None => Ok st end
              else Ok st
    end.

(** [if (parsed.hiddenColumns) setHiddenColumns(new Set(parsed.hiddenColumns));] *)
Definition loadHiddenColumns (parsed : json) : statement :=
  fun st =>
    match getProp parsed "hiddenColumns" with
    | Throw => Throw
    | Ok v => if truthy v
              then match v with
                   | Some j => match newSet j with
                               | Ok s => Ok (setHiddenColumns s st)
                               | Throw => Throw
                               end
                   | None => Ok st
                   end
              else Ok st
    end.

(** [if (parsed.widgetOrder && Array.isArray(parsed.widgetOrder)) ...] *)
Definition loadWidgetOrder (parsed : json) : statement :=
  fun st =>
    match getProp parsed "widgetOrder" with
    | Throw => Throw
    | Ok v => if truthy v
              then match v with
                   | Some j => if isArray j then Ok (setWidgetOrder j st) else Ok st
                   | None => Ok st
                   end
              else Ok st
    end.

(** The statements of the [try] block, in order. *)
Definition tryBlock (parsed : json) : list statement :=
  [ ifPresent parsed "rowsPerPage" setRowsPerPage;
    ifPresent parsed "activeRoleFilter" setActiveRoleFilter;
    loadHiddenColumns parsed;
    ifPresent parsed "dateRange" setDateRange;
    ifPresent parsed "visibleCharts" setVisibleCharts;
    ifPresent parsed "chartTheme" setChartTheme;
    ifPresent parsed "customColor" setCustomColor;
    loadWidgetOrder parsed;
    ifPresent parsed "widgetSizes" setWidgetSizes ].

(** [try { ... } catch (e) { console.error(...) }]: a throw ends the block
    and keeps what the statements before it have set. *)
Fixpoint tryCatch (block : list statement) (st : State) : State :=
  match block with
  | [] => st
  | s :: rest =>
      match s st with
      | Ok st' => tryCatch rest st'
      | Throw => st
      end
  end.

(** The [try] block applied to an already parsed blob. *)
Definition applyParsed (parsed : json) (st : State) : State :=
  tryCatch (tryBlock parsed) st.

(** *** Field-by-field loading, as the specification words it *)

(** [set] applied to the stored value when there is a truthy one. *)
Definition condSet (v : option json) (set : json -> State -> State) (st : State) : State :=
  match v with
  | Some j => if truthy v then set j st else st
  | None => st
  end.

(** The stored value when there is a truthy one, else the current one. *)
Definition loaded (v : option json) (current : json) : json :=
  match v with
  | Some j => if truthy v then j else current
  | None => current
  end.

Definition loadedArray (v : option json) (current : json) : json :=
  match v with
  | Some j => if truthy v && isArray j then j else current
  | None => current
  end.

Definition loadedSet (v : option json) (current : list json) : list json :=
  match v with
  | Some j => if truthy v
              then match newSet j with Ok s => s | Throw => current end
              else current
  | None => current
  end.

(** The stored [hiddenColumns] is absent, falsy, or can be iterated. *)
Definition hiddenColumnsLoadable (members : list (string * json)) : Prop :=
  match lookup members "hiddenColumns" with
  | Some j => truthy (Some j) = true -> exists s, newSet j = Ok s
  | None => True
  end.

Section WithParser.
(** [JSON.parse], [None] when it throws a [SyntaxError]. *)
Variable JSON_parse : string -> option json.

(** The effect run once on mount; [savedPrefs] is what
    [localStorage.getItem(STORAGE_KEY)] returned. *)
Definition load (savedPrefs : option string) (st : State) : State :=
  let st1 :=
    match savedPrefs with
    | Some blob =>
        if JS.truthy blob
        then match JSON_parse blob with
             | Some parsed => applyParsed parsed st
             | None => st
             end
        else st
    | None => st
    end in
  setPrefsLoaded true st1.

End WithParser.
End Prefs.

(** ** Sample data for concrete evaluations *)

Module Sample.

Definition utc : JSDate.DateHost := RefHost.fixedZone 0.
Definition utcPlus2 : JSDate.DateHost := RefHost.fixedZone 120.

Definition customer (id name email : string) (tags : list string)
    (lastContacted : string) : Customer :=
  mkCustomer id name "" email "" tags lastContacted.

Definition ada1969 : Customer :=
  customer "c1" "Ada Lovelace" "ada@example.com" ["Lead"] "Dec 31, 1969".

Definition bob2024 : Customer :=
  customer "c2" "Bob Stone" "bob@example.com" ["Partner"] "Mar 15, 2024".

Definition eve2100 : Customer :=
  customer "c3" "Eve Long" "eve@example.com" ["VIP"] "Jan 2, 2100".

Definition utcMinus5 : JSDate.DateHost := RefHost.fixedZone (-300).
Definition since2020 : DateRange := mkDateRange "2020-01-01" "".
Definition untilMarch15 : DateRange := mkDateRange "" "2024-03-15".

Definition untilNewYear2020 : DateRange := mkDateRange "" "2020-01-01".
Definition firstHalfOfMarch2024 : DateRange := mkDateRange "2024-03-01" "2024-03-15".


(** The example of the specification: [{tags:[A]}] and [{tags:[A,B]}]. *)
Definition tagsAAB : list Customer :=
  [customer "t1" "" "" ["A"] ""; customer "t2" "" "" ["A"; "B"] ""].

(** A record with a repeated tag, and a tag that is an array index. *)
Definition tagsRepeatedAndNumeric : list Customer :=
  [customer "t1" "" "" ["VIP"] "";
   customer "t2" "" "" ["7"] "";
   customer "t3" "" "" ["Lead"; "Lead"] ""].

(** A tag that names a member of [Object.prototype]. *)
Definition tagsWithConstructor : list Customer :=
  [customer "t1" "" "" ["constructor"] ""; customer "t2" "" "" ["Lead"] ""].


(** Four records, one of them with a date that does not parse. *)
Definition activitySample : list Customer :=
  [customer "a1" "" "" [] "Mar 15, 2024";
   customer "a2" "" "" [] "Jan 5, 2024";
   customer "a3" "" "" [] "not a date";
   customer "a4" "" "" [] "Mar 1, 2024"].


(** Two records of one year of contacts, on either side of New Year. *)
Definition acrossNewYear : list Customer :=
  [customer "m1" "" "" [] "Dec 14, 2025";
   customer "m2" "" "" [] "Mar 15, 2026"].

(** Every label [en-US] prints for a month of a year in 2000..2099. *)
Definition allMonthLabels : list (Z * string) :=
  flat_map (fun m => map (fun y => (Z.of_nat m,
                                     nth m RefHost.monthNames "" +:+ " "
                                     +:+ RefHost.twoDigits (Z.of_nat y)))
                         (seq 0 100))
           (seq 0 12).

(** Noon (UTC) of Nov 2, 2026, and midnight of the same day. *)
Definition noonNov2 : Z := JSDate.daysFromCivil 2026 11 2 * JSDate.msPerDay + 43200000.
Definition midnightNov2 : Z := JSDate.daysFromCivil 2026 11 2 * JSDate.msPerDay.

(** A contact made in the evening of Oct 3, 2026 (UTC). *)
Definition eveningOct3 : Z := JSDate.daysFromCivil 2026 10 3 * JSDate.msPerDay + 64800000.
Definition contactedOct3 : Customer :=
  customer "r2" "Di Edge" "di@example.com" ["Lead"] "Oct 3, 2026".
Definition contactedOct2 : Customer :=
  customer "r3" "Ed Late" "ed@example.com" ["Lead"] "Oct 2, 2026".


(** A parsed file with header [Name,Email] and one data row. *)
Definition oneRow : list CsvImport.Row :=
  [[("Name", "Grace Hopper"); ("Email", "grace@example.com")]].


(** A stored blob whose [hiddenColumns] is a number, and one whose
    [widgetOrder] is a string; the other members are well formed. *)
Definition blobBadHiddenColumns : Prefs.json :=
  Prefs.JObj [("rowsPerPage", Prefs.JNum 25);
              ("hiddenColumns", Prefs.JNum 5);
              ("chartTheme", Prefs.JStr "emerald")].

Definition blobBadWidgetOrder : Prefs.json :=
  Prefs.JObj [("widgetOrder", Prefs.JStr "oops");
              ("widgetSizes", Prefs.JObj [("stats", Prefs.JStr "half")])].

Definition selectedElsewhere : gset string := {[ "zz" ]}.


(** A record with two tags, and the form as the modal prefills it. *)
Definition twoTags : Customer :=
  mkCustomer "e1" "Flo Rivers" "https://avatars.example/flo" "flo@example.com"
             "555-0101" ["VIP"; "Overseas"] "Jan 5, 2024".

End Sample.

(** ** Filter state: [hasActiveFilters], [clearFilters], chart clicks *)

Module Filters.

Record FilterState := mkFilterState {
  searchQuery : string;
  activeRoleFilter : string;
  dateRange : DateRange
}.

(** [searchQuery || activeRoleFilter !== 'All' || dateRange.start ||
    dateRange.end], as the truth value the JSX tests. *)
Definition hasActiveFilters (fs : FilterState) : bool :=
  JS.truthy (searchQuery fs)
  || negb (String.eqb (activeRoleFilter fs) "All")
  || JS.truthy (start (dateRange fs))
  || JS.truthy (end_ (dateRange fs)).

(** [!!dateRange.start || !!dateRange.end] *)
Definition isDateFilterActive (fs : FilterState) : bool :=
  JS.truthy (start (dateRange fs)) || JS.truthy (end_ (dateRange fs)).

Definition clearFilters (fs : FilterState) : FilterState * Toast :=
  (mkFilterState "" "All" (mkDateRange "" ""), ToastInfo "Filters cleared").

(** [handleChartFilter]: the scroll into view is left out. *)
Definition handleChartFilter (tag : string) (fs : FilterState) : FilterState * Toast :=
  (mkFilterState (searchQuery fs) tag (dateRange fs), ToastInfo ("Filtered by " +:+ tag)).

(** [handleChartClick] of the charts, wired to [handleChartFilter]:
    [name] is [data.name], [None] when [data] or the name is missing. *)
Definition handleChartClick (name : option string) (fs : FilterState)
  : FilterState * option Toast :=
  match name with
  | Some n => if JS.truthy n
              then (fst (handleChartFilter n fs), Some (snd (handleChartFilter n fs)))
              else (fs, None)
  | None => (fs, None)
  end.

Section WithHosts.
Context {SH : JS.StringHost} {DH : JSDate.DateHost}.

(** [filteredData] for the filters of a state. *)
Definition visible (data : list Customer) (fs : FilterState) : list Customer :=
  Query.filteredData data (searchQuery fs) (activeRoleFilter fs) (dateRange fs).

End WithHosts.
End Filters.

(** ** Record store: delete, selection, bulk delete, export *)

Module Store.

Record TableState := mkTableState {
  data : list Customer;
  selectedIds : gset string
}.

(** [actionsRef.current.delete]; [confirmed] is what [confirm] returned. *)
Definition delete (confirmed : bool) (target : string) (st : TableState)
  : TableState * option Toast :=
  if confirmed
  then (mkTableState
          (List.filter (fun c => negb (String.eqb (id c) target)) (data st))
          (selectedIds st ∖ {[ target ]}),
        Some (ToastSuccess "Customer deleted"))
  else (st, None).

(** [actionsRef.current.toggleSelect] *)
Definition toggleSelect (target : string) (prev : gset string) : gset string :=
  if bool_decide (target ∈ prev) then prev ∖ {[ target ]} else prev ∪ {[ target ]}.

(** [toggleColumnVisibility] *)
Definition toggleColumnVisibility (columnId : string) (prev : gset string) : gset string :=
  if bool_decide (columnId ∈ prev) then prev ∖ {[ columnId ]} else prev ∪ {[ columnId ]}.

(** [handleBulkDelete]; the message of [confirm] is left out. *)
Definition handleBulkDelete (confirmed : bool) (st : TableState)
  : TableState * option Toast :=
  if confirmed
  then (mkTableState
          (List.filter (fun c => negb (bool_decide (id c ∈ selectedIds st))) (data st))
          ∅,
        Some (ToastSuccess "Customers deleted"))
  else (st, None).

(** [actionsRef.current.edit]: the record the modal opens on, if any. *)
Definition edit (target : string) (st : TableState) : option Customer :=
  List.find (fun c => String.eqb (id c) target) (data st).

(** [selectedCustomers] and [exportData] of [handleExportSelected]. *)
Definition selectedCustomers (st : TableState) : list Customer :=
  List.filter (fun c => bool_decide (id c ∈ selectedIds st)) (data st).

Definition exportRow (c : Customer) : CsvImport.Row :=
  [("name", name c); ("email", email c); ("phone", phone c);
   ("tags", JS.join ", " (tags c)); ("lastContacted", lastContacted c)].

Definition exportData (st : TableState) : list CsvImport.Row :=
  map exportRow (selectedCustomers st).

(** [handleExportSelected]: the rows handed to [Papa.unparse] and the
    toast, or nothing when no record is selected.  Building the download
    link is left out. *)
Definition handleExportSelected (st : TableState) : option (list CsvImport.Row * Toast) :=
  if (length (selectedCustomers st) =? 0)%nat
  then None
  else Some (exportData st,
             ToastSuccess ("Exported "
                           +:+ RefHost.decimal (Z.of_nat (length (selectedCustomers st)))
                           +:+ " customers")).

End Store.

(** ** Widgets: sizes, visibility, what is rendered, dragging *)

Module Layout.

(** [handleToggleWidgetSize]: [{...prev, [id]: prev[id] === 'full' ?
    'half' : 'full'}]. *)
Definition handleToggleWidgetSize (widget : string) (prev : gmap string string)
  : gmap string string :=
  <[ widget := if bool_decide (prev !! widget = Some "full") then "half" else "full" ]> prev.

(** [toggleChartVisibility]: [{...prev, [chartId]: !prev[chartId]}]. *)
Definition toggleChartVisibility (chartId : string) (prev : gmap string bool)
  : gmap string bool :=
  <[ chartId := negb (default false (prev !! chartId)) ]> prev.







(** A drag in progress: the widget order and [item.index]. *)
Record Drag := mkDrag {
  order : list string;
  itemIndex : Z
}.

(** One [hover] event over the widget at [hoverIndex], with the pointer at
    [hoverClientY] and the middle of the widget at [hoverMiddleY], both
    measured from the top of the widget.  [moveWidget] is
    [handleReorderWidgets]. *)
Definition hover (hoverIndex : Z) (hoverClientY hoverMiddleY : Q) (d : Drag) : Drag :=
  let dragIndex := itemIndex d in
  if dragIndex =? hoverIndex then d
  else if (dragIndex <? hoverIndex) && negb (Qle_bool hoverMiddleY hoverClientY) then d
  else if (hoverIndex <? dragIndex) && negb (Qle_bool hoverClientY hoverMiddleY) then d
  else mkDrag (Widgets.handleReorderWidgets "undefined" (order d) dragIndex hoverIndex)
              hoverIndex.

Record HoverEvent := mkHoverEvent {
  over : Z;
  clientY : Q;
  middleY : Q
}.

Definition hoverAll (events : list HoverEvent) (d : Drag) : Drag :=
  fold_left (fun d e => hover (over e) (clientY e) (middleY e) d) events d.

End Layout.

(** ** Light and dark theme: [App] *)

Module Theme.

Record State := mkState {
  isDark : bool;
  (** the class [dark] is on the document element *)
  documentDark : bool;
  (** [localStorage.getItem('theme')] *)
  savedTheme : option string
}.

(** A freshly loaded page over what the storage holds. *)
Definition freshPage (saved : option string) : State := mkState false false saved.

(** The effect run on mount; [prefersDark] is the media query
    [(prefers-color-scheme: dark)]. *)
Definition init (prefersDark : bool) (st : State) : State :=
  match savedTheme st with
  | Some s =>
      if String.eqb s "dark" then mkState true true (savedTheme st)
      else if String.eqb s "light" then mkState false false (savedTheme st)
      else if prefersDark then mkState true true (savedTheme st)
      else st
  | None => if prefersDark then mkState true true (savedTheme st) else st
  end.

Definition toggleTheme (st : State) : State :=
  let newIsDark := negb (isDark st) in
  if newIsDark
  then mkState true true (Some "dark")
  else mkState false false (Some "light").

End Theme.

(** ** Preference store: the saving effect *)

Module PrefsSave.

(** [prefsToSave] *)
Definition prefsToSave (st : Prefs.State) : Prefs.json :=
  Prefs.JObj
    [("rowsPerPage", Prefs.rowsPerPage st);
     ("activeRoleFilter", Prefs.activeRoleFilter st);
     ("hiddenColumns", Prefs.JArr (Prefs.hiddenColumns st));
     ("dateRange", Prefs.dateRange st);
     ("visibleCharts", Prefs.visibleCharts st);
     ("chartTheme", Prefs.chartTheme st);
     ("customColor", Prefs.customColor st);
     ("widgetOrder", Prefs.widgetOrder st);
     ("widgetSizes", Prefs.widgetSizes st)].

Section WithJSON.
(** [JSON.stringify] on the values a state holds. *)
Variable JSON_stringify : Prefs.json -> string.

(** The saving effect: what the storage key holds afterwards. *)
Definition save (st : Prefs.State) (stored : option string) : option string :=
  if negb (Prefs.prefsLoaded st) then stored
  else Some (JSON_stringify (prefsToSave st)).

End WithJSON.

(** No two elements are the same value: what a [Set] holds. *)
Fixpoint distinct (items : list Prefs.json) : bool :=
  match items with
  | [] => true
  | x :: rest => negb (existsb (Prefs.sameValueZero x) rest) && distinct rest
  end.

(** Every preference is a value the loading effect takes over. *)
Definition restorable (st : Prefs.State) : Prop :=
  Prefs.truthy (Some (Prefs.rowsPerPage st)) = true
  /\ Prefs.truthy (Some (Prefs.activeRoleFilter st)) = true
  /\ distinct (Prefs.hiddenColumns st) = true
  /\ Prefs.truthy (Some (Prefs.dateRange st)) = true
  /\ Prefs.truthy (Some (Prefs.visibleCharts st)) = true
  /\ Prefs.truthy (Some (Prefs.chartTheme st)) = true
  /\ Prefs.truthy (Some (Prefs.customColor st)) = true
  /\ Prefs.isArray (Prefs.widgetOrder st) = true
  /\ Prefs.truthy (Some (Prefs.widgetSizes st)) = true.

End PrefsSave.

(** ** A session: the handlers that change the store or the selection *)

Module Session.
Section WithHosts.
Context {SH : JS.StringHost} {DH : JSDate.DateHost} {FK : Host.Faker} {CK : Host.Clock}.

(** One user action.  A row checkbox exists for the rows of the view
    only, so [toggleSelect] is called with the id of such a row. *)
Inductive step : Store.TableState -> Store.TableState -> Prop :=
  | StepToggleSelect st fs c :
      In c (Filters.visible (Store.data st) fs) ->
      step st (Store.mkTableState (Store.data st)
                 (Store.toggleSelect (id c) (Store.selectedIds st)))
  | StepToggleAll st fs :
      step st (Store.mkTableState (Store.data st)
                 (Selection.handleToggleAll (Store.selectedIds st)
                    (Filters.visible (Store.data st) fs)))
  | StepClearSelection st :
      step st (Store.mkTableState (Store.data st) ∅)
  | StepDelete st confirmed target :
      step st (fst (Store.delete confirmed target st))
  | StepBulkDelete st confirmed :
      step st (fst (Store.handleBulkDelete confirmed st))
  | StepImport st rows n :
      step st (Store.mkTableState
                 (fst (fst (CsvImport.complete rows (Store.data st) n)))
                 (Store.selectedIds st))
  | StepSubmit st editing formData n :
      step st (Store.mkTableState
                 (fst (fst (Form.handleModalSubmit editing formData (Store.data st) n)))
                 (Store.selectedIds st)).

Inductive steps : Store.TableState -> Store.TableState -> Prop :=
  | StepsDone st : steps st st
  | StepsMore st1 st2 st3 : step st1 st2 -> steps st2 st3 -> steps st1 st3.

(** Every selected id is the id of a stored record. *)
Definition selectionInStore (st : Store.TableState) : Prop :=
  forall x, x ∈ Store.selectedIds st -> exists c, In c (Store.data st) /\ id c = x.

End WithHosts.
End Session.

(** ** Totals of the tabulations *)

Module Totals.

Definition activityCount (e : Charts.ActivityEntry) : Z :=
  match Charts.count e with JSObject.VNum n => n | _ => 0 end.

(** The values of the bars, added up. *)
Definition sumTags (l : list Charts.TagEntry) : Z :=
  fold_right (fun e acc => Charts.tagCount e + acc) 0 l.

(** The values of the points of the line, added up. *)
Definition sumActivity (l : list Charts.ActivityEntry) : Z :=
  fold_right (fun e acc => activityCount e + acc) 0 l.

Definition numberOf (v : JSObject.value) : Z :=
  match v with JSObject.VNum n => n | _ => 0 end.

(** The numbers held by a counter object, added up. *)
Definition sumObject (o : JSObject.t) : Z :=
  fold_right (fun kv acc => numberOf (snd kv) + acc) 0 o.

End Totals.

(** ** Scenarios for concrete evaluations *)

Module Scenario.

Definition leadsOnly : Filters.FilterState :=
  Filters.mkFilterState "" "Lead" (mkDateRange "" "").

Definition noFilter : Filters.FilterState :=
  Filters.mkFilterState "" "All" (mkDateRange "" "").

Definition store : list Customer :=
  [Sample.ada1969; Sample.bob2024; Sample.eve2100].


Definition afterSelectAll : Store.TableState :=
  Store.mkTableState store
    (Selection.handleToggleAll ∅
       (Filters.visible (SH := RefHost.refStrings) (DH := Sample.utc) store leadsOnly)).

(** Dragging [stats] down over [line] and then over [bar]. *)
Definition dragStats : Layout.Drag := Layout.mkDrag Widgets.DEFAULT_WIDGET_ORDER 0.

Definition dragEvents : list Layout.HoverEvent :=
  [Layout.mkHoverEvent 1 (10 # 1) (50 # 1);
   Layout.mkHoverEvent 1 (60 # 1) (50 # 1);
   Layout.mkHoverEvent 2 (70 # 1) (50 # 1)].

Definition allVisible : gmap string bool :=
  {[ "stats" := true; "bar" := true; "pie" := true; "line" := true ]}.

Definition defaultSizes : gmap string string :=
  {[ "stats" := "full"; "line" := "full"; "bar" := "half"; "pie" := "half" ]}.


Definition leadAndPartner : list Customer :=
  [Sample.customer "s1" "Ann" "ann@example.com" ["Lead"; "VIP"] "Jan 5, 2024";
   Sample.customer "s2" "Ben" "ben@example.com" ["Partner"] "Jan 9, 2024";
   Sample.customer "s3" "Cat" "cat@example.com" ["Lead"] "not a date"].


(** The preferences a user has changed and the loading effect has marked
    as loaded. *)
Definition changedPrefs : Prefs.State :=
  Prefs.mkState (Prefs.JNum 20) (Prefs.JStr "VIP")
    [Prefs.JStr "avatar"; Prefs.JStr "phone"]
    (Prefs.JObj [("start", Prefs.JStr "2024-03-01"); ("end", Prefs.JStr "")])
    (Prefs.JObj [("stats", Prefs.JBool true); ("bar", Prefs.JBool false);
                 ("pie", Prefs.JBool true); ("line", Prefs.JBool true)])
    (Prefs.JStr "emerald") (Prefs.JStr "#10b981")
    (Prefs.JArr [Prefs.JStr "line"; Prefs.JStr "stats"; Prefs.JStr "bar"; Prefs.JStr "pie"])
    (Prefs.JObj [("stats", Prefs.JStr "half")])
    true.

(** A serializer and a parser that agree on [changedPrefs]. *)
Definition stringifyChanged (v : Prefs.json) : string := "{...}".
Definition parseChanged (s : string) : option Prefs.json :=
  Some (PrefsSave.prefsToSave changedPrefs).

(** A record with every field filled and two tags. *)
Definition annLee : Customer :=
  mkCustomer "s1" "Ann Lee" "https://avatars.example/ann" "ann@example.com"
             "555-0101" ["Lead"; "VIP"] "Jan 5, 2024".

(** A record stored under a single name. *)
Definition cher : Customer :=
  mkCustomer "s9" "Cher" "" "cher@example.com" "555-0109" [] "Jan 5, 2024".

End Scenario.

(** * Properties *)

(** ** Lists and strings *)

Lemma filter_filter {A} (f g : A -> bool) (l : list A) :
  List.filter f (List.filter g l) = List.filter (fun x => g x && f x) l.
Proof.
  induction l as [|x l IH]; simpl; [reflexivity|].
  destruct (g x); simpl; [destruct (f x)|]; rewrite IH; reflexivity.
Qed.

Lemma filter_all {A} (f : A -> bool) (l : list A) :
  (forall x, f x = true) -> List.filter f l = l.
Proof.
  intros Hf. induction l as [|x l IH]; simpl; [reflexivity|].
  rewrite Hf, IH. reflexivity.
Qed.

Lemma filter_none {A} (f : A -> bool) (l : list A) :
  (forall x, In x l -> f x = false) -> List.filter f l = [].
Proof.
  induction l as [|x l IH]; simpl; intros Hf; [reflexivity|].
  rewrite (Hf x) by auto. apply IH. auto.
Qed.

Lemma truthy_eqb (s : string) : JS.truthy s = negb (String.eqb s "").
Proof. destruct s; reflexivity. Qed.

Lemma includes_empty (hay : string) : JS.includes hay "" = true.
Proof. destruct hay; reflexivity. Qed.

Lemma arrayIncludes_existsb (arr : list string) (x : string) :
  JS.arrayIncludes arr x = existsb (fun t => String.eqb t x) arr.
Proof.
  unfold JS.arrayIncludes. induction arr as [|t arr IH]; simpl; [reflexivity|].
  rewrite IH, (String.eqb_sym x t). reflexivity.
Qed.

Lemma arrayIncludes_In (arr : list string) (x : string) :
  JS.arrayIncludes arr x = true <-> In x arr.
Proof.
  unfold JS.arrayIncludes. rewrite existsb_exists. split.
  - intros [y [Hin Heq]]. apply String.eqb_eq in Heq. subst. exact Hin.
  - intros Hin. exists x. split; [exact Hin | apply String.eqb_refl].
Qed.

Lemma prefix_app (needle hay : string) :
  String.prefix needle hay = true <-> exists post, hay = needle +:+ post.
Proof.
  revert hay. induction needle as [|c needle IH]; intros hay; simpl.
  - split; [intros _; exists hay; reflexivity | intros _; destruct hay; reflexivity].
  - destruct hay as [|c' hay]; simpl.
    + split; [discriminate | intros [post H]; discriminate H].
    + destruct (Ascii.ascii_dec c c') as [->|Hne].
      * rewrite IH. split; intros [post H]; exists post.
        -- simpl. rewrite H. reflexivity.
        -- simpl in H. injection H as H. exact H.
      * split; [discriminate | intros [post H]].
        simpl in H. injection H as H _. congruence.
Qed.

(** [includes] is substring containment. *)
Lemma includes_substring (hay needle : string) :
  JS.includes hay needle = true
  <-> exists pre post, hay = pre +:+ needle +:+ post.
Proof.
  induction hay as [|c hay IH].
  - change (JS.includes "" needle) with (String.prefix needle "" || false).
    rewrite orb_false_r, prefix_app. split.
    + intros [post H]. exists "", post. exact H.
    + intros (pre & post & H). destruct pre; [exists post; exact H | discriminate H].
  - change (JS.includes (String c hay) needle)
      with (String.prefix needle (String c hay) || JS.includes hay needle).
    rewrite orb_true_iff, prefix_app, IH. split.
    + intros [[post H] | (pre & post & H)].
      * exists "", post. exact H.
      * exists (String c pre), post. simpl. rewrite H. reflexivity.
    + intros (pre & post & H). destruct pre as [|c' pre].
      * left. exists post. exact H.
      * right. simpl in H. injection H as _ H. exists pre, post. exact H.
Qed.

(** The model of the built-ins on a few inputs. *)
Example split_samples :
  JS.split "Mar '24" " '" = ["Mar"; "24"]
  /\ JS.split "Mar 24" " '" = ["Mar 24"]
  /\ JS.split "Lead, VIP,,x" "," = ["Lead"; " VIP"; ""; "x"]
  /\ JS.split "" "," = [""]
  /\ JS.join " " ["a"; "b"; "c"] = "a b c".
Proof. repeat split; reflexivity. Qed.

Example calendar_samples :
  JSDate.civilFromDays 0 = (1970, 1, 1)
  /\ JSDate.civilFromDays (-1) = (1969, 12, 31)
  /\ JSDate.civilFromDays 11016 = (2000, 2, 29)
  /\ JSDate.daysFromCivil 2100 1 1 * JSDate.msPerDay = 4102444800000
  /\ JSDate.isoDateOnly "2024-02-29" = Some 1709164800000
  /\ JSDate.isoDateOnly "2024-02-30" = None
  /\ JSDate.isoDateOnly "Mar 15, 2024" = None.
Proof. repeat split; reflexivity. Qed.

(** The reference zones on a few date strings: the two shapes the
    program writes, the string [rebuildSortValue] builds from a label, and
    strings whose day runs past the end of the month. *)
Example parseDay_samples :
  JSDate.parse (DH := Sample.utc) "Mar 15, 2024"
  = Some (JSDate.daysFromCivil 2024 3 15 * JSDate.msPerDay)
  /\ JSDate.parse (DH := Sample.utc) "2024-03-15"
     = Some (JSDate.daysFromCivil 2024 3 15 * JSDate.msPerDay)
  /\ JSDate.parse (DH := Sample.utcMinus5) "Mar 15, 2024"
     = Some (JSDate.daysFromCivil 2024 3 15 * JSDate.msPerDay + 18000000)
  /\ JSDate.parse (DH := Sample.utcMinus5) "2024-03-15"
     = Some (JSDate.daysFromCivil 2024 3 15 * JSDate.msPerDay)
  /\ JSDate.parse (DH := Sample.utc) "Mar 24 1, 2000"
     = Some (JSDate.daysFromCivil 2001 3 24 * JSDate.msPerDay)
  /\ JSDate.parse (DH := Sample.utc) "3/15/2024"
     = Some (JSDate.daysFromCivil 2024 3 15 * JSDate.msPerDay)
  /\ JSDate.parse (DH := Sample.utc) "2024-02-30"
     = Some (JSDate.daysFromCivil 2024 3 1 * JSDate.msPerDay)
  /\ JSDate.parse (DH := Sample.utc) "Feb 30, 2024"
     = Some (JSDate.daysFromCivil 2024 3 1 * JSDate.msPerDay)
  /\ JSDate.parse (DH := Sample.utc) "Mar 2024"
     = Some (JSDate.daysFromCivil 2024 3 1 * JSDate.msPerDay)
  /\ JSDate.parse (DH := Sample.utc) "not a date" = None
  /\ JSDate.parse (DH := Sample.utc) "" = None
  /\ @JSDate.formatMonthYear Sample.utc (JSDate.daysFromCivil 2024 3 15 * JSDate.msPerDay)
     = "Mar 24"
  /\ @JSDate.formatShortDate Sample.utc (JSDate.daysFromCivil 2024 3 15 * JSDate.msPerDay)
     = "Mar 15, 2024".
Proof. vm_compute. repeat split. Qed.

Example arrayIndex_samples :
  JSObject.arrayIndex "7" = Some 7
  /\ JSObject.arrayIndex "0" = Some 0
  /\ JSObject.arrayIndex "07" = None
  /\ JSObject.arrayIndex "4294967294" = Some 4294967294
  /\ JSObject.arrayIndex "4294967295" = None
  /\ JSObject.arrayIndex "VIP" = None.
Proof. repeat split; reflexivity. Qed.

(** ** Query engine *)

Section QueryFacts.
Context {SH : JS.StringHost} {DH : JSDate.DateHost}.

Lemma passesSearch_cases (q : string) (r : Customer) :
  Query.passesSearch q r = if JS.truthy q then Query.searchCallback q r else true.
Proof.
  unfold Query.passesSearch, Query.searchCallback. rewrite truthy_eqb.
  destruct (String.eqb q ""); reflexivity.
Qed.

Lemma passesTag_cases (tag : string) (r : Customer) :
  Query.passesTag tag r
  = if String.eqb tag "All" then true else Query.tagCallback tag r.
Proof.
  unfold Query.passesTag, Query.tagCallback. rewrite arrayIncludes_existsb.
  destruct (String.eqb tag "All"); reflexivity.
Qed.

Lemma dateFilterActive_truthy (dr : DateRange) :
  Query.dateFilterActive dr = JS.truthy (start dr) || JS.truthy (end_ dr).
Proof. unfold Query.dateFilterActive. rewrite !truthy_eqb. reflexivity. Qed.

Lemma parse_epoch : JSDate.parse "1970-01-01" = Some 0.
Proof. reflexivity. Qed.

Lemma parse_2100 : JSDate.parse "2100-01-01" = Some 4102444800000.
Proof. reflexivity. Qed.

Lemma dateCallback_bounds (dr : DateRange) (r : Customer) :
  Query.dateCallback dr r
  = JSDate.ge (JSDate.parse (lastContacted r)) (Query.lowerBound dr)
    && JSDate.le (JSDate.parse (lastContacted r))
                 (JSDate.setHoursEndOfDay (Query.endInstant dr)).
Proof.
  unfold Query.dateCallback, Query.lowerBound, Query.endInstant.
  rewrite !truthy_eqb, parse_epoch, parse_2100.
  destruct (String.eqb (start dr) ""), (String.eqb (end_ dr) ""); reflexivity.
Qed.

(** What the step decides, for any zone: the record's date is valid and
    lies between the lower bound and the last millisecond of the local day
    that holds the end instant. *)
Lemma dateCallback_iff (dr : DateRange) (r : Customer) :
  Query.dateCallback dr r = true
  <-> exists t lo e,
        JSDate.parse (lastContacted r) = Some t
        /\ Query.lowerBound dr = Some lo
        /\ Query.endInstant dr = Some e
        /\ lo <= t <= Query.lastInstantOfLocalDay (JSDate.Day (JSDate.LocalTime e)).
Proof.
  rewrite dateCallback_bounds. unfold Query.lastInstantOfLocalDay.
  destruct (JSDate.parse (lastContacted r)) as [t|];
    destruct (Query.lowerBound dr) as [lo|];
    destruct (Query.endInstant dr) as [e|]; simpl;
    rewrite ?andb_false_r;
    try (split; [discriminate | intros (?&?&?&?&?&?&?); discriminate]).
  rewrite andb_true_iff, !Z.leb_le. split.
  - intros [H1 H2]. exists t, lo, e. repeat split; assumption.
  - intros (t'&lo'&e'&Ht&Hlo&He&H1&H2).
    injection Ht as <-. injection Hlo as <-. injection He as <-. split; assumption.
Qed.

Lemma withinDateBounds_callback (dr : DateRange) (r : Customer) :
  Query.withinDateBounds dr r = Query.dateCallback dr r.
Proof.
  rewrite dateCallback_bounds. unfold Query.withinDateBounds, Query.lastInstantOfLocalDay.
  destruct (JSDate.parse (lastContacted r)) as [t|];
    destruct (Query.lowerBound dr) as [lo|];
    destruct (Query.endInstant dr) as [e|]; simpl;
    rewrite ?andb_false_r; reflexivity.
Qed.

(** C1. [filteredData] is the record list filtered, in place and in
    order, by the conjunction of the three steps: the text search (case
    folded substring of the name or of the email, every record when the
    query is empty), the tag filter (every record when the active tag is
    [All], else the records whose tags hold it) and the date-range filter
    (every record when both bounds are empty, else the records whose
    [lastContacted] parses to an instant between the lower bound and the
    last millisecond of the local day of the end instant).  A record is in
    the output exactly when it is in the store and passes the three
    steps. *)
Theorem filteredData_exact (data : list Customer) (searchQuery activeTag : string)
    (dateRange : DateRange) :
  let passes r := Query.passesSearch searchQuery r
                  && Query.passesTag activeTag r
                  && (negb (Query.dateFilterActive dateRange)
                      || Query.withinDateBounds dateRange r) in
  Query.filteredData data searchQuery activeTag dateRange = List.filter passes data
  /\ (forall r, In r (Query.filteredData data searchQuery activeTag dateRange)
                <-> In r data /\ passes r = true)
  /\ (forall r, Query.withinDateBounds dateRange r = true
                <-> exists t lo e,
                      JSDate.parse (lastContacted r) = Some t
                      /\ (if String.eqb (start dateRange) ""
                          then Some 0 else JSDate.parse (start dateRange)) = Some lo
                      /\ (if String.eqb (end_ dateRange) ""
                          then Some 4102444800000 else JSDate.parse (end_ dateRange)) = Some e
                      /\ lo <= t
                         <= JSDate.UTC (JSDate.Day (JSDate.LocalTime e) * JSDate.msPerDay
                                        + (JSDate.msPerDay - 1))).
Proof.
  intros passes.
  assert (Heq : Query.filteredData data searchQuery activeTag dateRange
                = List.filter passes data).
  { unfold Query.filteredData.
    rewrite <- dateFilterActive_truthy.
    assert (Hp : forall r, passes r
                 = (if JS.truthy searchQuery
                    then Query.searchCallback searchQuery r else true)
                   && (if String.eqb activeTag "All"
                       then true else Query.tagCallback activeTag r)
                   && (if Query.dateFilterActive dateRange
                       then Query.dateCallback dateRange r else true)).
    { intros r. unfold passes.
      rewrite passesSearch_cases, passesTag_cases, withinDateBounds_callback.
      destruct (Query.dateFilterActive dateRange); reflexivity. }
    destruct (JS.truthy searchQuery), (String.eqb activeTag "All"),
      (Query.dateFilterActive dateRange); simpl in *;
      rewrite ?filter_filter;
      first [ symmetry; apply filter_all; intros r; rewrite Hp; reflexivity
            | apply filter_ext; intros r; rewrite Hp;
              destruct (Query.searchCallback searchQuery r),
                (Query.tagCallback activeTag r),
                (Query.dateCallback dateRange r); reflexivity ]. }
  split; [exact Heq|].
  split; [intros r; rewrite Heq; apply filter_In|].
  intros r. rewrite withinDateBounds_callback. apply dateCallback_iff.
Qed.

End QueryFacts.

(** ** Date-range step *)

(** The date-range step does not treat an empty bound as unbounded.  With
    only [end] set to 2020-01-01, a record last contacted on Dec 31, 1969
    lies within the range as the specification words it, and the code
    rejects it; with only [start] set to 2020-01-01, the same holds for a
    record last contacted on Jan 2, 2100. *)
Lemma dateRange_empty_bound_is_bounded :
  (Query.dateFilterActive Sample.untilNewYear2020 = true
   /\ Query.withinSpecifiedRange (DH := Sample.utc) Sample.untilNewYear2020 Sample.ada1969 = true
   /\ Query.passesDate (DH := Sample.utc) Sample.untilNewYear2020 Sample.ada1969 = false)
  /\ (Query.dateFilterActive Sample.since2020 = true
      /\ Query.withinSpecifiedRange (DH := Sample.utc) Sample.since2020 Sample.eve2100 = true
      /\ Query.passesDate (DH := Sample.utc) Sample.since2020 Sample.eve2100 = false).
Proof. vm_compute. repeat split. Qed.

(** In every zone behind UTC by less than a day, [setHours] on the UTC
    midnight of day [d] lands one millisecond before the local midnight of
    that day: the day named by [end] is left out whole. *)
Lemma setHours_behind_utc (offsetMinutes d : Z) :
  -1440 < offsetMinutes < 0 ->
  JSDate.setHoursEndOfDay (DH := RefHost.fixedZone offsetMinutes)
    (Some (d * JSDate.msPerDay))
  = Some (@JSDate.UTC (RefHost.fixedZone offsetMinutes) (d * JSDate.msPerDay) - 1).
Proof.
  intros Hoff. unfold JSDate.setHoursEndOfDay, RefHost.fixedZone, JSDate.Day.
  cbn [JSDate.LocalTime JSDate.UTC]. unfold JSDate.msPerDay. f_equal.
  assert (Hday : (d * 86400000 + offsetMinutes * 60000) / 86400000 = d - 1).
  { symmetry. apply (Z.div_unique _ _ _ (86400000 + offsetMinutes * 60000)); lia. }
  rewrite Hday. lia.
Qed.

(** Two hours ahead of UTC the day named by [end] is kept. *)
Example dateRange_end_day_ahead_of_utc :
  Query.dateCallback (DH := Sample.utcPlus2) Sample.firstHalfOfMarch2024 Sample.bob2024
  = true.
Proof. vm_compute. reflexivity. Qed.

(** C2, on the code.  Five hours behind UTC, with [end] set to 2024-03-15
    and no [start], a record last contacted on Mar 15, 2024 lies within
    the range as the specification words it, [end] being inclusive of the
    whole day it names, and the code rejects it.  [new Date(end)] is
    midnight of Mar 15 in UTC, which is 19:00 of Mar 14 in that zone, so
    that [setHours(23, 59, 59, 999)] gives the last millisecond of Mar 14,
    one millisecond before the date of the record. *)
Theorem dateRange_end_day_lost_behind_utc :
  Query.dateFilterActive Sample.untilMarch15 = true
  /\ JSDate.parse (DH := Sample.utcMinus5) (lastContacted Sample.bob2024)
     = Some (JSDate.daysFromCivil 2024 3 15 * JSDate.msPerDay + 18000000)
  /\ JSDate.parse (DH := Sample.utcMinus5) (end_ Sample.untilMarch15)
     = Some (JSDate.daysFromCivil 2024 3 15 * JSDate.msPerDay)
  /\ JSDate.setHoursEndOfDay (DH := Sample.utcMinus5)
       (JSDate.parse (DH := Sample.utcMinus5) (end_ Sample.untilMarch15))
     = Some (JSDate.daysFromCivil 2024 3 15 * JSDate.msPerDay + 18000000 - 1)
  /\ Query.withinSpecifiedRange (DH := Sample.utcMinus5) Sample.untilMarch15 Sample.bob2024
     = true
  /\ Query.dateCallback (DH := Sample.utcMinus5) Sample.untilMarch15 Sample.bob2024 = false
  /\ Query.filteredData (SH := RefHost.refStrings) (DH := Sample.utcMinus5)
       [Sample.bob2024] "" "All" Sample.untilMarch15 = []
  /\ Query.filteredData (SH := RefHost.refStrings) (DH := Sample.utc)
       [Sample.bob2024] "" "All" Sample.untilMarch15 = [Sample.bob2024].
Proof. vm_compute. repeat split. Qed.

(** ** Sorting *)

Section SortFacts.
Context {A : Type}.
Variable compareFn : A -> A -> option Z.

Lemma insertSorted_In (x : A) (l : list A) (z : A) :
  In z (JSArray.insertSorted compareFn x l) <-> z = x \/ In z l.
Proof.
  induction l as [|y l IH]; simpl.
  - intuition congruence.
  - destruct (JSArray.mustFollow compareFn x y); simpl; [rewrite IH|];
      intuition congruence.
Qed.

Lemma insertSorted_perm (x : A) (l : list A) :
  Permutation (JSArray.insertSorted compareFn x l) (x :: l).
Proof.
  induction l as [|y l IH]; simpl; [apply Permutation_refl|].
  destruct (JSArray.mustFollow compareFn x y); [|apply Permutation_refl].
  eapply Permutation_trans; [apply perm_skip, IH | apply perm_swap].
Qed.

Lemma sort_perm (l : list A) : Permutation (JSArray.sort compareFn l) l.
Proof.
  induction l as [|x l IH]; simpl; [apply perm_nil|].
  eapply Permutation_trans; [apply insertSorted_perm | apply perm_skip, IH].
Qed.

Lemma sort_In (l : list A) (z : A) : In z (JSArray.sort compareFn l) <-> In z l.
Proof.
  split; apply Permutation_in; [|apply Permutation_sym]; apply sort_perm.
Qed.

Lemma sort_length (l : list A) : length (JSArray.sort compareFn l) = length l.
Proof. apply Permutation_length, sort_perm. Qed.

(** From here on the comparator is the difference of an integer key on the
    elements at hand: no NaN, and a consistent order. *)
Variable key : A -> Z.
Local Abbreviation keyed := (JSArray.keyed compareFn key).

Lemma keyed_tail (x : A) (l : list A) : keyed (x :: l) -> keyed l.
Proof. intros H a b Ha Hb. apply H; right; assumption. Qed.

Lemma mustFollow_keyed (l : list A) (x y : A) :
  keyed l -> In x l -> In y l ->
  JSArray.mustFollow compareFn x y = (key y <? key x).
Proof.
  intros H Hx Hy. unfold JSArray.mustFollow. rewrite (H x y Hx Hy).
  destruct (Z.ltb_spec 0 (key x - key y)), (Z.ltb_spec (key y) (key x));
    first [reflexivity | lia].
Qed.

Lemma insertSorted_sorted (x : A) (l : list A) :
  keyed (x :: l) ->
  StronglySorted (fun a b => key a <= key b) l ->
  StronglySorted (fun a b => key a <= key b) (JSArray.insertSorted compareFn x l).
Proof.
  intros Hk Hs. induction l as [|y l IH]; simpl.
  - constructor; constructor.
  - rewrite (mustFollow_keyed (x :: y :: l)) by (simpl; auto).
    inversion Hs as [|? ? Hs' Hall]; subst.
    destruct (Z.ltb_spec (key y) (key x)) as [Hlt|Hge].
    + constructor.
      * apply IH; [|exact Hs'].
        intros a b Ha Hb. apply Hk; simpl in *; tauto.
      * apply List.Forall_forall. intros z Hz. apply insertSorted_In in Hz.
        destruct Hz as [->|Hz]; [lia|].
        rewrite List.Forall_forall in Hall. apply Hall, Hz.
    + constructor; [exact Hs|].
      constructor; [exact Hge|].
      rewrite List.Forall_forall in Hall |- *. intros z Hz.
      specialize (Hall z Hz). simpl in Hall. lia.
Qed.

Lemma sort_sorted (l : list A) :
  keyed l -> StronglySorted (fun a b => key a <= key b) (JSArray.sort compareFn l).
Proof.
  induction l as [|x l IH]; intros Hk; simpl; [constructor|].
  apply insertSorted_sorted.
  - intros a b Ha Hb. apply Hk; simpl in *;
      rewrite ?sort_In in Ha, Hb; tauto.
  - apply IH. eapply keyed_tail, Hk.
Qed.

Lemma insertSorted_stable (x : A) (l : list A) (k : Z) :
  keyed (x :: l) ->
  List.filter (fun a => key a =? k) (JSArray.insertSorted compareFn x l)
  = List.filter (fun a => key a =? k) (x :: l).
Proof.
  intros Hk. induction l as [|y l IH]; [reflexivity|].
  simpl JSArray.insertSorted.
  rewrite (mustFollow_keyed (x :: y :: l)) by (simpl; auto).
  destruct (Z.ltb_spec (key y) (key x)) as [Hlt|Hge]; [|reflexivity].
  assert (Hk' : keyed (x :: l)).
  { intros a b Ha Hb. apply Hk; simpl in *; tauto. }
  specialize (IH Hk'). simpl in *. rewrite IH.
  destruct (Z.eqb_spec (key x) k), (Z.eqb_spec (key y) k);
    first [reflexivity | lia].
Qed.

(** Stability: the elements of one key keep their original order. *)
Lemma sort_stable (l : list A) (k : Z) :
  keyed l ->
  List.filter (fun a => key a =? k) (JSArray.sort compareFn l)
  = List.filter (fun a => key a =? k) l.
Proof.
  induction l as [|x l IH]; intros Hk; [reflexivity|].
  simpl JSArray.sort. rewrite insertSorted_stable.
  - simpl. rewrite IH by (eapply keyed_tail, Hk). reflexivity.
  - intros a b Ha Hb. apply Hk; simpl in *;
      rewrite ?sort_In in Ha, Hb; tauto.
Qed.

End SortFacts.

(** ** Counting keys in an object *)

Lemma existsb_eqb_In (k : string) (l : list string) :
  existsb (String.eqb k) l = true <-> In k l.
Proof. apply arrayIncludes_In. Qed.

Lemma existsb_eqb_not_In (k : string) (l : list string) :
  existsb (String.eqb k) l = false <-> ~ In k l.
Proof.
  rewrite <- existsb_eqb_In. destruct (existsb (String.eqb k) l); intuition congruence.
Qed.

Lemma firstSeen_snoc (keys : list string) (k : string) :
  Charts.firstSeen (keys ++ [k])
  = if existsb (String.eqb k) (Charts.firstSeen keys)
    then Charts.firstSeen keys
    else Charts.firstSeen keys ++ [k].
Proof. unfold Charts.firstSeen. rewrite fold_left_app. reflexivity. Qed.

Lemma firstSeen_In (keys : list string) (k : string) :
  In k (Charts.firstSeen keys) <-> In k keys.
Proof.
  induction keys as [|k' keys IH] using rev_ind; [reflexivity|].
  rewrite firstSeen_snoc, in_app_iff. simpl.
  destruct (existsb (String.eqb k') (Charts.firstSeen keys)) eqn:He.
  - apply existsb_eqb_In in He. rewrite IH in *. intuition (subst; auto).
  - rewrite in_app_iff, IH. simpl. tauto.
Qed.

Lemma firstSeen_NoDup (keys : list string) : List.NoDup (Charts.firstSeen keys).
Proof.
  induction keys as [|k keys IH] using rev_ind; [constructor|].
  rewrite firstSeen_snoc.
  destruct (existsb (String.eqb k) (Charts.firstSeen keys)) eqn:He; [exact IH|].
  apply existsb_eqb_not_In in He.
  apply NoDup_rev in IH. rewrite <- (rev_involutive (_ ++ [k])), rev_app_distr.
  apply NoDup_rev. simpl. constructor; [|exact IH].
  rewrite <- in_rev. exact He.
Qed.

Lemma occurrences_snoc (k k' : string) (keys : list string) :
  Charts.occurrences k' (keys ++ [k])
  = Charts.occurrences k' keys + (if String.eqb k' k then 1 else 0).
Proof.
  unfold Charts.occurrences. rewrite count_occ_app. simpl.
  destruct (string_dec k k') as [->|Hne].
  - rewrite String.eqb_refl. lia.
  - destruct (String.eqb_spec k' k); [congruence | lia].
Qed.

Lemma occurrences_pos (k : string) (keys : list string) :
  In k keys <-> 0 < Charts.occurrences k keys.
Proof.
  unfold Charts.occurrences. rewrite (count_occ_In string_dec). lia.
Qed.

Lemma occurrences_nonneg (k : string) (keys : list string) :
  0 <= Charts.occurrences k keys.
Proof. unfold Charts.occurrences. lia. Qed.

Section ObjectFacts.
Variable f : string -> JSObject.value.

Lemma getOwn_map (ks : list string) (k : string) :
  JSObject.getOwn (map (fun k' => (k', f k')) ks) k
  = if existsb (String.eqb k) ks then Some (f k) else None.
Proof.
  induction ks as [|k' ks IH]; simpl; [reflexivity|].
  destruct (String.eqb_spec k k') as [->|Hne]; [reflexivity | exact IH].
Qed.

Lemma setOwn_map_absent (ks : list string) (k : string) (v : JSObject.value) :
  ~ In k ks ->
  JSObject.setOwn (map (fun k' => (k', f k')) ks) k v
  = map (fun k' => (k', f k')) ks ++ [(k, v)].
Proof.
  induction ks as [|k' ks IH]; simpl; intros Hn; [reflexivity|].
  destruct (String.eqb_spec k k') as [->|Hne]; [tauto|].
  rewrite IH by tauto. reflexivity.
Qed.

Lemma setOwn_map_present (ks : list string) (k : string) (v : JSObject.value) :
  List.NoDup ks -> In k ks ->
  JSObject.setOwn (map (fun k' => (k', f k')) ks) k v
  = map (fun k' => (k', if String.eqb k' k then v else f k')) ks.
Proof.
  induction ks as [|k' ks IH]; simpl; intros Hnd Hin; [tauto|].
  inversion Hnd as [|? ? Hnotin Hnd']; subst.
  destruct (String.eqb_spec k k') as [->|Hne].
  - rewrite String.eqb_refl. f_equal. apply map_ext_in. intros a Ha.
    destruct (String.eqb_spec a k'); [subst; tauto | reflexivity].
  - destruct (String.eqb_spec k' k); [congruence|].
    rewrite IH by tauto. reflexivity.
Qed.

End ObjectFacts.

Lemma inherited_proto : JSObject.inherited "__proto__" = true.
Proof. reflexivity. Qed.

Lemma set_not_inherited (o : JSObject.t) (k : string) (v : JSObject.value) :
  JSObject.inherited k = false -> JSObject.set o k v = JSObject.setOwn o k v.
Proof.
  intros Hk. unfold JSObject.set.
  destruct (String.eqb_spec k "__proto__") as [->|]; [discriminate | reflexivity].
Qed.

Lemma get_not_inherited (o : JSObject.t) (k : string) :
  JSObject.inherited k = false -> JSObject.get o k = JSObject.getOwn o k.
Proof. intros Hk. unfold JSObject.get. rewrite Hk. destruct (JSObject.getOwn o k); reflexivity. Qed.

(** Counting one more [k] in the tally of [keys], written with own
    properties only. *)
Lemma tally_snoc (keys : list string) (k : string) :
  JSObject.setOwn (Charts.tally keys) k
    (JSObject.VNum (Charts.occurrences k keys + 1))
  = Charts.tally (keys ++ [k]).
Proof.
  unfold Charts.tally. rewrite firstSeen_snoc.
  destruct (existsb (String.eqb k) (Charts.firstSeen keys)) eqn:He.
  - apply existsb_eqb_In in He.
    rewrite setOwn_map_present by (auto using firstSeen_NoDup).
    apply map_ext. intros a. rewrite occurrences_snoc.
    destruct (String.eqb_spec a k) as [->|]; [reflexivity|].
    rewrite Z.add_0_r. reflexivity.
  - apply existsb_eqb_not_In in He.
    rewrite setOwn_map_absent by exact He.
    rewrite map_app. simpl. rewrite occurrences_snoc, String.eqb_refl. f_equal.
    apply map_ext_in. intros a Ha. rewrite occurrences_snoc.
    destruct (String.eqb_spec a k) as [->|]; [tauto|].
    rewrite Z.add_0_r. reflexivity.
Qed.

Lemma getOwn_tally (keys : list string) (k : string) :
  JSObject.getOwn (Charts.tally keys) k
  = if existsb (String.eqb k) keys
    then Some (JSObject.VNum (Charts.occurrences k keys))
    else None.
Proof.
  unfold Charts.tally. rewrite getOwn_map.
  pose proof (existsb_eqb_In k (Charts.firstSeen keys)) as H1.
  pose proof (existsb_eqb_In k keys) as H2.
  pose proof (firstSeen_In keys k) as H3.
  destruct (existsb (String.eqb k) (Charts.firstSeen keys));
    destruct (existsb (String.eqb k) keys); try reflexivity; exfalso.
  - assert (false = true) by tauto. discriminate.
  - assert (false = true) by tauto. discriminate.
Qed.

(** ** Tag distribution *)

Lemma bumpTag_tally (keys : list string) (k : string) :
  JSObject.inherited k = false ->
  Charts.bumpTag (Charts.tally keys) k = Charts.tally (keys ++ [k]).
Proof.
  intros Hk. unfold Charts.bumpTag.
  rewrite set_not_inherited, get_not_inherited, getOwn_tally by exact Hk.
  rewrite <- tally_snoc.
  destruct (existsb (String.eqb k) keys) eqn:He.
  - apply existsb_eqb_In, occurrences_pos in He. simpl.
    destruct (Z.eqb_spec (Charts.occurrences k keys) 0); [lia | reflexivity].
  - apply existsb_eqb_not_In in He.
    assert (Charts.occurrences k keys = 0) as ->.
    { pose proof (occurrences_nonneg k keys).
      destruct (Z.eq_dec (Charts.occurrences k keys) 0); [assumption|].
      exfalso. apply He, occurrences_pos. lia. }
    reflexivity.
Qed.

Lemma fold_bumpTag (done keys : list string) :
  Forall (fun k => JSObject.inherited k = false) keys ->
  fold_left Charts.bumpTag keys (Charts.tally done) = Charts.tally (done ++ keys).
Proof.
  revert done. induction keys as [|k keys IH]; intros done Hall; simpl.
  - rewrite app_nil_r. reflexivity.
  - inversion Hall; subst. rewrite bumpTag_tally by assumption.
    rewrite IH by assumption. rewrite <- app_assoc. reflexivity.
Qed.

Lemma tagCounts_flat (data : list Customer) (counts : JSObject.t) :
  fold_left (fun counts c => fold_left Charts.bumpTag (tags c) counts) data counts
  = fold_left Charts.bumpTag (Charts.allTags data) counts.
Proof.
  revert counts. induction data as [|c data IH]; intros counts; simpl; [reflexivity|].
  rewrite fold_left_app. apply IH.
Qed.

(** The counter object after the two nested [forEach]. *)
Lemma tagCounts_tally (data : list Customer) :
  Forall (fun k => JSObject.inherited k = false) (Charts.allTags data) ->
  Charts.tagCounts data = Charts.tally (Charts.allTags data).
Proof.
  intros Hall. unfold Charts.tagCounts. rewrite tagCounts_flat.
  apply (fold_bumpTag [] _ Hall).
Qed.

Section PropertyOrderFacts.
Context {V : Type}.

Lemma insertByIndex_perm (e : string * V) (l : list (string * V)) :
  Permutation (JSObject.insertByIndex e l) (e :: l).
Proof.
  induction l as [|e' l IH]; simpl; [apply Permutation_refl|].
  destruct (JSObject.indexOfKey (fst e) <=? JSObject.indexOfKey (fst e'));
    [apply Permutation_refl|].
  eapply Permutation_trans; [apply perm_skip, IH | apply perm_swap].
Qed.

Lemma sortByIndex_perm (l : list (string * V)) :
  Permutation (fold_right JSObject.insertByIndex [] l) l.
Proof.
  induction l as [|e l IH]; simpl; [apply perm_nil|].
  eapply Permutation_trans; [apply insertByIndex_perm | apply perm_skip, IH].
Qed.

Lemma insertByIndex_sorted (e : string * V) (l : list (string * V)) :
  StronglySorted (fun a b => JSObject.indexOfKey (fst a) <= JSObject.indexOfKey (fst b)) l ->
  StronglySorted (fun a b => JSObject.indexOfKey (fst a) <= JSObject.indexOfKey (fst b))
                 (JSObject.insertByIndex e l).
Proof.
  intros Hs. induction Hs as [|e' l Hs IH Hall]; simpl.
  - constructor; constructor.
  - destruct (Z.leb_spec (JSObject.indexOfKey (fst e)) (JSObject.indexOfKey (fst e')))
      as [Hle|Hgt].
    + constructor; [constructor; assumption|].
      constructor; [exact Hle|].
      rewrite List.Forall_forall in Hall |- *. intros z Hz.
      specialize (Hall z Hz). simpl in Hall. lia.
    + constructor; [exact IH|].
      rewrite List.Forall_forall in Hall |- *. intros z Hz.
      apply (Permutation_in _ (insertByIndex_perm e l)) in Hz.
      destruct Hz as [<-|Hz]; [lia | apply Hall, Hz].
Qed.

Lemma sortByIndex_sorted (l : list (string * V)) :
  StronglySorted (fun a b => JSObject.indexOfKey (fst a) <= JSObject.indexOfKey (fst b))
                 (fold_right JSObject.insertByIndex [] l).
Proof.
  induction l as [|e l IH]; simpl; [constructor | apply insertByIndex_sorted, IH].
Qed.

Lemma filter_split_perm {A} (p : A -> bool) (l : list A) :
  Permutation (List.filter p l ++ List.filter (fun x => negb (p x)) l) l.
Proof.
  induction l as [|x l IH]; simpl; [apply perm_nil|].
  destruct (p x); simpl.
  - apply perm_skip, IH.
  - apply Permutation_sym. eapply Permutation_trans;
      [apply perm_skip, Permutation_sym, IH | apply Permutation_middle].
Qed.

Lemma propertyOrder_perm (l : list (string * V)) :
  Permutation (JSObject.propertyOrder l) l.
Proof.
  unfold JSObject.propertyOrder.
  eapply Permutation_trans; [|apply (filter_split_perm (fun e => JSObject.isIndex (fst e)))].
  apply Permutation_app_tail, sortByIndex_perm.
Qed.

Lemma propertyOrder_In (l : list (string * V)) (e : string * V) :
  In e (JSObject.propertyOrder l) <-> In e l.
Proof.
  split; apply Permutation_in; [|apply Permutation_sym]; apply propertyOrder_perm.
Qed.

(** Keys that are not array indices keep their creation order. *)
Lemma propertyOrder_others (l : list (string * V)) :
  List.filter (fun e => negb (JSObject.isIndex (fst e))) (JSObject.propertyOrder l)
  = List.filter (fun e => negb (JSObject.isIndex (fst e))) l.
Proof.
  unfold JSObject.propertyOrder. rewrite List.filter_app, filter_filter.
  set (others := List.filter _ l) at 2.
  assert (Hnone : List.filter (fun e => negb (JSObject.isIndex (fst e)))
                    (fold_right JSObject.insertByIndex []
                       (List.filter (fun e => JSObject.isIndex (fst e)) l)) = []).
  { apply filter_none. intros e He.
    apply (Permutation_in _ (sortByIndex_perm _)), filter_In in He.
    destruct He as [_ He]. rewrite He. reflexivity. }
  rewrite Hnone. simpl. apply filter_ext. intros e. apply andb_diag.
Qed.

End PropertyOrderFacts.

Lemma StronglySorted_weaken {A} (R S : A -> A -> Prop) (l : list A) :
  (forall a b, R a b -> S a b) -> StronglySorted R l -> StronglySorted S l.
Proof.
  intros HRS Hs. induction Hs as [|a l Hs IH Hall]; constructor; [exact IH|].
  rewrite List.Forall_forall in Hall |- *. auto.
Qed.

Lemma tagTable_In (data : list Customer) (e : Charts.TagEntry) :
  In e (Charts.tagTable data)
  <-> In (Charts.tagName e) (Charts.allTags data)
      /\ Charts.tagValue e
         = JSObject.VNum (Charts.occurrences (Charts.tagName e) (Charts.allTags data)).
Proof.
  unfold Charts.tagTable, Charts.tally. rewrite in_map_iff. split.
  - intros [[k v] [<- Hin]]. apply propertyOrder_In, in_map_iff in Hin.
    destruct Hin as [k' [Heq Hin]]. injection Heq as <- <-.
    simpl. rewrite <- firstSeen_In. auto.
  - intros [Hin Hv]. exists (Charts.tagName e, Charts.tagValue e). split.
    + destruct e; reflexivity.
    + apply propertyOrder_In, in_map_iff. exists (Charts.tagName e).
      rewrite Hv, firstSeen_In. auto.
Qed.

Lemma tagTable_names_NoDup (data : list Customer) :
  List.NoDup (map Charts.tagName (Charts.tagTable data)).
Proof.
  unfold Charts.tagTable. rewrite map_map. simpl.
  eapply Permutation_NoDup.
  - apply Permutation_sym, Permutation_map, propertyOrder_perm.
  - unfold Charts.tally. rewrite map_map. simpl. rewrite map_id.
    apply firstSeen_NoDup.
Qed.

Lemma tagTable_keyed (data : list Customer) :
  JSArray.keyed Charts.byValueDescending (fun e => - Charts.tagCount e)
                (Charts.tagTable data).
Proof.
  intros a b Ha Hb. apply tagTable_In in Ha, Hb.
  destruct Ha as [_ Ha], Hb as [_ Hb].
  unfold Charts.byValueDescending, Charts.tagCount. rewrite Ha, Hb. simpl.
  f_equal. lia.
Qed.

Lemma StronglySorted_map {A B} (f : A -> B) (R : B -> B -> Prop) (l : list A) :
  StronglySorted (fun a b => R (f a) (f b)) l -> StronglySorted R (map f l).
Proof.
  intros Hs. induction Hs as [|a l Hs IH Hall]; simpl; constructor; [exact IH|].
  rewrite List.Forall_forall in Hall |- *. intros z Hz.
  apply in_map_iff in Hz. destruct Hz as [y [<- Hy]]. apply Hall, Hy.
Qed.

(** The order of the table: the tags that are array indices, ascending,
    then the other tags as first seen. *)
Lemma tagTable_order (data : list Customer) :
  exists indexed,
    Charts.tagTable data
    = indexed
      ++ map (fun k => Charts.mkTagEntry k
                         (JSObject.VNum (Charts.occurrences k (Charts.allTags data))))
             (List.filter (fun k => negb (JSObject.isIndex k))
                          (Charts.firstSeen (Charts.allTags data)))
    /\ Forall (fun e => JSObject.isIndex (Charts.tagName e) = true) indexed
    /\ StronglySorted (fun a b => JSObject.indexOfKey (Charts.tagName a)
                                  <= JSObject.indexOfKey (Charts.tagName b)) indexed.
Proof.
  set (tally := Charts.tally (Charts.allTags data)).
  exists (map Charts.toTagEntry
            (fold_right JSObject.insertByIndex []
               (List.filter (fun e => JSObject.isIndex (fst e)) tally))).
  split; [|split].
  - unfold Charts.tagTable, JSObject.propertyOrder. fold tally.
    rewrite map_app. f_equal. unfold tally, Charts.tally.
    rewrite List.filter_map_swap, map_map. reflexivity.
  - apply List.Forall_forall. intros e He. apply in_map_iff in He.
    destruct He as [x [<- Hx]].
    apply (Permutation_in _ (sortByIndex_perm _)), filter_In in Hx.
    apply Hx.
  - apply StronglySorted_map. apply sortByIndex_sorted.
Qed.

(** Without a repeated tag inside a record, the occurrences of a tag are
    the records that hold it. *)
Lemma occurrences_records (data : list Customer) (tag : string) :
  (forall c, In c data -> List.NoDup (tags c)) ->
  Charts.occurrences tag (Charts.allTags data) = Charts.recordsWithTag tag data.
Proof.
  unfold Charts.occurrences, Charts.recordsWithTag, Charts.count_, Charts.allTags.
  induction data as [|c data IH]; intros Hnd; [reflexivity|].
  simpl. rewrite count_occ_app, Nat2Z.inj_add, IH by (intros; apply Hnd; right; assumption).
  assert (Hc : List.NoDup (tags c)) by (apply Hnd; left; reflexivity).
  destruct (JS.arrayIncludes (tags c) tag) eqn:Hin.
  - apply arrayIncludes_In in Hin.
    rewrite (proj1 (NoDup_count_occ' string_dec (tags c)) Hc tag Hin).
    simpl length. lia.
  - assert (~ In tag (tags c)) as Hnot.
    { intros Hin'. apply arrayIncludes_In in Hin'. congruence. }
    rewrite (proj1 (count_occ_not_In string_dec (tags c) tag) Hnot). lia.
Qed.

(** C4, amended.  For records whose tags do not name a member of
    [Object.prototype], [tagData] is the first five entries of the stable
    descending sort of the tag table.  The table holds each distinct tag
    once, with the number of its occurrences in the tags of all records
    (which is the number of records holding it when no record repeats a
    tag); it lists the tags that are array indices first, in ascending
    order, and then the other tags in first-encountered order, and ties in
    the count keep the order of the table. *)
Theorem tagData_distribution (data : list Customer) :
  Forall (fun k => JSObject.inherited k = false) (Charts.allTags data) ->
  let all := Charts.allTags data in
  let sorted := JSArray.sort Charts.byValueDescending (Charts.tagTable data) in
  Charts.tagData data = firstn 5 sorted
  /\ (length (Charts.tagData data) <= 5)%nat
  /\ Permutation sorted (Charts.tagTable data)
  /\ StronglySorted (fun a b => Charts.tagCount a >= Charts.tagCount b) sorted
  /\ (forall n, List.filter (fun e => Charts.tagCount e =? n) sorted
                = List.filter (fun e => Charts.tagCount e =? n) (Charts.tagTable data))
  /\ (forall e, In e (Charts.tagTable data)
                <-> In (Charts.tagName e) all
                    /\ Charts.tagValue e
                       = JSObject.VNum (Charts.occurrences (Charts.tagName e) all))
  /\ List.NoDup (map Charts.tagName (Charts.tagTable data))
  /\ (exists indexed,
        Charts.tagTable data
        = indexed
          ++ map (fun k => Charts.mkTagEntry k (JSObject.VNum (Charts.occurrences k all)))
                 (List.filter (fun k => negb (JSObject.isIndex k)) (Charts.firstSeen all))
        /\ Forall (fun e => JSObject.isIndex (Charts.tagName e) = true) indexed
        /\ StronglySorted (fun a b => JSObject.indexOfKey (Charts.tagName a)
                                      <= JSObject.indexOfKey (Charts.tagName b)) indexed)
  /\ ((forall c, In c data -> List.NoDup (tags c)) ->
      forall tag, Charts.occurrences tag all = Charts.recordsWithTag tag data).
Proof.
  intros Hproto all sorted.
  assert (Heq : Charts.tagData data = firstn 5 sorted).
  { unfold Charts.tagData, JSArray.sliceFromStart, JSObject.entries.
    rewrite (tagCounts_tally data Hproto). reflexivity. }
  split; [exact Heq|].
  split; [rewrite Heq; apply firstn_le_length|].
  split; [apply sort_perm|].
  split.
  { eapply StronglySorted_weaken;
      [|apply (sort_sorted Charts.byValueDescending (fun e => - Charts.tagCount e)),
          tagTable_keyed].
    simpl. intros a b Hab. lia. }
  split.
  { intros n. unfold sorted.
    pose proof (sort_stable Charts.byValueDescending (fun e => - Charts.tagCount e)
                  (Charts.tagTable data) (- n) (tagTable_keyed data)) as Hst.
    assert (Hflip : forall l,
              List.filter (fun e => Charts.tagCount e =? n) l
              = List.filter (fun e => - Charts.tagCount e =? - n) l).
    { intros l. apply filter_ext. intros e.
      destruct (Z.eqb_spec (Charts.tagCount e) n),
               (Z.eqb_spec (- Charts.tagCount e) (- n));
        first [reflexivity | lia]. }
    rewrite !Hflip. exact Hst. }
  split; [apply tagTable_In|].
  split; [apply tagTable_names_NoDup|].
  split; [apply tagTable_order|].
  intros Hnd tag. apply occurrences_records, Hnd.
Qed.

(** The distribution differs from the one the specification words: in
    [tagsRepeatedAndNumeric] one record holds [Lead], written twice, and
    [Lead] is counted 2; [VIP] is met before [7] with the same count and is
    listed after it. *)
Lemma tagData_differs_from_specified :
  Charts.tagData Sample.tagsRepeatedAndNumeric
  = [Charts.mkTagEntry "Lead" (JSObject.VNum 2);
     Charts.mkTagEntry "7" (JSObject.VNum 1);
     Charts.mkTagEntry "VIP" (JSObject.VNum 1)]
  /\ Charts.specifiedTagData Sample.tagsRepeatedAndNumeric
     = [Charts.mkTagEntry "VIP" (JSObject.VNum 1);
        Charts.mkTagEntry "7" (JSObject.VNum 1);
        Charts.mkTagEntry "Lead" (JSObject.VNum 1)]
  /\ Charts.recordsWithTag "Lead" Sample.tagsRepeatedAndNumeric = 1
  /\ Charts.tagData Sample.tagsRepeatedAndNumeric
     <> Charts.specifiedTagData Sample.tagsRepeatedAndNumeric.
Proof. vm_compute. repeat split. discriminate. Qed.

Lemma tagData_distribution_witness :
  Forall (fun k => JSObject.inherited k = false) (Charts.allTags Sample.tagsAAB)
  /\ Charts.tagData Sample.tagsAAB
     = [Charts.mkTagEntry "A" (JSObject.VNum 2); Charts.mkTagEntry "B" (JSObject.VNum 1)].
Proof.
  assert (H : Forall (fun k => JSObject.inherited k = false)
                     (Charts.allTags Sample.tagsAAB)).
  { repeat constructor. }
  split; [exact H|].
  destruct (tagData_distribution Sample.tagsAAB H) as [Heq _].
  rewrite Heq. reflexivity.
Defined.

(** A tag that names a member of [Object.prototype] is outside the
    theorem: its entry holds a string, not a count. *)
Example tagData_constructor :
  Charts.tagData Sample.tagsWithConstructor
  = [Charts.mkTagEntry "constructor" JSObject.VText;
     Charts.mkTagEntry "Lead" (JSObject.VNum 1)].
Proof. reflexivity. Qed.

(** ** Activity by month *)

Lemma getOwn_setOwn_same (o : JSObject.t) (k : string) (v : JSObject.value) :
  JSObject.getOwn (JSObject.setOwn o k v) k = Some v.
Proof.
  induction o as [|[k' v'] o IH]; simpl.
  - rewrite String.eqb_refl. reflexivity.
  - destruct (String.eqb_spec k k') as [->|Hne]; simpl.
    + rewrite String.eqb_refl. reflexivity.
    + destruct (String.eqb_spec k k'); [congruence | exact IH].
Qed.

Lemma setOwn_setOwn_same (o : JSObject.t) (k : string) (v v' : JSObject.value) :
  JSObject.setOwn (JSObject.setOwn o k v) k v' = JSObject.setOwn o k v'.
Proof.
  induction o as [|[k' w] o IH]; simpl.
  - rewrite String.eqb_refl. reflexivity.
  - destruct (String.eqb_spec k k') as [->|Hne]; simpl.
    + rewrite String.eqb_refl. reflexivity.
    + destruct (String.eqb_spec k k'); [congruence|]. rewrite IH. reflexivity.
Qed.

Section ActivityFacts.
Context {DH : JSDate.DateHost}.

(** One step of the [forEach] on a record whose date parses. *)
Lemma bumpMonth_tally (keys : list string) (c : Customer) (t : Z) :
  JSDate.parse (lastContacted c) = Some t ->
  JSObject.inherited (JSDate.formatMonthYear t) = false ->
  Charts.bumpMonth (Charts.tally keys) c
  = Charts.tally (keys ++ [JSDate.formatMonthYear t]).
Proof.
  intros Ht Hk. unfold Charts.bumpMonth. rewrite Ht.
  set (k := JSDate.formatMonthYear t) in *.
  rewrite <- tally_snoc.
  rewrite (get_not_inherited (Charts.tally keys) k Hk), getOwn_tally.
  destruct (existsb (String.eqb k) keys) eqn:He.
  - apply existsb_eqb_In, occurrences_pos in He. simpl.
    destruct (Z.eqb_spec (Charts.occurrences k keys) 0); [lia|]. simpl.
    rewrite set_not_inherited, get_not_inherited, getOwn_tally by exact Hk.
    apply occurrences_pos, existsb_eqb_In in He. rewrite He. reflexivity.
  - simpl. rewrite !set_not_inherited, get_not_inherited by exact Hk.
    rewrite getOwn_setOwn_same, setOwn_setOwn_same. simpl.
    apply existsb_eqb_not_In in He.
    assert (Charts.occurrences k keys = 0) as ->; [|reflexivity].
    pose proof (occurrences_nonneg k keys).
    destruct (Z.eq_dec (Charts.occurrences k keys) 0); [assumption|].
    exfalso. apply He, occurrences_pos. lia.
Qed.

Lemma fold_bumpMonth (done : list string) (data : list Customer) :
  Forall (fun k => JSObject.inherited k = false) (Charts.monthLabels data) ->
  fold_left Charts.bumpMonth data (Charts.tally done)
  = Charts.tally (done ++ Charts.monthLabels data).
Proof.
  revert done. induction data as [|c data IH]; intros done Hall; simpl.
  - rewrite app_nil_r. reflexivity.
  - simpl in Hall. destruct (JSDate.parse (lastContacted c)) as [t|] eqn:Ht.
    + inversion Hall; subst.
      rewrite (bumpMonth_tally done c t Ht) by assumption.
      rewrite IH by assumption. simpl. rewrite <- app_assoc. reflexivity.
    + unfold Charts.bumpMonth at 2. rewrite Ht. apply IH, Hall.
Qed.

(** The counter object after the [forEach]. *)
Lemma activityCounts_tally (data : list Customer) :
  Forall (fun k => JSObject.inherited k = false) (Charts.monthLabels data) ->
  Charts.activityCounts data = Charts.tally (Charts.monthLabels data).
Proof. intros Hall. apply (fold_bumpMonth [] data Hall). Qed.

(** Records whose date does not parse leave no trace. *)
Lemma activityCounts_drops_unparseable (data : list Customer) (counts : JSObject.t) :
  fold_left Charts.bumpMonth data counts
  = fold_left Charts.bumpMonth (List.filter Charts.parseable data) counts.
Proof.
  revert counts. induction data as [|c data IH]; intros counts; [reflexivity|].
  simpl. unfold Charts.parseable at 1.
  destruct (JSDate.parse (lastContacted c)) eqn:Ht; simpl.
  - apply IH.
  - unfold Charts.bumpMonth at 2. rewrite Ht. apply IH.
Qed.

Lemma monthLabels_In (data : list Customer) (l : string) :
  In l (Charts.monthLabels data)
  <-> exists c t, In c data /\ JSDate.parse (lastContacted c) = Some t
                  /\ JSDate.formatMonthYear t = l.
Proof.
  unfold Charts.monthLabels. rewrite in_flat_map. split.
  - intros [c [Hc Hl]]. destruct (JSDate.parse (lastContacted c)) as [t|] eqn:Ht.
    + destruct Hl as [<-|[]]. exists c, t. auto.
    + destruct Hl.
  - intros (c & t & Hc & Ht & <-). exists c. rewrite Ht. simpl. auto.
Qed.

Lemma occurrences_bucket (data : list Customer) (l : string) :
  Charts.occurrences l (Charts.monthLabels data) = Charts.recordsInBucket l data.
Proof.
  unfold Charts.occurrences, Charts.recordsInBucket, Charts.count_, Charts.monthLabels.
  induction data as [|c data IH]; [reflexivity|].
  simpl. rewrite count_occ_app, Nat2Z.inj_add, IH.
  destruct (JSDate.parse (lastContacted c)) as [t|]; simpl; [|reflexivity].
  destruct (string_dec (JSDate.formatMonthYear t) l) as [->|Hne].
  - rewrite String.eqb_refl. simpl length. lia.
  - destruct (String.eqb_spec (JSDate.formatMonthYear t) l); [congruence | lia].
Qed.

Lemma activityTable_In (data : list Customer) (e : Charts.ActivityEntry) :
  In e (Charts.activityTable data)
  <-> In (Charts.label e) (Charts.monthLabels data)
      /\ Charts.count e = JSObject.VNum (Charts.recordsInBucket (Charts.label e) data)
      /\ Charts.sortValue e = Charts.rebuildSortValue (Charts.label e).
Proof.
  unfold Charts.activityTable, Charts.tally. rewrite in_map_iff. split.
  - intros [[k v] [<- Hin]]. apply propertyOrder_In, in_map_iff in Hin.
    destruct Hin as [k' [Heq Hin]]. injection Heq as <- <-.
    simpl. rewrite <- firstSeen_In, occurrences_bucket. auto.
  - intros (Hin & Hv & Hs). exists (Charts.label e, Charts.count e). split.
    + destruct e; simpl in *. rewrite Hs. reflexivity.
    + apply propertyOrder_In, in_map_iff. exists (Charts.label e).
      rewrite Hv, firstSeen_In, occurrences_bucket. auto.
Qed.

Lemma activityTable_labels_NoDup (data : list Customer) :
  List.NoDup (map Charts.label (Charts.activityTable data)).
Proof.
  unfold Charts.activityTable. rewrite map_map. simpl.
  eapply Permutation_NoDup.
  - apply Permutation_sym, Permutation_map, propertyOrder_perm.
  - unfold Charts.tally. rewrite map_map. simpl. rewrite map_id.
    apply firstSeen_NoDup.
Qed.

Lemma activityTable_keyed (data : list Customer) :
  (forall e, In e (Charts.activityTable data) -> Charts.hasSortValue e) ->
  JSArray.keyed Charts.bySortValue Charts.sortKey (Charts.activityTable data).
Proof.
  intros Hnum a b Ha Hb. pose proof (Hnum a Ha) as Hna. pose proof (Hnum b Hb) as Hnb.
  unfold Charts.bySortValue, Charts.sortKey, Charts.hasSortValue in *.
  destruct (Charts.sortValue a), (Charts.sortValue b); simpl; congruence.
Qed.

(** A label without the separator [ '] loses its year: the key is rebuilt
    from the year 20. *)
Remark rebuildSortValue_without_separator (name : string) :
  JS.split name " '" = [name] ->
  Charts.rebuildSortValue name
  = match JSDate.getMonth (JSDate.parse (name +:+ " 1, 2000")) with
    | Some m => Some (20 * 100 + m)
    | None => None
    end.
Proof. intros Hs. unfold Charts.rebuildSortValue. rewrite Hs. reflexivity. Qed.

(** [activityData] is the stable sort, by the rebuilt key, of the
    activity table.  The table has one bucket per month label met on a
    record whose [lastContacted] parses, counted with the number of such
    records, and keyed with the value rebuilt from the label; records whose
    date does not parse leave no trace.  When every rebuilt key is a
    number, the buckets come out in ascending order of the rebuilt key,
    whatever that key is.  Labels are taken not to name a member of
    [Object.prototype]. *)
Lemma activityData_buckets (data : list Customer) :
  Forall (fun k => JSObject.inherited k = false) (Charts.monthLabels data) ->
  Charts.activityData data = JSArray.sort Charts.bySortValue (Charts.activityTable data)
  /\ Permutation (Charts.activityData data) (Charts.activityTable data)
  /\ (forall e, In e (Charts.activityTable data)
                <-> In (Charts.label e) (Charts.monthLabels data)
                    /\ Charts.count e
                       = JSObject.VNum (Charts.recordsInBucket (Charts.label e) data)
                    /\ Charts.sortValue e = Charts.rebuildSortValue (Charts.label e))
  /\ List.NoDup (map Charts.label (Charts.activityTable data))
  /\ (forall l, In l (Charts.monthLabels data)
                <-> exists c t, In c data /\ JSDate.parse (lastContacted c) = Some t
                                /\ JSDate.formatMonthYear t = l)
  /\ Charts.activityData data = Charts.activityData (List.filter Charts.parseable data)
  /\ ((forall e, In e (Charts.activityTable data) -> Charts.hasSortValue e) ->
      StronglySorted (fun a b => Charts.sortKey a <= Charts.sortKey b)
                     (Charts.activityData data)).
Proof.
  intros Hproto.
  assert (Heq : Charts.activityData data
                = JSArray.sort Charts.bySortValue (Charts.activityTable data)).
  { unfold Charts.activityData, JSObject.entries.
    rewrite (activityCounts_tally data Hproto). reflexivity. }
  split; [exact Heq|].
  split; [rewrite Heq; apply sort_perm|].
  split; [apply activityTable_In|].
  split; [apply activityTable_labels_NoDup|].
  split; [apply monthLabels_In|].
  split.
  { unfold Charts.activityData, Charts.activityCounts.
    rewrite activityCounts_drops_unparseable. reflexivity. }
  intros Hnum. rewrite Heq.
  apply (sort_sorted Charts.bySortValue Charts.sortKey), activityTable_keyed, Hnum.
Qed.

End ActivityFacts.

(** The buckets and counts of the four sample records: the record whose
    date does not parse is dropped. *)
Example activityData_sample :
  Charts.activityData (DH := Sample.utc) Sample.activitySample
  = [Charts.mkActivityEntry "Jan 24" (JSObject.VNum 1) (Some 2000);
     Charts.mkActivityEntry "Mar 24" (JSObject.VNum 2) (Some 2002)].
Proof. vm_compute. reflexivity. Qed.

(** No label [en-US] prints holds the separator [ '] at which the code
    cuts it, so for every month of every year from 2000 to 2099 the year
    is lost: the key rebuilt from the label is 2000 plus the month index,
    or one more where the two digits of the year, read as a day, run past
    the end of the month ([Feb 30]). *)
Example rebuildSortValue_loses_year :
  forallb (fun ml => match Charts.rebuildSortValue (DH := Sample.utc) (snd ml) with
                     | Some key => ((key =? 2000 + fst ml) || (key =? 2000 + fst ml + 1))
                                   && Nat.eqb (length (JS.split (snd ml) " '")) 1
                     | None => false
                     end)
          Sample.allMonthLabels
  = true
  /\ length Sample.allMonthLabels = 1200%nat
  /\ nth 226 Sample.allMonthLabels (0, "") = (2, "Mar 26")
  /\ nth 1125 Sample.allMonthLabels (0, "") = (11, "Dec 25").
Proof. vm_compute. repeat split. Qed.

(** C5, on the code.  For a record last contacted in December 2025 and
    one in March 2026, the buckets are [Dec 25] and [Mar 26], with the keys
    2025 * 100 + 11 and 2026 * 100 + 2 as the specification words them, so
    that December comes first.  The code cuts the label at [ '], which
    [Dec 25] does not hold; the year is then read from [20undefined], and
    the rebuilt keys are 2011 and 2002: March comes out before the
    December that precedes it. *)
Theorem activityData_sorted_by_month_only :
  map (Charts.monthKeyOf (DH := Sample.utc)) Sample.acrossNewYear
  = [Some 202511; Some 202602]
  /\ Charts.monthLabels (DH := Sample.utc) Sample.acrossNewYear = ["Dec 25"; "Mar 26"]
  /\ JS.split "Dec 25" " '" = ["Dec 25"]
  /\ Charts.parseIntDigits ("20" +:+ "undefined") = 20
  /\ Charts.activityData (DH := Sample.utc) Sample.acrossNewYear
     = [Charts.mkActivityEntry "Mar 26" (JSObject.VNum 1) (Some 2002);
        Charts.mkActivityEntry "Dec 25" (JSObject.VNum 1) (Some 2011)].
Proof. vm_compute. repeat split. Qed.

(** ** Summary statistics *)

Section StatsFacts.
Context {DH : JSDate.DateHost}.

(** The test behind [recentContacts] has a lower bound only. *)
Lemma recentCallback_iff (now now' : Z) (c : Customer) :
  Charts.recentCallback now now' c = true
  <-> exists t, JSDate.parse (lastContacted c) = Some t
                /\ Charts.thirtyDaysAgo now now' <= t.
Proof.
  unfold Charts.recentCallback.
  destruct (JSDate.parse (lastContacted c)) as [t|]; simpl.
  - rewrite Z.leb_le. split.
    + intros H. exists t. auto.
    + intros (t' & Ht & H). injection Ht as <-. exact H.
  - split; [discriminate | intros (t & Ht & _); discriminate].
Qed.

Lemma stats_total (now now' : Z) (data : list Customer) :
  Charts.total (Charts.stats now now' data) = Z.of_nat (length data).
Proof. reflexivity. Qed.

End StatsFacts.

(** In a zone without offset, read at noon of Nov 2, 2026, the window
    opens at noon of Oct 3, 2026, thirty days earlier. *)
Example thirtyDaysAgo_noon :
  Charts.thirtyDaysAgo (DH := Sample.utc) Sample.noonNov2 Sample.noonNov2
  = Sample.noonNov2 - 30 * JSDate.msPerDay.
Proof. reflexivity. Qed.

(** Read at midnight, a record dated exactly 30 days earlier is counted
    and one dated 31 days earlier is not. *)
Example recentContacts_boundary :
  JSDate.parse (DH := Sample.utc) (lastContacted Sample.contactedOct3)
  = Some (Sample.midnightNov2 - 30 * JSDate.msPerDay)
  /\ JSDate.parse (DH := Sample.utc) (lastContacted Sample.contactedOct2)
     = Some (Sample.midnightNov2 - 31 * JSDate.msPerDay)
  /\ Charts.recentContacts
       (Charts.stats (DH := Sample.utc) Sample.midnightNov2 Sample.midnightNov2
          [Sample.contactedOct3; Sample.contactedOct2]) = 1
  /\ Charts.recentCallback (DH := Sample.utc) Sample.midnightNov2 Sample.midnightNov2
       Sample.contactedOct3 = true
  /\ Charts.recentCallback (DH := Sample.utc) Sample.midnightNov2 Sample.midnightNov2
       Sample.contactedOct2 = false.
Proof. vm_compute. repeat split. Qed.

(** C3, on the code.  A contact made in the evening of Oct 3, 2026 is
    stored as [Oct 3, 2026].  Read at noon of Nov 2, 2026, the contact lies
    within the trailing 30 days, and its date is the one 30 days before
    today; the window of the code opens at noon of Oct 3, the stored date
    is read as midnight of Oct 3, and the record is not counted. *)
Theorem recentContacts_misses_day_30 :
  @JSDate.formatShortDate Sample.utc Sample.eveningOct3
  = lastContacted Sample.contactedOct3
  /\ Sample.noonNov2 - 30 * JSDate.msPerDay <= Sample.eveningOct3 <= Sample.noonNov2
  /\ Charts.thirtyDaysAgo (DH := Sample.utc) Sample.noonNov2 Sample.noonNov2
     = Sample.noonNov2 - 30 * JSDate.msPerDay
  /\ JSDate.parse (DH := Sample.utc) (lastContacted Sample.contactedOct3)
     = Some (Sample.midnightNov2 - 30 * JSDate.msPerDay)
  /\ Charts.recentCallback (DH := Sample.utc) Sample.noonNov2 Sample.noonNov2
       Sample.contactedOct3 = false
  /\ Charts.recentContacts
       (Charts.stats (DH := Sample.utc) Sample.noonNov2 Sample.noonNov2
          [Sample.contactedOct3]) = 0.
Proof. vm_compute. repeat split; discriminate. Qed.

(** ** CSV import *)

Section ImportFacts.
Context {SH : JS.StringHost} {DH : JSDate.DateHost} {FK : Host.Faker} {CK : Host.Clock}.






End ImportFacts.


(** A file without data rows: the store is untouched. *)
Example import_no_rows :
  fst (CsvImport.complete (SH := RefHost.refStrings) (DH := Sample.utc)
         (FK := Host.refFaker) (CK := Host.fixedClock Sample.noonNov2)
         [] [Sample.bob2024] 0%nat)
  = ([Sample.bob2024], CsvImport.nothingImportedToast).
Proof. reflexivity. Qed.

(** A file with header [Name,Email] and one data row: one new record in
    front, with a generated phone and one fallback tag. *)
Example import_one_row :
  fst (CsvImport.complete (SH := RefHost.refStrings) (DH := Sample.utc)
         (FK := Host.refFaker) (CK := Host.fixedClock Sample.noonNov2)
         Sample.oneRow [Sample.bob2024] 0%nat)
  = ([mkCustomer "id-0" "Grace Hopper" "https://avatars.example/1" "grace@example.com"
        "(555) 010-0000" ["New"] "Nov 2, 2026";
      Sample.bob2024],
     CsvImport.importedToast 1%nat).
Proof. vm_compute. reflexivity. Qed.

(** ** Preference store *)

Section PrefsFacts.
Variable JSON_parse : string -> option Prefs.json.

Lemma load_missing_key (st : Prefs.State) :
  Prefs.load JSON_parse None st = Prefs.setPrefsLoaded true st.
Proof. reflexivity. Qed.

Lemma load_parse_failure (blob : string) (st : Prefs.State) :
  JSON_parse blob = None ->
  Prefs.load JSON_parse (Some blob) st = Prefs.setPrefsLoaded true st.
Proof.
  intros Hp. unfold Prefs.load. rewrite Hp. destruct (JS.truthy blob); reflexivity.
Qed.

End PrefsFacts.

(** A malformed [widgetOrder] is skipped and the members after it load. *)
Example load_skips_bad_widgetOrder :
  Prefs.widgetOrder (Prefs.applyParsed Sample.blobBadWidgetOrder Prefs.defaults)
  = Prefs.widgetOrder Prefs.defaults
  /\ Prefs.widgetSizes (Prefs.applyParsed Sample.blobBadWidgetOrder Prefs.defaults)
     = Prefs.JObj [("stats", Prefs.JStr "half")].
Proof. split; reflexivity. Qed.

(** C7, on the code.  The stored blob
    [{"rowsPerPage": 25, "hiddenColumns": 5, "chartTheme": "emerald"}]
    parses, and its [chartTheme] is well formed.  [new Set(5)] throws, the
    [catch] ends the block, and [chartTheme] keeps its default although
    [rowsPerPage], read before the throw, has its stored value. *)
Theorem load_bad_hiddenColumns_blocks_chartTheme :
  Prefs.lookup
    (match Sample.blobBadHiddenColumns with Prefs.JObj m => m | _ => [] end)
    "chartTheme" = Some (Prefs.JStr "emerald")
  /\ Prefs.rowsPerPage (Prefs.applyParsed Sample.blobBadHiddenColumns Prefs.defaults)
     = Prefs.JNum 25
  /\ Prefs.chartTheme (Prefs.applyParsed Sample.blobBadHiddenColumns Prefs.defaults)
     = Prefs.JStr "indigo"
  /\ Prefs.hiddenColumns (Prefs.applyParsed Sample.blobBadHiddenColumns Prefs.defaults)
     = [Prefs.JStr "avatar"].
Proof. repeat split; reflexivity. Qed.

(** ** Widget order *)

Section ReorderFacts.
Context {A : Type}.
Variable undefined : A.

Lemma splice_remove (l : list A) (i : Z) :
  0 <= i < Z.of_nat (length l) ->
  JSArray.splice l i 1 [] = Widgets.removeAt (Z.to_nat i) l.
Proof.
  intros Hi. unfold JSArray.splice, Widgets.removeAt.
  destruct (Z.ltb_spec i 0); [lia|].
  rewrite Z.min_l by lia. rewrite Z.max_l by lia. rewrite Z.min_l by lia.
  simpl. f_equal. f_equal. lia.
Qed.

Lemma splice_insert (l : list A) (i : Z) (x : A) :
  0 <= i <= Z.of_nat (length l) ->
  JSArray.splice l i 0 [x] = Widgets.insertAt (Z.to_nat i) x l.
Proof.
  intros Hi. unfold JSArray.splice, Widgets.insertAt.
  destruct (Z.ltb_spec i 0); [lia|].
  rewrite Z.min_l by lia. rewrite Z.max_l by lia. rewrite Z.min_l by lia.
  simpl. rewrite Z.add_0_r. reflexivity.
Qed.

Lemma removeAt_length (l : list A) (i : nat) :
  (i < length l)%nat -> length (Widgets.removeAt i l) = pred (length l).
Proof.
  intros Hi. unfold Widgets.removeAt.
  rewrite length_app, firstn_length_le, length_skipn by lia. lia.
Qed.

Lemma insertAt_length (l : list A) (i : nat) (x : A) :
  length (Widgets.insertAt i x l) = S (length l).
Proof.
  unfold Widgets.insertAt.
  pose proof (f_equal (@length A) (firstn_skipn i l)) as H.
  rewrite length_app in H. rewrite length_app. simpl. lia.
Qed.

Lemma removeAt_insertAt (l : list A) (i : nat) (x : A) :
  (i <= length l)%nat -> Widgets.removeAt i (Widgets.insertAt i x l) = l.
Proof.
  unfold Widgets.removeAt, Widgets.insertAt. revert l.
  induction i as [|i IH]; intros l Hi.
  - reflexivity.
  - destruct l as [|a l]; simpl in Hi; [lia|].
    simpl. f_equal. apply IH. lia.
Qed.

Lemma nth_error_insertAt (l : list A) (i : nat) (x : A) :
  (i <= length l)%nat -> nth_error (Widgets.insertAt i x l) i = Some x.
Proof.
  unfold Widgets.insertAt. revert l.
  induction i as [|i IH]; intros l Hi.
  - reflexivity.
  - destruct l as [|a l]; simpl in Hi; [lia|].
    simpl. apply IH. lia.
Qed.

Lemma insertAt_perm (l : list A) (i : nat) (x : A) :
  Permutation (Widgets.insertAt i x l) (x :: l).
Proof.
  unfold Widgets.insertAt. rewrite <- (firstn_skipn i l) at 3.
  apply Permutation_sym, Permutation_middle.
Qed.

Lemma removeAt_perm (l : list A) (i : nat) (x : A) :
  nth_error l i = Some x -> Permutation (x :: Widgets.removeAt i l) l.
Proof.
  intros Hx. unfold Widgets.removeAt.
  destruct (nth_error_split l i Hx) as (l1 & l2 & -> & <-).
  rewrite firstn_app, Nat.sub_diag, firstn_O, app_nil_r, firstn_all.
  replace (S (length l1)) with (length l1 + 1)%nat by lia.
  rewrite skipn_app, skipn_all2 by lia.
  replace (length l1 + 1 - length l1)%nat with 1%nat by lia. simpl.
  apply Permutation_middle.
Qed.

(** C8.  For indices within the bounds of the list, [handleReorderWidgets]
    takes the element at [dragIndex] out and puts it in at [hoverIndex]:
    the result holds that element at [hoverIndex], the result without it is
    the list without its element at [dragIndex], so all other elements
    keep their relative order, and the result is a rearrangement of the
    list, of the same length. *)
Theorem reorder_moves_element (prevOrder : list A) (dragIndex hoverIndex : Z) (x : A) :
  0 <= dragIndex < Z.of_nat (length prevOrder) ->
  0 <= hoverIndex < Z.of_nat (length prevOrder) ->
  nth_error prevOrder (Z.to_nat dragIndex) = Some x ->
  let result := Widgets.handleReorderWidgets undefined prevOrder dragIndex hoverIndex in
  result = Widgets.insertAt (Z.to_nat hoverIndex) x
             (Widgets.removeAt (Z.to_nat dragIndex) prevOrder)
  /\ nth_error result (Z.to_nat hoverIndex) = Some x
  /\ Widgets.removeAt (Z.to_nat hoverIndex) result
     = Widgets.removeAt (Z.to_nat dragIndex) prevOrder
  /\ length result = length prevOrder
  /\ Permutation result prevOrder.
Proof.
  intros Hd Hh Hx result.
  assert (Hlen : length (Widgets.removeAt (Z.to_nat dragIndex) prevOrder)
                 = pred (length prevOrder)) by (apply removeAt_length; lia).
  assert (Heq : result = Widgets.insertAt (Z.to_nat hoverIndex) x
                           (Widgets.removeAt (Z.to_nat dragIndex) prevOrder)).
  { unfold result, Widgets.handleReorderWidgets, JSArray.at_.
    destruct (Z.ltb_spec dragIndex 0); [lia|].
    rewrite (nth_error_nth _ _ undefined Hx).
    rewrite splice_remove by exact Hd.
    apply splice_insert. rewrite Hlen. lia. }
  rewrite Heq.
  split; [reflexivity|].
  split; [apply nth_error_insertAt; rewrite Hlen; lia|].
  split; [apply removeAt_insertAt; rewrite Hlen; lia|].
  split; [rewrite insertAt_length, Hlen; lia|].
  eapply Permutation_trans; [apply insertAt_perm | apply removeAt_perm, Hx].
Qed.

End ReorderFacts.

Lemma reorder_moves_element_witness :
  Widgets.handleReorderWidgets "" Widgets.DEFAULT_WIDGET_ORDER 0 2
  = ["line"; "bar"; "stats"; "pie"].
Proof.
  destruct (reorder_moves_element "" Widgets.DEFAULT_WIDGET_ORDER 0 2 "stats")
    as [Heq _].
  - simpl. lia.
  - simpl. lia.
  - reflexivity.
  - rewrite Heq. reflexivity.
Defined.

(** ** Edit form *)

Section EditFacts.
Context {DH : JSDate.DateHost} {FK : Host.Faker} {CK : Host.Clock}.

Lemma applyEdit_match (editing : Customer) (form : Form.CustomerFormData) (c : Customer) :
  id c = id editing ->
  Form.applyEdit editing form c
  = mkCustomer (id c) (Form.firstName form +:+ " " +:+ Form.lastName form) (avatar c)
               (Form.email form) (Form.phone form) [Form.role form] (lastContacted c).
Proof. intros He. unfold Form.applyEdit. rewrite He, String.eqb_refl. reflexivity. Qed.

Lemma applyEdit_other (editing : Customer) (form : Form.CustomerFormData) (c : Customer) :
  id c <> id editing -> Form.applyEdit editing form c = c.
Proof.
  intros Hne. unfold Form.applyEdit.
  destruct (String.eqb_spec (id c) (id editing)); [contradiction | reflexivity].
Qed.

(** C9.  Submitting the edit form for [editing] rewrites the record store
    position by position.  A record with the id of [editing] gets the
    one-element tag list holding the role of the form, whatever tags it
    had, and keeps its id, avatar and [lastContacted]; every other record
    is left as it was.  No draw is made from the host. *)
Theorem edit_replaces_tags_and_frames (editing : Customer)
    (form : Form.CustomerFormData) (prev : list Customer) (n : nat) :
  let after := fst (fst (Form.handleModalSubmit (Some editing) form prev n)) in
  length after = length prev
  /\ snd (Form.handleModalSubmit (Some editing) form prev n) = n
  /\ forall i c, nth_error prev i = Some c ->
       exists c', nth_error after i = Some c'
         /\ (id c = id editing ->
               tags c' = [Form.role form]
               /\ id c' = id c /\ avatar c' = avatar c
               /\ lastContacted c' = lastContacted c)
         /\ (id c <> id editing -> c' = c).
Proof.
  simpl. split; [apply length_map|]. split; [reflexivity|].
  intros i c Hc. exists (Form.applyEdit editing form c). split.
  - rewrite nth_error_map, Hc. reflexivity.
  - split.
    + intros He. rewrite (applyEdit_match _ _ _ He). simpl. auto.
    + apply applyEdit_other.
Qed.

End EditFacts.

Lemma edit_replaces_tags_and_frames_witness :
  exists c',
    nth_error
      (fst (fst (Form.handleModalSubmit (DH := Sample.utc) (FK := Host.refFaker)
                   (CK := Host.fixedClock Sample.noonNov2)
                   (Some Sample.twoTags) (Form.initialData Sample.twoTags)
                   [Sample.bob2024; Sample.twoTags] 0%nat))) 1
    = Some c'
    /\ tags c' = ["VIP"] /\ avatar c' = avatar Sample.twoTags.
Proof.
  destruct (edit_replaces_tags_and_frames (DH := Sample.utc) (FK := Host.refFaker)
              (CK := Host.fixedClock Sample.noonNov2)
              Sample.twoTags (Form.initialData Sample.twoTags)
              [Sample.bob2024; Sample.twoTags] 0%nat) as (_ & _ & Hframe).
  destruct (Hframe 1%nat Sample.twoTags eq_refl) as (c' & Hc' & Hsame & _).
  destruct (Hsame eq_refl) as (Htags & _ & Havatar & _).
  exists c'. repeat split; assumption.
Defined.

(** Submitting the prefilled form unchanged drops the second tag. *)
Example edit_prefilled_drops_extra_tags :
  map tags
    (fst (fst (Form.handleModalSubmit (DH := Sample.utc) (FK := Host.refFaker)
                 (CK := Host.fixedClock Sample.noonNov2)
                 (Some Sample.twoTags) (Form.initialData Sample.twoTags)
                 [Sample.bob2024; Sample.twoTags] 0%nat)))
  = [["Partner"]; ["VIP"]].
Proof. reflexivity. Qed.

(** ** Selection *)

(** C10.  With a non-empty filtered view, [handleToggleAll] looks only at
    the two sizes: when the selection has as many ids as there are
    filtered records it empties the selection, whatever the ids are, and
    otherwise the selection becomes the set of ids of the filtered
    records; [isAllSelected] is the same comparison. *)
Theorem toggleAll_compares_sizes (selectedIds : gset string) (filteredData : list Customer) :
  filteredData <> [] ->
  (size selectedIds = length filteredData ->
     Selection.handleToggleAll selectedIds filteredData = ∅
     /\ Selection.isAllSelected selectedIds filteredData = true)
  /\ (size selectedIds <> length filteredData ->
        Selection.handleToggleAll selectedIds filteredData
        = list_to_set (map id filteredData)
        /\ Selection.isAllSelected selectedIds filteredData = false).
Proof.
  intros Hne. unfold Selection.handleToggleAll, Selection.isAllSelected.
  assert (Hpos : (0 <? length filteredData)%nat = true).
  { apply Nat.ltb_lt. destruct filteredData; [congruence | simpl; lia]. }
  rewrite Hpos. split.
  - intros Heq. apply Nat.eqb_eq in Heq. rewrite Heq. auto.
  - intros Hdiff. apply Nat.eqb_neq in Hdiff. rewrite Hdiff. auto.
Qed.

Lemma toggleAll_compares_sizes_witness :
  [Sample.bob2024] <> []
  /\ ("zz" ∉ (list_to_set (map id [Sample.bob2024]) : gset string))
  /\ Selection.handleToggleAll Sample.selectedElsewhere [Sample.bob2024] = ∅.
Proof.
  assert (Hne : [Sample.bob2024] <> []) by discriminate.
  split; [exact Hne|].
  split; [vm_compute; intros H; discriminate H|].
  apply (toggleAll_compares_sizes Sample.selectedElsewhere [Sample.bob2024] Hne).
  reflexivity.
Defined.

(** ** Preference store: what loads when nothing throws *)

Section LoadFacts.
Variable members : list (string * Prefs.json).

Lemma ifPresent_object (k : string) (set : Prefs.json -> Prefs.State -> Prefs.State)
    (st : Prefs.State) :
  Prefs.ifPresent (Prefs.JObj members) k set st
  = Prefs.Ok (Prefs.condSet (Prefs.lookup members k) set st).
Proof.
  unfold Prefs.ifPresent, Prefs.condSet, Prefs.getProp.
  destruct (Prefs.lookup members k) as [j|]; [|reflexivity].
  destruct (Prefs.truthy (Some j)); reflexivity.
Qed.

Lemma loadWidgetOrder_object (st : Prefs.State) :
  Prefs.loadWidgetOrder (Prefs.JObj members) st
  = Prefs.Ok (Prefs.condSet (Prefs.lookup members "widgetOrder")
                (fun j s => if Prefs.isArray j then Prefs.setWidgetOrder j s else s) st).
Proof.
  unfold Prefs.loadWidgetOrder, Prefs.condSet, Prefs.getProp.
  destruct (Prefs.lookup members "widgetOrder") as [j|]; [|reflexivity].
  destruct (Prefs.truthy (Some j)); [|reflexivity].
  destruct (Prefs.isArray j); reflexivity.
Qed.

Lemma loadHiddenColumns_object (st : Prefs.State) :
  Prefs.hiddenColumnsLoadable members ->
  Prefs.loadHiddenColumns (Prefs.JObj members) st
  = Prefs.Ok (Prefs.condSet (Prefs.lookup members "hiddenColumns")
                (fun j s => match Prefs.newSet j with
                            | Prefs.Ok set => Prefs.setHiddenColumns set s
                            | Prefs.Throw => s
                            end) st).
Proof.
  unfold Prefs.hiddenColumnsLoadable, Prefs.loadHiddenColumns, Prefs.condSet,
    Prefs.getProp.
  destruct (Prefs.lookup members "hiddenColumns") as [j|]; [|reflexivity].
  destruct (Prefs.truthy (Some j)); [|reflexivity].
  intros Hok. destruct (Hok eq_refl) as [s Hs]. rewrite Hs. reflexivity.
Qed.

Lemma tryCatch_Ok (s : Prefs.statement) (rest : list Prefs.statement)
    (st st' : Prefs.State) :
  s st = Prefs.Ok st' -> Prefs.tryCatch (s :: rest) st = Prefs.tryCatch rest st'.
Proof. intros Hs. simpl. rewrite Hs. reflexivity. Qed.

Lemma condSet_frame {B} (proj : Prefs.State -> B) (v : option Prefs.json)
    (set : Prefs.json -> Prefs.State -> Prefs.State) (st : Prefs.State) :
  (forall j s, proj (set j s) = proj s) ->
  proj (Prefs.condSet v set st) = proj st.
Proof.
  intros Hf. unfold Prefs.condSet. destruct v as [j|]; [|reflexivity].
  destruct (Prefs.truthy (Some j)); [apply Hf | reflexivity].
Qed.

Lemma condSet_hit (proj : Prefs.State -> Prefs.json) (v : option Prefs.json)
    (set : Prefs.json -> Prefs.State -> Prefs.State) (st : Prefs.State) :
  (forall j s, proj (set j s) = j) ->
  proj (Prefs.condSet v set st) = Prefs.loaded v (proj st).
Proof.
  intros Hf. unfold Prefs.condSet, Prefs.loaded. destruct v as [j|]; [|reflexivity].
  destruct (Prefs.truthy (Some j)); [apply Hf | reflexivity].
Qed.

Ltac frame_tac :=
  intros; simpl;
  repeat match goal with
         | |- context [match ?x with _ => _ end] => destruct x
         end;
  reflexivity.

Ltac peel :=
  match goal with
  | |- ?p (Prefs.condSet ?v ?set ?st) = _ =>
      rewrite (condSet_frame p v set st) by frame_tac
  end.

Ltac hit :=
  match goal with
  | |- ?p (Prefs.condSet ?v ?set ?st) = _ =>
      rewrite (condSet_hit p v set st) by reflexivity
  end.

(** When [hiddenColumns] does not throw, every preference of a stored
    object loads on its own: the stored value when it is truthy (and, for
    [widgetOrder], an array), else the current value. *)
Lemma applyParsed_independent (st : Prefs.State) :
  Prefs.hiddenColumnsLoadable members ->
  let st' := Prefs.applyParsed (Prefs.JObj members) st in
  Prefs.rowsPerPage st'
  = Prefs.loaded (Prefs.lookup members "rowsPerPage") (Prefs.rowsPerPage st)
  /\ Prefs.activeRoleFilter st'
     = Prefs.loaded (Prefs.lookup members "activeRoleFilter") (Prefs.activeRoleFilter st)
  /\ Prefs.hiddenColumns st'
     = Prefs.loadedSet (Prefs.lookup members "hiddenColumns") (Prefs.hiddenColumns st)
  /\ Prefs.dateRange st'
     = Prefs.loaded (Prefs.lookup members "dateRange") (Prefs.dateRange st)
  /\ Prefs.visibleCharts st'
     = Prefs.loaded (Prefs.lookup members "visibleCharts") (Prefs.visibleCharts st)
  /\ Prefs.chartTheme st'
     = Prefs.loaded (Prefs.lookup members "chartTheme") (Prefs.chartTheme st)
  /\ Prefs.customColor st'
     = Prefs.loaded (Prefs.lookup members "customColor") (Prefs.customColor st)
  /\ Prefs.widgetOrder st'
     = Prefs.loadedArray (Prefs.lookup members "widgetOrder") (Prefs.widgetOrder st)
  /\ Prefs.widgetSizes st'
     = Prefs.loaded (Prefs.lookup members "widgetSizes") (Prefs.widgetSizes st).
Proof.
  intros Hok st'.
  assert (Heq : st' =
    Prefs.condSet (Prefs.lookup members "widgetSizes") Prefs.setWidgetSizes
     (Prefs.condSet (Prefs.lookup members "widgetOrder")
        (fun j s => if Prefs.isArray j then Prefs.setWidgetOrder j s else s)
     (Prefs.condSet (Prefs.lookup members "customColor") Prefs.setCustomColor
     (Prefs.condSet (Prefs.lookup members "chartTheme") Prefs.setChartTheme
     (Prefs.condSet (Prefs.lookup members "visibleCharts") Prefs.setVisibleCharts
     (Prefs.condSet (Prefs.lookup members "dateRange") Prefs.setDateRange
     (Prefs.condSet (Prefs.lookup members "hiddenColumns")
        (fun j s => match Prefs.newSet j with
                    | Prefs.Ok set => Prefs.setHiddenColumns set s
                    | Prefs.Throw => s
                    end)
     (Prefs.condSet (Prefs.lookup members "activeRoleFilter") Prefs.setActiveRoleFilter
     (Prefs.condSet (Prefs.lookup members "rowsPerPage") Prefs.setRowsPerPage
        st))))))))).
  { unfold st', Prefs.applyParsed, Prefs.tryBlock.
    do 2 (erewrite tryCatch_Ok by apply ifPresent_object).
    erewrite tryCatch_Ok by apply (loadHiddenColumns_object _ Hok).
    do 4 (erewrite tryCatch_Ok by apply ifPresent_object).
    erewrite tryCatch_Ok by apply loadWidgetOrder_object.
    erewrite tryCatch_Ok by apply ifPresent_object.
    reflexivity. }
  rewrite Heq. clear Heq st'.
  repeat split.
  - do 8 peel. hit. reflexivity.
  - do 7 peel. hit. f_equal. peel. reflexivity.
  - do 6 peel. unfold Prefs.condSet at 1, Prefs.loadedSet.
    destruct (Prefs.lookup members "hiddenColumns") as [j|].
    + destruct (Prefs.truthy (Some j)); [destruct (Prefs.newSet j)|]; simpl;
        repeat peel; reflexivity.
    + do 2 peel. reflexivity.
  - do 5 peel. hit. f_equal. do 3 peel. reflexivity.
  - do 4 peel. hit. f_equal. do 4 peel. reflexivity.
  - do 3 peel. hit. f_equal. do 5 peel. reflexivity.
  - do 2 peel. hit. f_equal. do 6 peel. reflexivity.
  - peel. unfold Prefs.condSet at 1, Prefs.loadedArray.
    destruct (Prefs.lookup members "widgetOrder") as [j|].
    + destruct (Prefs.truthy (Some j)); [destruct (Prefs.isArray j)|]; simpl;
        repeat peel; reflexivity.
    + do 7 peel. reflexivity.
  - hit. f_equal. do 8 peel. reflexivity.
Qed.

End LoadFacts.

(** * Further properties of the handlers *)

(** ** The view as a filter *)

Section ViewFacts.
Context {SH : JS.StringHost} {DH : JSDate.DateHost}.

(** The predicate that [filteredData] applies, all steps at once. *)
Lemma filteredData_as_filter (data : list Customer) (q tag : string) (dr : DateRange) :
  Query.filteredData data q tag dr
  = List.filter (fun r => Query.passesSearch q r && Query.passesTag tag r
                          && Query.passesDate dr r) data.
Proof.
  unfold Query.filteredData. rewrite <- dateFilterActive_truthy.
  assert (Hp : forall r,
             Query.passesSearch q r && Query.passesTag tag r && Query.passesDate dr r
             = (if JS.truthy q then Query.searchCallback q r else true)
               && (if String.eqb tag "All" then true else Query.tagCallback tag r)
               && (if Query.dateFilterActive dr then Query.dateCallback dr r else true)).
  { intros r. unfold Query.passesDate. rewrite passesSearch_cases, passesTag_cases.
    destruct (Query.dateFilterActive dr); reflexivity. }
  destruct (JS.truthy q), (String.eqb tag "All"), (Query.dateFilterActive dr);
    simpl in *; rewrite ?filter_filter;
    first [ symmetry; apply filter_all; intros r; rewrite Hp; reflexivity
          | apply filter_ext; intros r; rewrite Hp;
            destruct (Query.searchCallback q r), (Query.tagCallback tag r),
              (Query.dateCallback dr r); reflexivity ].
Qed.

(** X1.  Filtering the filtered view again, with the same filters, changes
    nothing. *)
Theorem filteredData_idempotent (data : list Customer) (q tag : string) (dr : DateRange) :
  Query.filteredData (Query.filteredData data q tag dr) q tag dr
  = Query.filteredData data q tag dr.
Proof.
  rewrite !filteredData_as_filter, filter_filter.
  apply filter_ext. intros r. apply andb_diag.
Qed.

(** X2.  The view of a store put together from two lists is the view of
    the first followed by the view of the second: records prepended by an
    import or by the form show up in front of the old view, and only those
    that pass the filters. *)
Theorem filteredData_app (new old : list Customer) (q tag : string) (dr : DateRange) :
  Query.filteredData (new ++ old) q tag dr
  = Query.filteredData new q tag dr ++ Query.filteredData old q tag dr.
Proof. rewrite !filteredData_as_filter. apply List.filter_app. Qed.

(** X3.  When [hasActiveFilters] is false, so that the reset button is not
    shown, the view is the whole store. *)
Theorem no_active_filter_shows_all (data : list Customer) (fs : Filters.FilterState) :
  Filters.hasActiveFilters fs = false ->
  Filters.visible data fs = data.
Proof.
  unfold Filters.hasActiveFilters, Filters.visible, Query.filteredData.
  intros H. apply orb_false_elim in H as [H Hend].
  apply orb_false_elim in H as [H Hstart].
  apply orb_false_elim in H as [Hq Htag].
  rewrite Hq, Htag, Hstart, Hend. reflexivity.
Qed.


(** X4.  Deleting a record takes the rows with its id, and no other row,
    out of the view, whatever the filters are, and takes the id out of the
    selection; a declined confirmation changes nothing. *)
Theorem delete_commutes_with_view (target : string) (st : Store.TableState)
    (fs : Filters.FilterState) :
  let st' := fst (Store.delete true target st) in
  Filters.visible (Store.data st') fs
  = List.filter (fun c => negb (String.eqb (id c) target))
                (Filters.visible (Store.data st) fs)
  /\ (target ∉ Store.selectedIds st')
  /\ (Store.selectedIds st' ⊆ Store.selectedIds st)
  /\ (forall x, x <> target -> x ∈ Store.selectedIds st -> x ∈ Store.selectedIds st')
  /\ Store.delete false target st = (st, None).
Proof.
  simpl. unfold Filters.visible. rewrite !filteredData_as_filter, !filter_filter.
  split; [apply filter_ext; intros r; apply andb_comm|].
  split; [apply not_elem_of_difference; right; apply elem_of_singleton; reflexivity|].
  split; [apply subseteq_difference_l; reflexivity|].
  split; [|reflexivity].
  intros x Hne Hx. apply elem_of_difference. split; [exact Hx|].
  rewrite elem_of_singleton. exact Hne.
Qed.

(** X5.  Select all, then bulk delete: when the selection and the view
    differ in size, [handleToggleAll] selects the ids of the view, and the
    bulk delete that follows leaves a store whose view is empty under the
    same filters, keeps exactly the records whose id is not the id of a row
    of the view, and clears the selection. *)
Theorem select_all_then_bulk_delete (data : list Customer) (selectedIds : gset string)
    (fs : Filters.FilterState) :
  size selectedIds <> length (Filters.visible data fs) ->
  let selection := Selection.handleToggleAll selectedIds (Filters.visible data fs) in
  let st' := fst (Store.handleBulkDelete true (Store.mkTableState data selection)) in
  Filters.visible (Store.data st') fs = []
  /\ Store.selectedIds st' = ∅
  /\ (forall c, In c (Store.data st')
                <-> In c data /\ ~ In (id c) (map id (Filters.visible data fs))).
Proof.
  intros Hsize selection st'.
  assert (Hsel : selection = list_to_set (map id (Filters.visible data fs))).
  { unfold selection, Selection.handleToggleAll.
    apply Nat.eqb_neq in Hsize. rewrite Hsize. reflexivity. }
  assert (Hkept : forall c, In c (Store.data st')
                            <-> In c data /\ ~ In (id c) (map id (Filters.visible data fs))).
  { intros c. unfold st'. simpl. rewrite filter_In, negb_true_iff, bool_decide_eq_false.
    rewrite Hsel, elem_of_list_to_set, list_elem_of_In. reflexivity. }
  split; [|split; [reflexivity | exact Hkept]].
  destruct (Filters.visible (Store.data st') fs) as [|r rest] eqn:Hview; [reflexivity|].
  exfalso.
  assert (Hin : In r (Filters.visible (Store.data st') fs)) by (rewrite Hview; left; reflexivity).
  unfold Filters.visible in Hin. rewrite filteredData_as_filter in Hin.
  apply filter_In in Hin as [Hdata Hpass].
  apply Hkept in Hdata as [Hdata Hnot]. apply Hnot, in_map.
  unfold Filters.visible. rewrite filteredData_as_filter. apply filter_In. auto.
Qed.

End ViewFacts.

Lemma no_active_filter_shows_all_witness :
  Filters.hasActiveFilters (fst (Filters.clearFilters Scenario.leadsOnly)) = false
  /\ Filters.visible (SH := RefHost.refStrings) (DH := Sample.utc) Scenario.store
       (fst (Filters.clearFilters Scenario.leadsOnly))
     = Scenario.store.
Proof.
  split; [reflexivity|].
  apply (no_active_filter_shows_all (SH := RefHost.refStrings) (DH := Sample.utc)).
  reflexivity.
Defined.

Lemma select_all_then_bulk_delete_witness :
  size (∅ : gset string)
  <> length (Filters.visible (SH := RefHost.refStrings) (DH := Sample.utc)
               Scenario.store Scenario.leadsOnly)
  /\ Filters.visible (SH := RefHost.refStrings) (DH := Sample.utc)
       (Store.data
          (fst (Store.handleBulkDelete true
                  (Store.mkTableState Scenario.store
                     (Selection.handleToggleAll ∅
                        (Filters.visible (SH := RefHost.refStrings) (DH := Sample.utc)
                           Scenario.store Scenario.leadsOnly))))))
       Scenario.leadsOnly
     = [].
Proof.
  assert (H : size (∅ : gset string)
              <> length (Filters.visible (SH := RefHost.refStrings) (DH := Sample.utc)
                           Scenario.store Scenario.leadsOnly)).
  { vm_compute. discriminate. }
  split; [exact H|].
  apply (select_all_then_bulk_delete (SH := RefHost.refStrings) (DH := Sample.utc)
           Scenario.store ∅ Scenario.leadsOnly H).
Defined.

(** ** Selection and column sets *)

(** X6.  [toggleSelect] and [toggleColumnVisibility] flip the membership
    of their argument and of nothing else, so a second toggle restores the
    set. *)
Theorem toggle_flips_one_member (x : string) (s : gset string) :
  (x ∈ Store.toggleSelect x s <-> x ∉ s)
  /\ (forall y, y <> x -> (y ∈ Store.toggleSelect x s <-> y ∈ s))
  /\ Store.toggleSelect x (Store.toggleSelect x s) = s
  /\ (x ∈ Store.toggleColumnVisibility x s <-> x ∉ s)
  /\ (forall y, y <> x -> (y ∈ Store.toggleColumnVisibility x s <-> y ∈ s))
  /\ Store.toggleColumnVisibility x (Store.toggleColumnVisibility x s) = s.
Proof.
  assert (Hflip : forall t : gset string,
             (x ∈ (if bool_decide (x ∈ t) then t ∖ {[x]} else t ∪ {[x]}) <-> x ∉ t)
             /\ (forall y, y <> x ->
                   (y ∈ (if bool_decide (x ∈ t) then t ∖ {[x]} else t ∪ {[x]}) <-> y ∈ t))).
  { intros t. destruct (bool_decide_reflect (x ∈ t)) as [Hin|Hout]; split.
    - rewrite elem_of_difference, elem_of_singleton. tauto.
    - intros y Hy. rewrite elem_of_difference, elem_of_singleton. tauto.
    - rewrite elem_of_union, elem_of_singleton. tauto.
    - intros y Hy. rewrite elem_of_union, elem_of_singleton. tauto. }
  assert (Htwice : forall t : gset string,
             (let t1 := if bool_decide (x ∈ t) then t ∖ {[x]} else t ∪ {[x]} in
              if bool_decide (x ∈ t1) then t1 ∖ {[x]} else t1 ∪ {[x]}) = t).
  { intros t. simpl. apply set_eq. intros y.
    destruct (Hflip t) as [H1 H2].
    destruct (Hflip (if bool_decide (x ∈ t) then t ∖ {[x]} else t ∪ {[x]})) as [H3 H4].
    destruct (decide (y = x)) as [->|Hne].
    - rewrite H3, H1. destruct (decide (x ∈ t)); tauto.
    - rewrite (H4 y Hne). apply H2, Hne. }
  unfold Store.toggleSelect, Store.toggleColumnVisibility.
  destruct (Hflip s) as [H1 H2].
  repeat split; try apply H1; try (apply H2; assumption); try apply (Htwice s).
Qed.

Section SessionFacts.
Context {SH : JS.StringHost} {DH : JSDate.DateHost} {FK : Host.Faker} {CK : Host.Clock}.

Lemma complete_prepends (rows : list CsvImport.Row) (prev : list Customer) (n : nat) :
  exists newCustomers, fst (fst (CsvImport.complete rows prev n)) = newCustomers ++ prev.
Proof.
  unfold CsvImport.complete, Host.bind.
  destruct (Host.mapM CsvImport.newCustomer rows n) as [cs n1].
  destruct (0 <? Z.of_nat (length cs)); simpl; [exists cs | exists []]; reflexivity.
Qed.

Lemma applyEdit_id (editing : Customer) (formData : Form.CustomerFormData) (c : Customer) :
  id (Form.applyEdit editing formData c) = id c.
Proof. unfold Form.applyEdit. destruct (String.eqb (id c) (id editing)); reflexivity. Qed.

Lemma submit_keeps_ids (editing : option Customer) (formData : Form.CustomerFormData)
    (prev : list Customer) (n : nat) (c : Customer) :
  In c prev ->
  exists c', In c' (fst (fst (Form.handleModalSubmit editing formData prev n)))
             /\ id c' = id c.
Proof.
  intros Hc. destruct editing as [e|]; simpl.
  - exists (Form.applyEdit e formData c). split; [apply in_map, Hc | apply applyEdit_id].
  - exists c. split; [right; exact Hc | reflexivity].
Qed.

Lemma step_keeps_selection_in_store (st st' : Store.TableState) :
  Session.step st st' -> Session.selectionInStore st -> Session.selectionInStore st'.
Proof.
  intros Hstep Hinv. unfold Session.selectionInStore in *.
  destruct Hstep as [st fs c Hc | st fs | st | st confirmed target | st confirmed
                     | st rows n | st editing formData n]; simpl; intros x Hx.
  - unfold Store.toggleSelect in Hx.
    destruct (bool_decide (id c ∈ Store.selectedIds st)).
    + apply elem_of_difference in Hx as [Hx _]. apply Hinv, Hx.
    + apply elem_of_union in Hx as [Hx|Hx]; [apply Hinv, Hx|].
      apply elem_of_singleton in Hx. subst x. exists c. split; [|reflexivity].
      unfold Filters.visible in Hc. rewrite filteredData_as_filter in Hc.
      apply filter_In in Hc. apply Hc.
  - unfold Selection.handleToggleAll in Hx.
    destruct (_ && _); [apply elem_of_empty in Hx; destruct Hx|].
    apply elem_of_list_to_set, list_elem_of_In, in_map_iff in Hx.
    destruct Hx as [c [Hid Hc]]. exists c. split; [|exact Hid].
    unfold Filters.visible in Hc. rewrite filteredData_as_filter in Hc.
    apply filter_In in Hc. apply Hc.
  - apply elem_of_empty in Hx. destruct Hx.
  - destruct confirmed; simpl in *; [|apply Hinv, Hx].
    apply elem_of_difference in Hx as [Hx Hne]. rewrite elem_of_singleton in Hne.
    destruct (Hinv x Hx) as [c [Hc Hid]]. exists c. split; [|exact Hid].
    apply filter_In. split; [exact Hc|].
    apply negb_true_iff. destruct (String.eqb_spec (id c) target); [congruence | reflexivity].
  - destruct confirmed; simpl in *; [|apply Hinv, Hx].
    apply elem_of_empty in Hx. destruct Hx.
  - destruct (Hinv x Hx) as [c [Hc Hid]].
    destruct (complete_prepends rows (Store.data st) n) as [new Hnew].
    exists c. rewrite Hnew. split; [apply in_or_app; right; exact Hc | exact Hid].
  - destruct (Hinv x Hx) as [c [Hc Hid]].
    destruct (submit_keeps_ids editing formData (Store.data st) n c Hc) as [c' [Hc' Hid']].
    exists c'. split; [exact Hc' | congruence].
Qed.

(** X7.  Through any sequence of row and header checkbox toggles, single
    and bulk deletes, imports and form submissions, every selected id stays
    the id of a stored record: the selection never refers to a record that
    is gone. *)
Theorem selection_stays_in_store (st st' : Store.TableState) :
  Session.selectionInStore st ->
  Session.steps st st' ->
  Session.selectionInStore st'.
Proof.
  intros Hinv Hsteps. induction Hsteps as [st | st1 st2 st3 Hstep Hsteps IH].
  - exact Hinv.
  - apply IH. eapply step_keeps_selection_in_store; eassumption.
Qed.

End SessionFacts.

Lemma selection_stays_in_store_witness :
  Session.selectionInStore
    (fst (Store.delete true "c1" Scenario.afterSelectAll)).
Proof.
  apply (selection_stays_in_store (SH := RefHost.refStrings) (DH := Sample.utc)
           (FK := Host.refFaker) (CK := Host.fixedClock Sample.noonNov2)
           (Store.mkTableState Scenario.store ∅)).
  - intros x Hx. apply elem_of_empty in Hx. destruct Hx.
  - eapply Session.StepsMore.
    + apply (Session.StepToggleAll (Store.mkTableState Scenario.store ∅) Scenario.leadsOnly).
    + eapply Session.StepsMore.
      * apply (Session.StepDelete Scenario.afterSelectAll true "c1").
      * apply Session.StepsDone.
Defined.

(** ** Widget sizes *)

(** X8.  [handleToggleWidgetSize] changes the size of one widget only and
    always leaves it [full] or [half]: [full] becomes [half], and [half], a
    missing entry or any other value becomes [full].  Two toggles restore a
    size that was [full] or [half], and three toggles are one. *)
Theorem toggleWidgetSize_flips (widget : string) (prev : gmap string string) :
  let next := Layout.handleToggleWidgetSize widget prev in
  (next !! widget = Some "full" \/ next !! widget = Some "half")
  /\ (prev !! widget = Some "full" <-> next !! widget = Some "half")
  /\ (forall other, other <> widget -> next !! other = prev !! other)
  /\ (prev !! widget = Some "full" \/ prev !! widget = Some "half" ->
      Layout.handleToggleWidgetSize widget next = prev)
  /\ Layout.handleToggleWidgetSize widget (Layout.handleToggleWidgetSize widget next) = next.
Proof.
  assert (Hstep : forall m : gmap string string,
             (m !! widget = Some "full" ->
              Layout.handleToggleWidgetSize widget m = <[widget := "half"]> m)
             /\ (m !! widget <> Some "full" ->
                 Layout.handleToggleWidgetSize widget m = <[widget := "full"]> m)).
  { intros m. unfold Layout.handleToggleWidgetSize. split; intros H.
    - rewrite bool_decide_eq_true_2 by exact H. reflexivity.
    - rewrite bool_decide_eq_false_2 by exact H. reflexivity. }
  simpl. destruct (decide (prev !! widget = Some "full")) as [Hfull|Hother].
  - rewrite (proj1 (Hstep prev) Hfull).
    assert (Hnext : <[widget := "half"]> prev !! widget = Some "half")
      by apply lookup_insert_eq.
    assert (Hback : Layout.handleToggleWidgetSize widget (<[widget := "half"]> prev) = prev).
    { rewrite (proj2 (Hstep _)) by (rewrite Hnext; discriminate).
      rewrite insert_insert_eq. apply insert_id, Hfull. }
    rewrite Hnext, Hback. repeat split; auto.
    + intros other Hne. apply lookup_insert_ne. congruence.
    + apply (proj1 (Hstep prev) Hfull).
  - rewrite (proj2 (Hstep prev) Hother).
    assert (Hnext : <[widget := "full"]> prev !! widget = Some "full")
      by apply lookup_insert_eq.
    assert (Hback : Layout.handleToggleWidgetSize widget (<[widget := "full"]> prev)
                    = <[widget := "half"]> prev).
    { rewrite (proj1 (Hstep _)) by exact Hnext. apply insert_insert_eq. }
    rewrite Hnext, Hback. repeat split; auto.
    + intros H. contradiction.
    + intros H. discriminate H.
    + intros other Hne. apply lookup_insert_ne. congruence.
    + intros [H|H]; [contradiction | apply insert_id, H].
    + rewrite (proj2 (Hstep _)) by (rewrite lookup_insert_eq; discriminate).
      apply insert_insert_eq.
Qed.

(** ** Theme *)

(** X9.  After [toggleTheme] the state, the class on the document and the
    stored theme agree, and loading the page again restores the theme just
    chosen, whatever the system preference is.  Without a stored theme a
    fresh page follows the system preference. *)
Theorem theme_survives_reload (st : Theme.State) (prefersDark : bool) :
  let toggled := Theme.toggleTheme st in
  let reloaded := Theme.init prefersDark (Theme.freshPage (Theme.savedTheme toggled)) in
  Theme.isDark toggled = negb (Theme.isDark st)
  /\ Theme.documentDark toggled = Theme.isDark toggled
  /\ reloaded = toggled
  /\ Theme.toggleTheme (Theme.toggleTheme toggled) = toggled
  /\ Theme.isDark (Theme.init prefersDark (Theme.freshPage None)) = prefersDark
  /\ Theme.documentDark (Theme.init prefersDark (Theme.freshPage None)) = prefersDark.
Proof.
  destruct st as [dark doc saved]. unfold Theme.toggleTheme, Theme.freshPage, Theme.init.
  simpl. destruct dark, prefersDark; simpl; repeat split; reflexivity.
Qed.

(** ** Dragging widgets *)

Lemma reorder_in_bounds {A} (undefined : A) (l : list A) (drag hoverAt : Z) (x : A) :
  0 <= drag < Z.of_nat (length l) ->
  0 <= hoverAt < Z.of_nat (length l) ->
  nth_error l (Z.to_nat drag) = Some x ->
  Widgets.handleReorderWidgets undefined l drag hoverAt
  = Widgets.insertAt (Z.to_nat hoverAt) x (Widgets.removeAt (Z.to_nat drag) l).
Proof.
  intros Hd Hh Hx. unfold Widgets.handleReorderWidgets, JSArray.at_.
  destruct (Z.ltb_spec drag 0); [lia|].
  rewrite (nth_error_nth _ _ undefined Hx), splice_remove by exact Hd.
  apply splice_insert. rewrite removeAt_length by lia. lia.
Qed.

Lemma reorder_perm {A} (undefined : A) (l : list A) (drag hoverAt : Z) :
  0 <= drag < Z.of_nat (length l) ->
  0 <= hoverAt < Z.of_nat (length l) ->
  Permutation (Widgets.handleReorderWidgets undefined l drag hoverAt) l.
Proof.
  intros Hd Hh.
  destruct (nth_error l (Z.to_nat drag)) as [x|] eqn:Hx.
  - rewrite (reorder_in_bounds undefined l drag hoverAt x Hd Hh Hx).
    eapply Permutation_trans; [apply insertAt_perm | apply removeAt_perm, Hx].
  - apply nth_error_None in Hx. lia.
Qed.

(** One [hover] keeps [item.index] on the dragged widget. *)
Lemma hover_keeps_dragged (hoverAt : Z) (y mid : Q) (d : Layout.Drag) (w : string) :
  0 <= hoverAt < Z.of_nat (length (Layout.order d)) ->
  0 <= Layout.itemIndex d < Z.of_nat (length (Layout.order d)) ->
  nth_error (Layout.order d) (Z.to_nat (Layout.itemIndex d)) = Some w ->
  let d' := Layout.hover hoverAt y mid d in
  nth_error (Layout.order d') (Z.to_nat (Layout.itemIndex d')) = Some w
  /\ 0 <= Layout.itemIndex d' < Z.of_nat (length (Layout.order d'))
  /\ Permutation (Layout.order d') (Layout.order d).
Proof.
  intros Hh Hi Hw. simpl. unfold Layout.hover.
  destruct (Layout.itemIndex d =? hoverAt); [auto|].
  destruct (_ && _); [auto|].
  destruct (_ && _); [auto|].
  simpl. pose proof (reorder_perm "undefined" (Layout.order d) (Layout.itemIndex d)
                       hoverAt Hi Hh) as Hperm.
  rewrite (Permutation_length Hperm). split; [|split; [exact Hh | exact Hperm]].
  rewrite (reorder_in_bounds "undefined" _ _ _ w Hi Hh Hw).
  apply nth_error_insertAt. rewrite removeAt_length by lia. lia.
Qed.

(** X10.  During a drag, [item.index] always addresses the dragged widget
    in the current widget order: every [hover] either leaves order and
    index alone or moves the widget to the hovered index and sets
    [item.index] to it.  The order stays a rearrangement of the one the
    drag started with. *)
Theorem drag_index_follows_widget (events : list Layout.HoverEvent) (d : Layout.Drag)
    (w : string) :
  0 <= Layout.itemIndex d < Z.of_nat (length (Layout.order d)) ->
  nth_error (Layout.order d) (Z.to_nat (Layout.itemIndex d)) = Some w ->
  Forall (fun e => 0 <= Layout.over e < Z.of_nat (length (Layout.order d))) events ->
  let d' := Layout.hoverAll events d in
  nth_error (Layout.order d') (Z.to_nat (Layout.itemIndex d')) = Some w
  /\ 0 <= Layout.itemIndex d' < Z.of_nat (length (Layout.order d'))
  /\ Permutation (Layout.order d') (Layout.order d).
Proof.
  intros Hi Hw Hall. revert d Hi Hw Hall.
  induction events as [|e events IH]; intros d Hi Hw Hall; simpl.
  - auto.
  - inversion Hall as [|? ? He Hrest]; subst.
    destruct (hover_keeps_dragged (Layout.over e) (Layout.clientY e) (Layout.middleY e)
                d w He Hi Hw) as (Hw' & Hi' & Hperm).
    destruct (IH (Layout.hover (Layout.over e) (Layout.clientY e) (Layout.middleY e) d))
      as (Hw'' & Hi'' & Hperm''); try assumption.
    + rewrite (Permutation_length Hperm). exact Hrest.
    + unfold Layout.hoverAll in *. simpl.
      split; [exact Hw''|]. split; [exact Hi''|].
      eapply Permutation_trans; eassumption.
Qed.

Lemma drag_index_follows_widget_witness :
  Layout.hoverAll Scenario.dragEvents Scenario.dragStats
  = Layout.mkDrag ["line"; "bar"; "stats"; "pie"] 2
  /\ nth_error
       (Layout.order (Layout.hoverAll Scenario.dragEvents Scenario.dragStats))
       (Z.to_nat (Layout.itemIndex (Layout.hoverAll Scenario.dragEvents Scenario.dragStats)))
     = Some "stats".
Proof.
  split; [reflexivity|].
  apply (drag_index_follows_widget Scenario.dragEvents Scenario.dragStats "stats").
  - simpl. lia.
  - reflexivity.
  - repeat constructor; simpl; lia.
Defined.

(** ** What the chart area renders *)







(** ** Charts and the table *)

Section ChartClickFacts.
Context {SH : JS.StringHost} {DH : JSDate.DateHost}.

Lemma visible_by_tag (data : list Customer) (fs : Filters.FilterState) (tag : string) :
  Filters.searchQuery fs = "" ->
  Filters.isDateFilterActive fs = false ->
  String.eqb tag "All" = false ->
  Filters.visible data (fst (Filters.handleChartFilter tag fs))
  = List.filter (fun c => JS.arrayIncludes (tags c) tag) data.
Proof.
  intros Hq Hd Htag. unfold Filters.visible, Filters.handleChartFilter, Query.filteredData.
  simpl. unfold Filters.isDateFilterActive in Hd. rewrite Hq, Hd, Htag. reflexivity.
Qed.

Lemma count_split {A} (f : A -> bool) (l : list A) :
  Z.of_nat (length l)
  = Charts.count_ f l + Charts.count_ (fun x => negb (f x)) l.
Proof.
  unfold Charts.count_. induction l as [|x l IH]; [reflexivity|].
  simpl. destruct (f x); simpl; lia.
Qed.

(** X12.  With no search text and no date filter, clicking the "Active
    Leads" card shows exactly [stats.leads] rows and clicking "Partners"
    shows exactly [stats.partners] rows; the total is the leads plus the
    records without the tag [Lead]. *)
Theorem stat_cards_match_view (now now' : Z) (data : list Customer)
    (fs : Filters.FilterState) :
  Filters.searchQuery fs = "" ->
  Filters.isDateFilterActive fs = false ->
  let stats := Charts.stats now now' data in
  Charts.leads stats
  = Z.of_nat (length (Filters.visible data (fst (Filters.handleChartFilter "Lead" fs))))
  /\ Charts.partners stats
     = Z.of_nat (length (Filters.visible data (fst (Filters.handleChartFilter "Partner" fs))))
  /\ Charts.total stats
     = Charts.leads stats
       + Charts.count_ (fun c => negb (JS.arrayIncludes (tags c) "Lead")) data.
Proof.
  intros Hq Hd. cbv zeta.
  rewrite !visible_by_tag by (assumption || reflexivity).
  repeat split; try reflexivity. apply count_split.
Qed.

Lemma firstn_In {A} (n : nat) (l : list A) (x : A) : In x (firstn n l) -> In x l.
Proof.
  revert l. induction n as [|n IH]; intros l; simpl; [tauto|].
  destruct l as [|y l]; simpl; [tauto|]. intros [H|H]; [auto | right; apply IH, H].
Qed.

(** X13.  Clicking a bar of the tag chart filters the table by the tag of
    the bar, and the rows shown are as many as the bar is high.  This holds
    with no search text and no date filter, for a tag other than [All] and
    the empty string, when no record repeats a tag and no tag names a
    member of [Object.prototype]. *)
Theorem bar_click_shows_bar_value (data : list Customer) (e : Charts.TagEntry)
    (fs : Filters.FilterState) :
  In e (Charts.tagData data) ->
  Forall (fun k => JSObject.inherited k = false) (Charts.allTags data) ->
  (forall c, In c data -> List.NoDup (tags c)) ->
  Charts.tagName e <> "All" ->
  Charts.tagName e <> "" ->
  Filters.searchQuery fs = "" ->
  Filters.isDateFilterActive fs = false ->
  let fs' := fst (Filters.handleChartClick (Some (Charts.tagName e)) fs) in
  Filters.activeRoleFilter fs' = Charts.tagName e
  /\ Z.of_nat (length (Filters.visible data fs')) = Charts.tagCount e.
Proof.
  intros He Hproto Hnd Hall Hempty Hq Hd. simpl.
  assert (Htruthy : JS.truthy (Charts.tagName e) = true).
  { destruct (Charts.tagName e); [congruence | reflexivity]. }
  assert (Hneq : String.eqb (Charts.tagName e) "All" = false).
  { destruct (String.eqb_spec (Charts.tagName e) "All"); [contradiction | reflexivity]. }
  unfold Filters.handleChartClick. rewrite Htruthy. simpl. split; [reflexivity|].
  pose proof (visible_by_tag data fs (Charts.tagName e) Hq Hd Hneq) as Hview.
  simpl in Hview. rewrite Hview.
  unfold Charts.tagData, JSArray.sliceFromStart, JSObject.entries in He.
  rewrite (tagCounts_tally data Hproto) in He.
  apply firstn_In, sort_In in He.
  change (In e (Charts.tagTable data)) in He.
  apply tagTable_In in He as [_ Hv].
  unfold Charts.tagCount. rewrite Hv.
  rewrite (occurrences_records data (Charts.tagName e) Hnd). reflexivity.
Qed.

End ChartClickFacts.

Lemma stat_cards_match_view_witness :
  Charts.leads (Charts.stats (DH := Sample.utc) Sample.noonNov2 Sample.noonNov2
                  Scenario.leadAndPartner)
  = Z.of_nat (length (Filters.visible (SH := RefHost.refStrings) (DH := Sample.utc)
                        Scenario.leadAndPartner
                        (fst (Filters.handleChartFilter "Lead" Scenario.noFilter)))).
Proof.
  apply (stat_cards_match_view (SH := RefHost.refStrings) (DH := Sample.utc)
           Sample.noonNov2 Sample.noonNov2 Scenario.leadAndPartner Scenario.noFilter);
    reflexivity.
Defined.

Lemma bar_click_shows_bar_value_witness :
  Z.of_nat (length (Filters.visible (SH := RefHost.refStrings) (DH := Sample.utc)
                      Scenario.leadAndPartner
                      (fst (Filters.handleChartClick (Some "Lead") Scenario.noFilter))))
  = 2.
Proof.
  apply (bar_click_shows_bar_value (SH := RefHost.refStrings) (DH := Sample.utc)
           Scenario.leadAndPartner (Charts.mkTagEntry "Lead" (JSObject.VNum 2))
           Scenario.noFilter).
  - vm_compute. auto.
  - repeat constructor.
  - intros c [<-|[<-|[<-|[]]]]; simpl; repeat constructor; simpl; intuition congruence.
  - discriminate.
  - discriminate.
  - reflexivity.
  - reflexivity.
Defined.

(** ** Every record is counted once *)

Lemma sumObject_setOwn (o : JSObject.t) (k : string) (v : JSObject.value) :
  Totals.sumObject (JSObject.setOwn o k v)
  = Totals.sumObject o + Totals.numberOf v
    - match JSObject.getOwn o k with
      | Some old => Totals.numberOf old
      | None => 0
      end.
Proof.
  induction o as [|[k' v'] o IH]; simpl; [lia|].
  destruct (String.eqb k k'); simpl; [lia | rewrite IH; lia].
Qed.

Lemma sumObject_tally (keys : list string) :
  Totals.sumObject (Charts.tally keys) = Z.of_nat (length keys).
Proof.
  induction keys as [|k keys IH] using rev_ind; [reflexivity|].
  rewrite <- tally_snoc, sumObject_setOwn, getOwn_tally, IH, length_app.
  destruct (existsb (String.eqb k) keys) eqn:He; simpl; [lia|].
  apply existsb_eqb_not_In in He.
  pose proof (occurrences_nonneg k keys) as Hnn.
  destruct (Z.eq_dec (Charts.occurrences k keys) 0) as [H0|Hpos]; [lia|].
  exfalso. apply He, occurrences_pos. lia.
Qed.

Lemma sumObject_perm (o o' : JSObject.t) :
  Permutation o o' -> Totals.sumObject o = Totals.sumObject o'.
Proof.
  intros H. induction H as [|x l l' H IH|x y l|l l' l'' H1 IH1 H2 IH2]; simpl; lia.
Qed.

Lemma sumTags_perm (l l' : list Charts.TagEntry) :
  Permutation l l' -> Totals.sumTags l = Totals.sumTags l'.
Proof.
  intros H. induction H as [|x l l' H IH|x y l|l l' l'' H1 IH1 H2 IH2]; simpl; lia.
Qed.

Lemma sumActivity_perm (l l' : list Charts.ActivityEntry) :
  Permutation l l' -> Totals.sumActivity l = Totals.sumActivity l'.
Proof.
  intros H. induction H as [|x l l' H IH|x y l|l l' l'' H1 IH1 H2 IH2]; simpl; lia.
Qed.

Lemma sumTags_table (o : JSObject.t) :
  Totals.sumTags (map Charts.toTagEntry o) = Totals.sumObject o.
Proof. induction o as [|[k v] o IH]; simpl; [reflexivity | rewrite IH; reflexivity]. Qed.

Lemma sumTags_firstn (n : nat) (l : list Charts.TagEntry) :
  Forall (fun e => 0 <= Charts.tagCount e) l ->
  0 <= Totals.sumTags (firstn n l) <= Totals.sumTags l.
Proof.
  intros Hall. revert n. induction Hall as [|e l He Hall IH]; intros n.
  - destruct n; simpl; lia.
  - destruct n; simpl.
    + specialize (IH 0%nat). simpl in IH. lia.
    + specialize (IH n). lia.
Qed.

(** X14.  The bars of the tag chart never add up to more than the number
    of tags written on the records, and with at most five distinct tags
    they add up to exactly that number: every tag of every record is
    counted once.  Tags are taken not to name a member of
    [Object.prototype]. *)
Theorem tag_bars_add_up (data : list Customer) :
  Forall (fun k => JSObject.inherited k = false) (Charts.allTags data) ->
  0 <= Totals.sumTags (Charts.tagData data) <= Z.of_nat (length (Charts.allTags data))
  /\ ((length (Charts.firstSeen (Charts.allTags data)) <= 5)%nat ->
      Totals.sumTags (Charts.tagData data) = Z.of_nat (length (Charts.allTags data))).
Proof.
  intros Hproto.
  set (sorted := JSArray.sort Charts.byValueDescending (Charts.tagTable data)).
  assert (Heq : Charts.tagData data = firstn 5 sorted).
  { unfold Charts.tagData, JSArray.sliceFromStart, JSObject.entries.
    rewrite (tagCounts_tally data Hproto). reflexivity. }
  assert (Hsum : Totals.sumTags sorted = Z.of_nat (length (Charts.allTags data))).
  { unfold sorted. rewrite (sumTags_perm _ _ (sort_perm _ _)).
    unfold Charts.tagTable. rewrite sumTags_table.
    rewrite (sumObject_perm _ _ (propertyOrder_perm _)). apply sumObject_tally. }
  assert (Hnn : Forall (fun e => 0 <= Charts.tagCount e) sorted).
  { apply List.Forall_forall. intros e He. apply sort_In, tagTable_In in He as [_ Hv].
    unfold Charts.tagCount. rewrite Hv. apply occurrences_nonneg. }
  rewrite Heq. split.
  - rewrite <- Hsum. apply sumTags_firstn, Hnn.
  - intros Hfew. rewrite firstn_all2; [exact Hsum|].
    unfold sorted. rewrite sort_length. unfold Charts.tagTable.
    rewrite length_map, (Permutation_length (propertyOrder_perm _)).
    unfold Charts.tally. rewrite length_map. exact Hfew.
Qed.

Section ActivityTotal.
Context {DH : JSDate.DateHost}.

Lemma monthLabels_length (data : list Customer) :
  length (Charts.monthLabels data) = length (List.filter Charts.parseable data).
Proof.
  unfold Charts.monthLabels, Charts.parseable.
  induction data as [|c data IH]; [reflexivity|]. simpl.
  rewrite length_app, IH. destruct (JSDate.parse (lastContacted c)); reflexivity.
Qed.

Lemma sumActivity_table (o : JSObject.t) :
  Totals.sumActivity (map Charts.toActivityEntry o) = Totals.sumObject o.
Proof. induction o as [|[k v] o IH]; simpl; [reflexivity | rewrite IH; reflexivity]. Qed.

(** X15.  The points of the activity chart add up to the number of records
    whose [lastContacted] parses: each such record is counted in exactly
    one month and the other records in none.  Labels are taken not to name
    a member of [Object.prototype]. *)
Theorem activity_points_add_up (data : list Customer) :
  Forall (fun k => JSObject.inherited k = false) (Charts.monthLabels data) ->
  Totals.sumActivity (Charts.activityData data)
  = Z.of_nat (length (List.filter Charts.parseable data)).
Proof.
  intros Hproto. unfold Charts.activityData, JSObject.entries.
  rewrite (activityCounts_tally data Hproto).
  rewrite (sumActivity_perm _ _ (sort_perm _ _)).
  change (map _ (JSObject.propertyOrder ?o)) with (map Charts.toActivityEntry (JSObject.propertyOrder o)).
  rewrite sumActivity_table, (sumObject_perm _ _ (propertyOrder_perm _)).
  rewrite sumObject_tally, monthLabels_length. reflexivity.
Qed.

End ActivityTotal.

Lemma tag_bars_add_up_witness :
  Totals.sumTags (Charts.tagData Scenario.leadAndPartner) = 4.
Proof.
  assert (H : Forall (fun k => JSObject.inherited k = false)
                     (Charts.allTags Scenario.leadAndPartner)) by repeat constructor.
  destruct (tag_bars_add_up Scenario.leadAndPartner H) as [_ Hall].
  apply Hall. vm_compute. lia.
Defined.

Lemma activity_points_add_up_witness :
  Totals.sumActivity (Charts.activityData (DH := Sample.utc) Scenario.leadAndPartner) = 2.
Proof.
  apply (activity_points_add_up (DH := Sample.utc) Scenario.leadAndPartner).
  vm_compute. repeat constructor.
Defined.

(** ** Preferences: saving and loading *)

Lemma sameValueZero_sym (a b : Prefs.json) :
  Prefs.sameValueZero a b = Prefs.sameValueZero b a.
Proof.
  destruct a, b; simpl; try reflexivity.
  - destruct b, b0; reflexivity.
  - apply Z.eqb_sym.
  - apply String.eqb_sym.
Qed.

Lemma addAll_distinct (seen items : list Prefs.json) :
  (forall x, In x items -> existsb (Prefs.sameValueZero x) seen = false) ->
  PrefsSave.distinct items = true ->
  Prefs.addAll seen items = seen ++ items.
Proof.
  revert seen. induction items as [|x rest IH]; intros seen Hnew Hd; simpl.
  - rewrite app_nil_r. reflexivity.
  - simpl in Hd. apply andb_true_iff in Hd as [Hx Hrest].
    apply negb_true_iff in Hx.
    rewrite (Hnew x) by (left; reflexivity).
    rewrite IH; [rewrite <- app_assoc; reflexivity| |exact Hrest].
    intros y Hy. rewrite existsb_app, (Hnew y) by (right; exact Hy). simpl.
    rewrite orb_false_r, sameValueZero_sym.
    destruct (Prefs.sameValueZero x y) eqn:Hxy; [|reflexivity].
    assert (existsb (Prefs.sameValueZero x) rest = true) as Hex.
    { apply existsb_exists. exists y. auto. }
    congruence.
Qed.

Lemma applyParsed_saved (st st0 : Prefs.State) :
  PrefsSave.restorable st ->
  let st' := Prefs.applyParsed (PrefsSave.prefsToSave st) st0 in
  Prefs.rowsPerPage st' = Prefs.rowsPerPage st
  /\ Prefs.activeRoleFilter st' = Prefs.activeRoleFilter st
  /\ Prefs.hiddenColumns st' = Prefs.hiddenColumns st
  /\ Prefs.dateRange st' = Prefs.dateRange st
  /\ Prefs.visibleCharts st' = Prefs.visibleCharts st
  /\ Prefs.chartTheme st' = Prefs.chartTheme st
  /\ Prefs.customColor st' = Prefs.customColor st
  /\ Prefs.widgetOrder st' = Prefs.widgetOrder st
  /\ Prefs.widgetSizes st' = Prefs.widgetSizes st.
Proof.
  intros (H1 & H2 & H3 & H4 & H5 & H6 & H7 & H8 & H9).
  unfold PrefsSave.prefsToSave.
  match goal with
  | |- context [Prefs.applyParsed (Prefs.JObj ?m) st0] =>
      destruct (applyParsed_independent m st0)
        as (F1 & F2 & F3 & F4 & F5 & F6 & F7 & F8 & F9)
  end.
  { unfold Prefs.hiddenColumnsLoadable.
    cbn [Prefs.lookup String.eqb Ascii.eqb Bool.eqb].
    intros _. eexists. reflexivity. }
  cbv zeta.
  rewrite F1, F2, F3, F4, F5, F6, F7, F8, F9.
  cbn [Prefs.lookup String.eqb Ascii.eqb Bool.eqb].
  unfold Prefs.loaded, Prefs.loadedArray, Prefs.loadedSet.
  rewrite H1, H2, H4, H5, H6, H7, H8, H9.
  replace (Prefs.truthy (Some (Prefs.JArr (Prefs.hiddenColumns st)))) with true
    by reflexivity.
  replace (Prefs.truthy (Some (Prefs.widgetOrder st))) with true
    by (destruct (Prefs.widgetOrder st); simpl in H8; try discriminate; reflexivity).
  cbn [Prefs.newSet andb].
  rewrite (addAll_distinct [] (Prefs.hiddenColumns st)) by (auto || exact H3).
  repeat split; reflexivity.
Qed.

Section PrefsRoundTrip.
Variable JSON_stringify : Prefs.json -> string.
Variable JSON_parse : string -> option Prefs.json.

(** X16.  Preferences survive closing and reopening the page: what the
    saving effect writes, the loading effect reads back field by field,
    over any initial state.  This needs the preferences to have been
    loaded (before that nothing is written), every preference to be
    truthy, [widgetOrder] to be an array and the hidden columns to be
    pairwise different, and [JSON.parse] to undo [JSON.stringify]. *)
Theorem saved_preferences_load_back (st st0 : Prefs.State) (stored : option string) :
  Prefs.prefsLoaded st = true ->
  PrefsSave.restorable st ->
  JS.truthy (JSON_stringify (PrefsSave.prefsToSave st)) = true ->
  JSON_parse (JSON_stringify (PrefsSave.prefsToSave st)) = Some (PrefsSave.prefsToSave st) ->
  let st' := Prefs.load JSON_parse (PrefsSave.save JSON_stringify st stored) st0 in
  Prefs.rowsPerPage st' = Prefs.rowsPerPage st
  /\ Prefs.activeRoleFilter st' = Prefs.activeRoleFilter st
  /\ Prefs.hiddenColumns st' = Prefs.hiddenColumns st
  /\ Prefs.dateRange st' = Prefs.dateRange st
  /\ Prefs.visibleCharts st' = Prefs.visibleCharts st
  /\ Prefs.chartTheme st' = Prefs.chartTheme st
  /\ Prefs.customColor st' = Prefs.customColor st
  /\ Prefs.widgetOrder st' = Prefs.widgetOrder st
  /\ Prefs.widgetSizes st' = Prefs.widgetSizes st
  /\ Prefs.prefsLoaded st' = true.
Proof.
  intros Hloaded Hok Htruthy Hparse.
  unfold PrefsSave.save, Prefs.load. rewrite Hloaded. simpl.
  rewrite Htruthy, Hparse.
  destruct (applyParsed_saved st st0 Hok) as (F1 & F2 & F3 & F4 & F5 & F6 & F7 & F8 & F9).
  repeat split; assumption.
Qed.

End PrefsRoundTrip.

Lemma saved_preferences_load_back_witness :
  Prefs.chartTheme
    (Prefs.load Scenario.parseChanged
       (PrefsSave.save Scenario.stringifyChanged Scenario.changedPrefs None)
       Prefs.defaults)
  = Prefs.JStr "emerald".
Proof.
  destruct (saved_preferences_load_back Scenario.stringifyChanged Scenario.parseChanged
              Scenario.changedPrefs Prefs.defaults None)
    as (_ & _ & _ & _ & _ & Htheme & _).
  - reflexivity.
  - repeat split; reflexivity.
  - reflexivity.
  - reflexivity.
  - exact Htheme.
Defined.

(** ** Splitting and joining *)

Lemma append_cons (a : ascii) (s t : string) : String a s +:+ t = String a (s +:+ t).
Proof. reflexivity. Qed.

Lemma append_nil_r (s : string) : s +:+ "" = s.
Proof.
  induction s as [|a s IH]; [reflexivity|].
  rewrite append_cons, IH. reflexivity.
Qed.

Lemma append_assoc (a b c : string) : (a +:+ b) +:+ c = a +:+ (b +:+ c).
Proof.
  induction a as [|x a IH]; [reflexivity|].
  rewrite !append_cons, IH. reflexivity.
Qed.

Lemma revString_acc (acc s : string) :
  JS.revString acc s = JS.revString "" s +:+ acc.
Proof.
  revert acc. induction s as [|a s IH]; intros acc; simpl; [reflexivity|].
  rewrite (IH (String a acc)), (IH (String a "")), append_assoc. reflexivity.
Qed.

Lemma revString_cons (a : ascii) (cur : string) :
  JS.revString "" (String a cur) = JS.revString "" cur +:+ String a "".
Proof. simpl. apply revString_acc. Qed.

(** The piece being read grows by what comes before the next separator. *)
Lemma revString_grow (cur t : string) :
  JS.revString "" (JS.revString cur t) = JS.revString "" cur +:+ t.
Proof.
  revert cur. induction t as [|a t IH]; intros cur; cbn [JS.revString].
  - symmetry. apply append_nil_r.
  - rewrite IH, revString_cons, append_assoc. reflexivity.
Qed.

Lemma prefix_char (c a : ascii) (rest : string) :
  String.prefix (String c "") (String a rest) = Ascii.eqb c a.
Proof.
  simpl. destruct (ascii_dec c a) as [->|Hne].
  - rewrite Ascii.eqb_refl. destruct rest; reflexivity.
  - symmetry. apply Ascii.eqb_neq. exact Hne.
Qed.

Lemma splitAux_cons (c : ascii) (cur s : string) :
  exists x l, JS.splitAux (String c "") 0 cur s = x :: l.
Proof.
  revert cur. induction s as [|a s IH]; intros cur.
  - simpl. eauto.
  - unfold JS.splitAux; fold JS.splitAux. rewrite prefix_char.
    destruct (Ascii.eqb c a); [eauto|apply IH].
Qed.

Lemma join_cons (sep x : string) (l : list string) :
  l <> [] -> JS.join sep (x :: l) = x +:+ sep +:+ JS.join sep l.
Proof. destruct l; [congruence|reflexivity]. Qed.

(** Joining the pieces with the separator gives the string back. *)
Lemma join_splitAux (c : ascii) (cur s : string) :
  JS.join (String c "") (JS.splitAux (String c "") 0 cur s)
  = JS.revString "" cur +:+ s.
Proof.
  revert cur. induction s as [|a s IH]; intros cur.
  - cbn [JS.splitAux JS.join]. symmetry. apply append_nil_r.
  - unfold JS.splitAux; fold JS.splitAux. rewrite prefix_char.
    destruct (Ascii.eqb c a) eqn:Hca.
    + apply Ascii.eqb_eq in Hca. subst a.
      destruct (splitAux_cons c "" s) as (x & l & Hxl).
      change (Nat.pred (String.length (String c ""))) with 0%nat.
      rewrite join_cons by (rewrite Hxl; discriminate).
      rewrite IH. reflexivity.
    + rewrite IH, revString_cons, append_assoc. reflexivity.
Qed.

(** A string without the separator is a single piece, and one with it
    gives at least two. *)
Lemma splitAux_pieces (c : ascii) (cur s : string) :
  if JS.includes s (String c "")
  then exists x y l, JS.splitAux (String c "") 0 cur s = x :: y :: l
  else JS.splitAux (String c "") 0 cur s = [JS.revString "" cur +:+ s].
Proof.
  revert cur. induction s as [|a s IH]; intros cur.
  - cbn. rewrite append_nil_r. reflexivity.
  - unfold JS.splitAux; fold JS.splitAux.
    unfold JS.includes; fold JS.includes. rewrite prefix_char.
    destruct (Ascii.eqb c a) eqn:Hca; simpl orb.
    + destruct (splitAux_cons c "" s) as (x & l & Hxl).
      change (Nat.pred (String.length (String c ""))) with 0%nat.
      rewrite Hxl. eauto.
    + specialize (IH (String a cur)).
      destruct (JS.includes s (String c "")); [exact IH|].
      rewrite IH, revString_cons, append_assoc. reflexivity.
Qed.

(** ** The edit form *)

Section EditForm.
Context {DH : JSDate.DateHost} {FK : Host.Faker} {CK : Host.Clock}.

(** X17.  Opening a record in the edit form and submitting the form
    untouched: every stored record with the edited id keeps its id, avatar
    and date, takes the e-mail and phone of the edited record, is left with
    one tag (the first tag of the edited record, or [Lead]), and gets the
    edited name back when that name has a space in it; a name without a
    space comes back with a space added at its end. *)
Theorem untouched_edit_form (editing c : Customer) :
  id c = id editing ->
  let c' := Form.applyEdit editing (Form.initialData editing) c in
  id c' = id c /\ avatar c' = avatar c /\ lastContacted c' = lastContacted c
  /\ email c' = email editing /\ phone c' = phone editing
  /\ tags c' = [match tags editing with
                | t :: _ => if JS.truthy t then t else "Lead"
                | [] => "Lead"
                end]
  /\ name c' = (if JS.includes (name editing) " "
                then name editing
                else name editing +:+ " ").
Proof.
  intros Hid. destruct editing as [eid ename eavatar eemail ephone etags edate].
  destruct c as [cid cname cavatar cemail cphone ctags cdate].
  simpl in Hid. subst cid.
  unfold Form.applyEdit, Form.initialData. cbn [id]. rewrite String.eqb_refl.
  cbn [id avatar lastContacted email phone tags name
       Form.firstName Form.lastName Form.email Form.phone Form.role].
  repeat split.
  unfold JS.split.
  pose proof (splitAux_pieces " " "" ename) as Hpieces.
  pose proof (join_splitAux " " "" ename) as Hjoin.
  change (JS.revString "" "" +:+ ename) with ename in Hjoin, Hpieces.
  destruct (JS.includes ename " ").
  - destruct Hpieces as (x & y & l & Hsplit). rewrite Hsplit in *.
    cbn [nth tl]. rewrite <- Hjoin. symmetry. apply join_cons. discriminate.
  - rewrite Hpieces. reflexivity.
Qed.

(** X18.  Submitting the edit form for a record that [edit] no longer
    finds in the store (no stored record has its id) changes no record and
    draws nothing from the generators, and still reports success. *)
Theorem edit_of_missing_record (editing : Customer) (formData : Form.CustomerFormData)
    (st : Store.TableState) (n : nat) :
  Store.edit (id editing) st = None ->
  Form.handleModalSubmit (Some editing) formData (Store.data st) n
  = (Store.data st, ToastSuccess "Customer updated successfully", n).
Proof.
  intros Hmissing. unfold Store.edit in Hmissing.
  pose proof (find_none _ _ Hmissing) as Hnone. clear Hmissing.
  unfold Form.handleModalSubmit, Host.ret. do 2 f_equal.
  induction (Store.data st) as [|c prev IH]; simpl; [reflexivity|].
  rewrite IH by (intros; apply Hnone; right; assumption).
  unfold Form.applyEdit. rewrite (Hnone c) by (left; reflexivity). reflexivity.
Qed.

End EditForm.

Lemma untouched_edit_form_witness :
  name (Form.applyEdit Scenario.annLee (Form.initialData Scenario.annLee) Scenario.annLee)
  = "Ann Lee"
  /\ name (Form.applyEdit Scenario.cher (Form.initialData Scenario.cher) Scenario.cher)
     = "Cher ".
Proof.
  split.
  - apply (untouched_edit_form Scenario.annLee Scenario.annLee). reflexivity.
  - apply (untouched_edit_form Scenario.cher Scenario.cher). reflexivity.
Defined.

Lemma edit_of_missing_record_witness :
  Form.handleModalSubmit (FK := Host.refFaker) (CK := Host.fixedClock 0) (DH := Sample.utc)
    (Some Scenario.cher) (Form.initialData Scenario.cher) Scenario.store 0%nat
  = (Scenario.store, ToastSuccess "Customer updated successfully", 0%nat).
Proof.
  apply (edit_of_missing_record Scenario.cher (Form.initialData Scenario.cher)
           (Store.mkTableState Scenario.store ∅) 0%nat).
  reflexivity.
Defined.

(** ** Export of the selected records *)

Lemma exportRow_fields (c : Customer) :
  CsvImport.field (Store.exportRow c) "id" = None
  /\ CsvImport.field (Store.exportRow c) "avatar" = None
  /\ CsvImport.field (Store.exportRow c) "name" = Some (name c)
  /\ CsvImport.field (Store.exportRow c) "email" = Some (email c)
  /\ CsvImport.field (Store.exportRow c) "phone" = Some (phone c)
  /\ CsvImport.field (Store.exportRow c) "tags" = Some (JS.join ", " (tags c))
  /\ CsvImport.field (Store.exportRow c) "lastContacted" = Some (lastContacted c).
Proof. repeat split; reflexivity. Qed.

(** X19.  While every selected id is the id of a stored record (which the
    handlers maintain), [handleExportSelected] does nothing exactly when
    the selection is empty.  When it exports, there is one row for every
    stored record whose id is selected, in the order of the store, and a
    row carries neither the id nor the avatar of its record. *)
Theorem export_needs_selection (st : Store.TableState) :
  Session.selectionInStore st ->
  (Store.handleExportSelected st = None <-> Store.selectedIds st = ∅)
  /\ (forall rows toast,
        Store.handleExportSelected st = Some (rows, toast) ->
        rows = map Store.exportRow
                 (List.filter (fun c => bool_decide (id c ∈ Store.selectedIds st))
                    (Store.data st))
        /\ rows <> []
        /\ (forall row, In row rows ->
              CsvImport.field row "id" = None /\ CsvImport.field row "avatar" = None)).
Proof.
  intros Hinv. unfold Store.handleExportSelected, Store.exportData.
  destruct (Store.selectedCustomers st) as [|c0 cs] eqn:Hsel; simpl.
  - split; [|intros rows toast Hnone; discriminate].
    split; [intros _|reflexivity].
    apply elem_of_equiv_empty_L. intros x Hx.
    destruct (Hinv x Hx) as (c & Hc & Hid).
    assert (In c (Store.selectedCustomers st)) as Hin.
    { unfold Store.selectedCustomers. apply filter_In. split; [exact Hc|].
      apply bool_decide_eq_true. rewrite Hid. exact Hx. }
    rewrite Hsel in Hin. exact Hin.
  - split.
    + split; [discriminate|]. intros Hempty.
      assert (In c0 (Store.selectedCustomers st)) as Hin by (rewrite Hsel; left; reflexivity).
      unfold Store.selectedCustomers in Hin. apply filter_In in Hin as [_ Hin].
      apply bool_decide_eq_true in Hin. rewrite Hempty in Hin.
      apply elem_of_empty in Hin. destruct Hin.
    + intros rows toast Hsome. injection Hsome as <- _.
      unfold Store.selectedCustomers in Hsel. rewrite Hsel.
      split; [reflexivity|]. split; [discriminate|].
      intros row Hrow.
      change (In row (map Store.exportRow (c0 :: cs))) in Hrow.
      apply in_map_iff in Hrow as (c & <- & _).
      split; apply exportRow_fields.
Qed.

Lemma export_needs_selection_witness :
  Store.handleExportSelected (Store.mkTableState Scenario.store ∅) = None.
Proof.
  apply (export_needs_selection (Store.mkTableState Scenario.store ∅)).
  - intros x Hx. apply elem_of_empty in Hx. destruct Hx.
  - reflexivity.
Defined.

(** ** From an exported row back to a record *)

Lemma includes_cons_false (c a : ascii) (t : string) :
  JS.includes (String a t) (String c "") = false ->
  Ascii.eqb c a = false /\ JS.includes t (String c "") = false.
Proof.
  unfold JS.includes; fold JS.includes. rewrite prefix_char.
  intros H. apply orb_false_iff in H. exact H.
Qed.

(** A piece without the separator is read in one go. *)
Lemma splitAux_piece (c : ascii) (cur t s : string) :
  JS.includes t (String c "") = false ->
  JS.splitAux (String c "") 0 cur (t +:+ s)
  = JS.splitAux (String c "") 0 (JS.revString cur t) s.
Proof.
  revert cur. induction t as [|a t IH]; intros cur Hfree; [reflexivity|].
  apply includes_cons_false in Hfree as [Hca Hfree].
  rewrite append_cons. unfold JS.splitAux at 1; fold JS.splitAux.
  rewrite prefix_char, Hca. rewrite IH by exact Hfree. reflexivity.
Qed.

(** Splitting at [","] what [join(", ")] built: the first piece as it was,
    every later one behind a space. *)
Lemma split_join_tags (ts : list string) (t cur : string) :
  (forall x, In x (t :: ts) -> JS.includes x "," = false) ->
  JS.splitAux "," 0 cur (JS.join ", " (t :: ts))
  = (JS.revString "" cur +:+ t) :: map (fun x => " " +:+ x) ts.
Proof.
  revert t cur. induction ts as [|t2 ts IH]; intros t cur Hfree.
  - cbn [JS.join map]. rewrite <- (append_nil_r t) at 1.
    rewrite splitAux_piece by (apply Hfree; left; reflexivity).
    cbn [JS.splitAux]. rewrite revString_grow. reflexivity.
  - rewrite join_cons by discriminate.
    rewrite splitAux_piece by (apply Hfree; left; reflexivity).
    change (", " +:+ JS.join ", " (t2 :: ts))
      with (String "," (String " " (JS.join ", " (t2 :: ts)))).
    unfold JS.splitAux at 1; fold JS.splitAux.
    rewrite prefix_char, Ascii.eqb_refl.
    change (Nat.pred (String.length ",")) with 0%nat.
    unfold JS.splitAux at 1; fold JS.splitAux.
    rewrite prefix_char.
    change (Ascii.eqb "," " ") with false. cbv iota.
    rewrite IH by (intros x Hx; apply Hfree; right; exact Hx).
    rewrite revString_grow. reflexivity.
Qed.

Section ExportImport.
Context {SH : JS.StringHost} {DH : JSDate.DateHost} {FK : Host.Faker} {CK : Host.Clock}.

(** X20.  A row written by the export, read back by the import as it was
    written: when the name, e-mail, phone and joined tags of the record are
    not empty and no tag holds a comma, the new record has the same name,
    e-mail and phone, and its tags are the old ones trimmed, each tag after
    the first one with the space that [join] put before it; so tags that
    [trim] leaves alone come back as they were.  The id and the avatar are
    generated anew, and the date is the day of the import, whatever the
    exported row says. *)
Theorem export_then_import (c : Customer) (n : nat) :
  JS.truthy (name c) = true ->
  JS.truthy (email c) = true ->
  JS.truthy (phone c) = true ->
  JS.truthy (JS.join ", " (tags c)) = true ->
  (forall t, In t (tags c) -> JS.includes t "," = false) ->
  let c' := fst (CsvImport.newCustomer (Store.exportRow c) n) in
  name c' = name c /\ email c' = email c /\ phone c' = phone c
  /\ tags c' = match tags c with
               | [] => []
               | t :: ts => JS.trim t :: map (fun x => JS.trim (" " +:+ x)) ts
               end
  /\ id c' = Host.uuid n
  /\ avatar c' = Host.avatarUrl (S n)
  /\ lastContacted c' = JSDate.formatShortDate (Host.timeAt (S (S n)))
  /\ snd (CsvImport.newCustomer (Store.exportRow c) n) = S (S (S n)).
Proof.
  destruct c as [cid cname cavatar cemail cphone ctags cdate].
  cbn [name email phone tags id avatar lastContacted].
  intros Hname Hemail Hphone Htags Hfree.
  unfold CsvImport.newCustomer, Store.exportRow, CsvImport.orGenerate,
    CsvImport.today, Host.bind, Host.draw, Host.ret.
  cbn [name email phone tags id avatar lastContacted].
  cbn [CsvImport.field String.eqb Ascii.eqb Bool.eqb CsvImport.firstTruthy].
  rewrite Hname, Hemail, Hphone, Htags.
  cbn [fst snd name email phone tags id avatar lastContacted].
  repeat split.
  destruct ctags as [|t ts]; [discriminate Htags|].
  unfold JS.split. rewrite split_join_tags by exact Hfree.
  cbn [map JS.revString]. rewrite map_map. reflexivity.
Qed.

End ExportImport.

Lemma export_then_import_witness :
  tags (fst (CsvImport.newCustomer (SH := RefHost.refStrings) (DH := Sample.utc)
               (FK := Host.refFaker) (CK := Host.fixedClock 0)
               (Store.exportRow Scenario.annLee) 0%nat))
  = ["Lead"; "VIP"]
  /\ lastContacted
       (fst (CsvImport.newCustomer (SH := RefHost.refStrings) (DH := Sample.utc)
               (FK := Host.refFaker) (CK := Host.fixedClock 0)
               (Store.exportRow Scenario.annLee) 0%nat))
     = "Jan 1, 1970".
Proof.
  destruct (export_then_import (SH := RefHost.refStrings) (DH := Sample.utc)
              (FK := Host.refFaker) (CK := Host.fixedClock 0) Scenario.annLee 0%nat)
    as (_ & _ & _ & Htags & _ & _ & Hdate & _).
  - reflexivity.
  - reflexivity.
  - reflexivity.
  - reflexivity.
  - intros t [<-|[<-|[]]]; reflexivity.
  - split; [exact Htags | exact Hdate].
Defined.
